(** * HelloFreshScrape: the extraction and normalisation engine

    A shallow embedding of [utils.py], [recipe_selectors.py],
    [scraper.py] and the request handler of [app.py], followed by the
    properties that the specification states about them and by further
    properties read off the code.

    Conventions of the model.
    - A Python value is a [pyval]; Python's [None] is [PNone] and a JSON
      object is an association list in insertion order.
    - A Python exception is a constructor of [exn]; a computation that
      may raise returns a [result].
    - Text is a [string] of ASCII characters: case mapping and character
      classes are those of Python on code points below 128.
    - A Python [float] is a double: a finite one is given by the
      rational number it denotes ([Q], kept in lowest terms), and every
      conversion and operation rounds to the nearest double, ties to
      even; the infinities, not-a-number and negative zero are values of
      their own.
    - An [int] is unbounded.  The conversions between text and an
      [int] refuse more than 4300 digits, as the interpreter does by
      default: [int] of a longer run of digits raises, and so does
      [str] of a longer number.  [str_converts] says of a value that
      [str] returns on it; the values that [json.loads] delivers all
      do.
    - The third-party libraries (BeautifulSoup/lxml, the interpreter's
      [repr]) are an interface, [Env]; the repository's own code is
      written out over it.  The HTML parser and the JSON decoder are a
      second interface, [Web], and the network is a function from the
      requests of a call to what they come to. *)

From Stdlib Require Import String Ascii List ZArith QArith Lia Bool.
From stdpp Require Import base option strings gmap.

Set Warnings "-register-all".
Local Open Scope Z_scope.

(* ================================================================== *)
(** ** Python values, exceptions                                        *)
(* ================================================================== *)

Module Py.

(** The exceptions the modelled code can raise.  [LibError] stands for
    any exception raised inside a third-party call. *)
Inductive exn : Type :=
| KeyError (k : string)
| IndexError
| ValueError
| JSONDecodeError
| ZeroDivisionError
| OverflowError
| TypeError
| AttributeError
| RecursionError
| LibError (msg : string).

(** [except ValueError] catches the class and its subclass
    [json.JSONDecodeError]. *)
Definition is_ValueError (e : exn) : bool :=
  match e with
  | ValueError | JSONDecodeError => true
  | _ => false
  end.

Inductive result (A : Type) : Type :=
| Ok (a : A)
| Raise (e : exn).
Arguments Ok {A} a.
Arguments Raise {A} e.

Definition bind {A B} (m : result A) (f : A -> result B) : result B :=
  match m with
  | Ok a => f a
  | Raise e => Raise e
  end.

(** [try: body / except Exception: handler] *)
Definition try_except {A} (body : result A) (handler : exn -> result A)
  : result A :=
  match body with
  | Ok a => Ok a
  | Raise e => handler e
  end.

(** A [float]: a finite double, given by the rational number that it
    denotes (positive zero is [Fin 0]), negative zero, an infinity, or
    not-a-number. *)
Inductive pyfloat : Type :=
| Fin (q : Q)
| NegZero
| Inf (negative : bool)
| NaN.

Coercion Fin : Q >-> pyfloat.
Bind Scope Q_scope with pyfloat.

(** Arithmetic on doubles (IEEE 754 binary64): 53 bits of precision,
    least exponent -1074, values below [2^1024]. *)
Module Float.

(** [2^e] as a rational number. *)
Definition pow2 (e : Z) : Q :=
  if 0 <=? e then inject_Z (2 ^ e) else 1 # Z.to_pos (2 ^ (- e)).

(** Numerator and denominator of [n/d * 2^(-e)]. *)
Definition scaled_num (n : positive) (e : Z) : Z :=
  Z.pos n * 2 ^ Z.max 0 (- e).

Definition scaled_den (d : positive) (e : Z) : Z :=
  Z.pos d * 2 ^ Z.max 0 e.

(** The double nearest to the positive rational [n/d], ties to even.
    [e] is the exponent of the last place: the one for which
    [n/d * 2^(-e)] has 53 bits, but not below -1074 (subnormal range);
    [m'] is the rounded significand.  A result of [2^1024] or more is
    the infinity. *)
Definition round_pos (n d : positive) : pyfloat :=
  let e0 := Z.log2 (Z.pos n) - Z.log2 (Z.pos d) - 52 in
  let e1 :=
    if scaled_num n e0 / scaled_den d e0 <? 2 ^ 52 then e0 - 1 else e0 in
  let e := Z.max e1 (-1074) in
  let a := scaled_num n e in
  let b := scaled_den d e in
  let m := a / b in
  let r := a mod b in
  let m' := if 2 * r <? b then m
            else if (2 * r =? b) && Z.even m then m else m + 1 in
  if (0 <=? e) && (2 ^ 1024 <=? m' * 2 ^ e) then Inf false
  else Fin (Qred (inject_Z m' * pow2 e)).

(** [-x] *)
Definition neg (f : pyfloat) : pyfloat :=
  match f with
  | Fin q => if Qnum q =? 0 then NegZero else Fin (Qopp q)
  | NegZero => Fin 0
  | Inf s => Inf (negb s)
  | NaN => NaN
  end.

(** The double nearest to a rational number. *)
Definition round (q : Q) : pyfloat :=
  match Qnum q with
  | Z0 => Fin 0
  | Z.pos n => round_pos n (Qden q)
  | Z.neg n => neg (round_pos n (Qden q))
  end.

(** [x + y] on two floats. *)
Definition add (a b : pyfloat) : pyfloat :=
  match a, b with
  | NaN, _ | _, NaN => NaN
  | Inf s, Inf t => if Bool.eqb s t then Inf s else NaN
  | Inf s, _ | _, Inf s => Inf s
  | NegZero, NegZero => NegZero
  | NegZero, Fin q | Fin q, NegZero => Fin q
  | Fin x, Fin y => round (x + y)
  end.

(** The conversion of an [int] to a [float], as [int + float] does it:
    [OverflowError] when the nearest double is out of range. *)
Definition of_int (z : Z) : result pyfloat :=
  match round (inject_Z z) with
  | Inf _ => Raise OverflowError
  | f => Ok f
  end.

(** [num / den] on two [int]s: the double nearest to the quotient. *)
Definition truediv (num den : Z) : result pyfloat :=
  if den =? 0 then Raise ZeroDivisionError
  else if num =? 0 then Ok (if den <? 0 then NegZero else Fin 0)
  else match round (inject_Z num / inject_Z den) with
       | Inf _ => Raise OverflowError
       | f => Ok f
       end.

(** [int(x)] on a float: truncation towards zero. *)
Definition to_int (f : pyfloat) : result Z :=
  match f with
  | Fin q => Ok (Z.quot (Qnum q) (Z.pos (Qden q)))
  | NegZero => Ok 0
  | Inf _ => Raise OverflowError
  | NaN => Raise ValueError
  end.

(** [bool(x)] on a float. *)
Definition nonzero (f : pyfloat) : bool :=
  match f with
  | Fin q => negb (Qnum q =? 0)
  | NegZero => false
  | Inf _ | NaN => true
  end.

End Float.

(** Dynamically typed values: what [json.loads] produces, which is also
    what the resolver hands around. *)
Inductive pyval : Type :=
| PNone
| PBool (b : bool)
| PInt (z : Z)
| PFloat (f : pyfloat)
| PStr (s : string)
| PList (l : list pyval)
| PDict (d : list (string * pyval)).

(** Truthiness, as tested by [if x] and [not x]. *)
Definition truthy (v : pyval) : bool :=
  match v with
  | PNone => false
  | PBool b => b
  | PInt z => negb (z =? 0)
  | PFloat f => Float.nonzero f
  | PStr s => negb (String.eqb s "")
  | PList l => match l with [] => false | _ => true end
  | PDict d => match d with [] => false | _ => true end
  end.

Definition is_none (v : pyval) : bool :=
  match v with PNone => true | _ => false end.

Definition is_list (v : pyval) : bool :=
  match v with PList _ => true | _ => false end.

Definition is_dict (v : pyval) : bool :=
  match v with PDict _ => true | _ => false end.

(** [k in d] and [d[k]] on a dict with string keys. *)
Fixpoint dict_get (d : list (string * pyval)) (k : string) : option pyval :=
  match d with
  | [] => None
  | (k', v) :: d' => if String.eqb k k' then Some v else dict_get d' k
  end.

(** [d[k] = v]: overwrite in place, or append a new entry. *)
Fixpoint dict_set (d : list (string * pyval)) (k : string) (v : pyval)
  : list (string * pyval) :=
  match d with
  | [] => [(k, v)]
  | (k', v') :: d' =>
      if String.eqb k k' then (k', v) :: d' else (k', v') :: dict_set d' k v
  end.

(** [l[i]] for a Python list: a negative index counts from the end, and
    an index outside [-len, len) raises [IndexError]. *)
Definition list_getitem (l : list pyval) (i : Z) : result pyval :=
  let n := Z.of_nat (List.length l) in
  let j := if i <? 0 then i + n else i in
  if (0 <=? j) && (j <? n)
  then match nth_error l (Z.to_nat j) with
       | Some v => Ok v
       | None => Raise IndexError
       end
  else Raise IndexError.

End Py.
Export Py.

#[global] Instance result_bind : MBind result :=
  fun A B f m => Py.bind m f.
#[global] Instance result_ret : MRet result := @Py.Ok.

(* ================================================================== *)
(** ** Python string operations                                         *)
(* ================================================================== *)

Module Str.

Definition code (c : ascii) : N := N_of_ascii c.

(** [c.isdigit()], [\d] *)
Definition digit_val (c : ascii) : option Z :=
  let n := code c in
  if ((48 <=? n) && (n <=? 57))%N then Some (Z.of_N (n - 48)) else None.

Definition is_digit (c : ascii) : bool :=
  match digit_val c with Some _ => true | None => false end.

(** [c.isspace()], [\s]: tab, newline, vertical tab, form feed, carriage
    return, the four separators 0x1c-0x1f, and the space. *)
Definition is_space (c : ascii) : bool :=
  let n := code c in
  ((9 <=? n) && (n <=? 13) || (28 <=? n) && (n <=? 32))%N.

Definition is_upper (c : ascii) : bool :=
  let n := code c in ((65 <=? n) && (n <=? 90))%N.

Definition is_lower (c : ascii) : bool :=
  let n := code c in ((97 <=? n) && (n <=? 122))%N.

Definition lower_char (c : ascii) : ascii :=
  if is_upper c then ascii_of_N (code c + 32) else c.

Definition upper_char (c : ascii) : ascii :=
  if is_lower c then ascii_of_N (code c - 32) else c.

Fixpoint map_chars (f : ascii -> ascii) (s : string) : string :=
  match s with
  | EmptyString => EmptyString
  | String c s' => String (f c) (map_chars f s')
  end.

Definition is_alnum (c : ascii) : bool :=
  is_digit c || is_upper c || is_lower c.

(** [s.lower()] *)
Definition lower (s : string) : string := map_chars lower_char s.

(** [s.capitalize()] *)
Definition capitalize (s : string) : string :=
  match s with
  | EmptyString => EmptyString
  | String c s' => String (upper_char c) (lower s')
  end.

Definition eqb_ci (a b : ascii) : bool :=
  Ascii.eqb (lower_char a) (lower_char b).

(** [s.startswith(p)] *)
Fixpoint startswith (p s : string) : bool :=
  match p, s with
  | EmptyString, _ => true
  | String a p', String b s' => Ascii.eqb a b && startswith p' s'
  | String _ _, EmptyString => false
  end.

Fixpoint drop (n : nat) (s : string) : string :=
  match n, s with
  | O, _ => s
  | S n', String _ s' => drop n' s'
  | S _, EmptyString => EmptyString
  end.

Fixpoint take (n : nat) (s : string) : string :=
  match n, s with
  | O, _ => EmptyString
  | S n', String c s' => String c (take n' s')
  | S _, EmptyString => EmptyString
  end.

(** [sub in s] *)
Fixpoint contains (sub s : string) : bool :=
  startswith sub s ||
  match s with
  | EmptyString => false
  | String _ s' => contains sub s'
  end.

(** [c in s] for a single character *)
Fixpoint has_char (c : ascii) (s : string) : bool :=
  match s with
  | EmptyString => false
  | String a s' => Ascii.eqb a c || has_char c s'
  end.

(** [s.replace(old, new)] for a non-empty [old]: occurrences are found
    left to right and do not overlap.  [skip] counts the characters of
    an occurrence that are still to be passed over. *)
Fixpoint replace_go (old new : string) (skip : nat) (s : string) : string :=
  match s with
  | EmptyString => EmptyString
  | String c s' =>
      match skip with
      | S k => replace_go old new k s'
      | O =>
          if startswith old s
          then new +:+ replace_go old new (String.length old - 1)%nat s'
          else String c (replace_go old new O s')
      end
  end.

Definition replace (s old new : string) : string :=
  replace_go old new O s.

(** [s.lstrip()], [s.rstrip()], [s.strip()] *)
Fixpoint lstrip (s : string) : string :=
  match s with
  | String c s' => if is_space c then lstrip s' else s
  | EmptyString => EmptyString
  end.

Fixpoint rstrip_set (p : ascii -> bool) (s : string) : string :=
  match s with
  | EmptyString => EmptyString
  | String c s' =>
      match rstrip_set p s' with
      | EmptyString => if p c then EmptyString else String c EmptyString
      | r => String c r
      end
  end.

Definition rstrip (s : string) : string := rstrip_set is_space s.
Definition strip (s : string) : string := rstrip (lstrip s).

(** [s.rstrip(chars)] *)
Definition rstrip_chars (chars s : string) : string :=
  rstrip_set (fun c => has_char c chars) s.

(** [s.split()]: maximal runs of non-space characters. *)
Fixpoint split_ws_go (cur : option string) (s : string) : list string :=
  match s with
  | EmptyString =>
      match cur with Some w => [String.rev w] | None => [] end
  | String c s' =>
      if is_space c
      then match cur with
           | Some w => String.rev w :: split_ws_go None s'
           | None => split_ws_go None s'
           end
      else split_ws_go
             (Some (String c (match cur with Some w => w | None => "" end))) s'
  end.

Definition split_ws (s : string) : list string := split_ws_go None s.

(** [sep.join(l)] *)
Fixpoint join (sep : string) (l : list string) : string :=
  match l with
  | [] => ""
  | [w] => w
  | w :: l' => w +:+ sep +:+ join sep l'
  end.

(** [s.split(c)] and [s.split(c, maxsplit)] for a one-character
    separator: empty pieces are kept. *)
Fixpoint split_char_go (c : ascii) (maxsplit : option nat) (cur s : string)
  : list string :=
  match s with
  | EmptyString => [String.rev cur]
  | String a s' =>
      if Ascii.eqb a c
      then match maxsplit with
           | Some O => split_char_go c maxsplit (String a cur) s'
           | Some (S m) => String.rev cur :: split_char_go c (Some m) "" s'
           | None => String.rev cur :: split_char_go c None "" s'
           end
      else split_char_go c maxsplit (String a cur) s'
  end.

Definition split_char (c : ascii) (s : string) : list string :=
  split_char_go c None "" s.

Definition split_char_max (c : ascii) (maxsplit : nat) (s : string)
  : list string :=
  split_char_go c (Some maxsplit) "" s.

Fixpoint all_chars (p : ascii -> bool) (s : string) : bool :=
  match s with
  | EmptyString => true
  | String c s' => p c && all_chars p s'
  end.

Fixpoint any_chars (p : ascii -> bool) (s : string) : bool :=
  match s with
  | EmptyString => false
  | String c s' => p c || any_chars p s'
  end.

(** The value of a run of decimal digits, most significant first. *)
Fixpoint digits_value (acc : Z) (s : string) : Z :=
  match s with
  | EmptyString => acc
  | String c s' =>
      digits_value (acc * 10 + match digit_val c with Some d => d | None => 0 end) s'
  end.

(** The most digits that [int] converts
    ([sys.int_info.default_max_str_digits]). *)
Definition int_max_str_digits : Z := 4300.

(** [int(s)] on the strings this program passes to it (pattern groups
    and their pieces: no sign, underscore or surrounding blanks): a
    non-empty run of at most [int_max_str_digits] digits converts,
    anything else is a [ValueError]. *)
Definition py_int (s : string) : result Z :=
  match s with
  | EmptyString => Raise ValueError
  | _ =>
      if all_chars is_digit s
      then if Z.of_nat (String.length s) <=? int_max_str_digits
           then Ok (digits_value 0 s)
           else Raise ValueError
      else Raise ValueError
  end.

(** [float(s)] on the same strings: digits with at most one point and at
    least one digit.  [float_go] reads the decimal number written, and
    [py_float] is the double nearest to it, whatever the number of
    digits. *)
Fixpoint float_go (seen_dot : bool) (mant : Z) (scale : positive)
                  (ndigits : nat) (s : string) : result Q :=
  match s with
  | EmptyString =>
      match ndigits with
      | O => Raise ValueError
      | _ => Ok (Qred (mant # scale))
      end
  | String c s' =>
      match digit_val c with
      | Some d =>
          float_go seen_dot (mant * 10 + d)
                   (if seen_dot then scale * 10 else scale)%positive
                   (S ndigits) s'
      | None =>
          if Ascii.eqb c "."%char && negb seen_dot
          then float_go true mant scale ndigits s'
          else Raise ValueError
      end
  end.

Definition py_float (s : string) : result pyfloat :=
  q ← float_go false 0 1 O s; Ok (Float.round q).

(** [str(n)] for an integer. *)
Definition digit_char (d : Z) : ascii :=
  ascii_of_N (48 + Z.to_N d).

Fixpoint str_of_nat_go (fuel : nat) (n : Z) (acc : string) : string :=
  match fuel with
  | O => acc
  | S fuel' =>
      let acc' := String (digit_char (n mod 10)) acc in
      if n <? 10 then acc' else str_of_nat_go fuel' (n / 10) acc'
  end.

Definition str_of_nat (n : Z) : string :=
  str_of_nat_go (S (Z.to_nat (Z.log2 n))) n "".

Definition str_of_int (z : Z) : string :=
  if z <? 0 then String "-"%char (str_of_nat (- z)) else str_of_nat z.

End Str.

(* ================================================================== *)
(** ** Regular expressions ([re])                                       *)
(* ================================================================== *)

(** A backtracking matcher with Python's priorities: alternatives are
    tried left to right, repetitions are greedy, and the first overall
    success is the match.  Every pattern of the program is written as a
    [regex] term next to the source literal it stands for. *)
Module Re.

Inductive regex : Type :=
| Eps
| Chr (p : ascii -> bool)
| Seq (r1 r2 : regex)
| Alt (r1 r2 : regex)
| Star (r : regex)
| Opt (r : regex)
| Group (g : nat) (r : regex)
| Bol
| Eol.

Definition Plus (r : regex) : regex := Seq r (Star r).

(** [r{n}] *)
Fixpoint repeat (n : nat) (r : regex) : regex :=
  match n with
  | O => Eps
  | S O => r
  | S n' => Seq r (repeat n' r)
  end.

(** A literal; under [re.IGNORECASE] ([ci = true]) letters match in
    either case. *)
Fixpoint lit (ci : bool) (s : string) : regex :=
  match s with
  | EmptyString => Eps
  | String c EmptyString =>
      Chr (if ci then Str.eqb_ci c else Ascii.eqb c)
  | String c s' =>
      Seq (Chr (if ci then Str.eqb_ci c else Ascii.eqb c)) (lit ci s')
  end.

Fixpoint alts (rs : list regex) : regex :=
  match rs with
  | [] => Chr (fun _ => false)
  | [r] => r
  | r :: rs' => Alt r (alts rs')
  end.

Definition digit : regex := Chr Str.is_digit.                 (* \d *)
Definition space : regex := Chr Str.is_space.                 (* \s *)
Definition noneof (cs : string) : regex :=                    (* [^...] *)
  Chr (fun c => negb (Str.has_char c cs)).
Definition anychar : regex :=                                 (* . *)
  Chr (fun c => negb (Ascii.eqb c "010"%char)).

(** Captured groups, most recent binding first. *)
Definition caps : Type := list (nat * string).

Fixpoint cap_get (c : caps) (g : nat) : option string :=
  match c with
  | [] => None
  | (g', t) :: c' => if Nat.eqb g g' then Some t else cap_get c' g
  end.

(** [run r pos s c k]: match [r] at offset [pos], where [s] is the text
    from [pos] on, then continue with [k]; [None] means every way of
    matching has been tried and failed.  [Bol] is [^]; [Eol] is [$],
    the end of the text or the place before a final newline. *)
Fixpoint run {X : Type} (r : regex) (pos : nat) (s : string) (c : caps)
         (k : nat -> string -> caps -> option X) {struct r} : option X :=
  match r with
  | Eps => k pos s c
  | Chr p =>
      match s with
      | String a s' => if p a then k (S pos) s' c else None
      | EmptyString => None
      end
  | Seq r1 r2 =>
      run r1 pos s c (fun pos' s' c' => run r2 pos' s' c' k)
  | Alt r1 r2 =>
      match run r1 pos s c k with
      | Some x => Some x
      | None => run r2 pos s c k
      end
  | Opt r1 =>
      match run r1 pos s c k with
      | Some x => Some x
      | None => k pos s c
      end
  | Star r1 =>
      (fix star (n : nat) (pos : nat) (s : string) (c : caps) : option X :=
         match n with
         | O => k pos s c
         | S n' =>
             match run r1 pos s c
                     (fun pos' s' c' =>
                        if Nat.ltb pos pos' then star n' pos' s' c' else None)
             with
             | Some x => Some x
             | None => k pos s c
             end
         end) (String.length s) pos s c
  | Group g r1 =>
      run r1 pos s c
          (fun pos' s' c' => k pos' s' ((g, Str.take (pos' - pos)%nat s) :: c'))
  | Bol => if Nat.eqb pos 0 then k pos s c else None
  | Eol =>
      match s with
      | EmptyString | String "010" EmptyString => k pos s c
      | _ => None
      end
  end.

(** The loop that [run] performs for [Star r], as a function of its
    own: at most [n] more turns, each of which must consume text. *)
Definition star_loop {X : Type} (r : regex)
           (k : nat -> string -> caps -> option X)
  : nat -> nat -> string -> caps -> option X :=
  fix star (n : nat) (pos : nat) (s : string) (c : caps) : option X :=
    match n with
    | O => k pos s c
    | S n' =>
        match run r pos s c
                (fun pos' s' c' =>
                   if Nat.ltb pos pos' then star n' pos' s' c' else None)
        with
        | Some x => Some x
        | None => k pos s c
        end
    end.

(** Patterns without a capturing group. *)
Fixpoint no_groups (r : regex) : bool :=
  match r with
  | Eps | Chr _ | Bol | Eol => true
  | Seq r1 r2 | Alt r1 r2 => no_groups r1 && no_groups r2
  | Star r1 | Opt r1 => no_groups r1
  | Group _ _ => false
  end.

(** A match object: where it starts and ends, its text and groups. *)
Record rmatch : Type := mk_rmatch {
  m_start : nat;
  m_end : nat;
  m_text : string;
  m_caps : caps
}.

(** [m.group(g)]; [None] when the group took no part in the match. *)
Definition group (m : rmatch) (g : nat) : option string :=
  match g with
  | O => Some (m_text m)
  | _ => cap_get (m_caps m) g
  end.

Definition match_at (r : regex) (pos : nat) (s : string) : option rmatch :=
  run r pos s []
      (fun e _ c => Some (mk_rmatch pos e (Str.take (e - pos)%nat s) c)).

(** [pattern.match(s)] *)
Definition rematch (r : regex) (s : string) : option rmatch :=
  match_at r O s.

(** [re.search(pattern, s)]: the leftmost position with a match. *)
Fixpoint search_from (r : regex) (pos : nat) (s : string) : option rmatch :=
  match match_at r pos s with
  | Some m => Some m
  | None =>
      match s with
      | EmptyString => None
      | String _ s' => search_from r (S pos) s'
      end
  end.

Definition search (r : regex) (s : string) : option rmatch :=
  search_from r O s.

(** [re.split(pattern, s)] for a pattern without groups that matches no
    empty text. *)
Fixpoint split_go (r : regex) (pos skip : nat) (cur s : string)
  : list string :=
  match s with
  | EmptyString => [String.rev cur]
  | String a s' =>
      match skip with
      | S k => split_go r (S pos) k cur s'
      | O =>
          match match_at r pos s with
          | Some m =>
              match (m_end m - pos)%nat with
              | S l => String.rev cur :: split_go r (S pos) l "" s'
              | O => split_go r (S pos) O (String a cur) s'
              end
          | None => split_go r (S pos) O (String a cur) s'
          end
      end
  end.

Definition split (r : regex) (s : string) : list string :=
  split_go r O O "" s.

(** [re.sub(pattern, '', s)] under the same proviso. *)
Fixpoint remove_go (r : regex) (pos skip : nat) (s : string) : string :=
  match s with
  | EmptyString => EmptyString
  | String a s' =>
      match skip with
      | S k => remove_go r (S pos) k s'
      | O =>
          match match_at r pos s with
          | Some m =>
              match (m_end m - pos)%nat with
              | S l => remove_go r (S pos) l s'
              | O => String a (remove_go r (S pos) O s')
              end
          | None => String a (remove_go r (S pos) O s')
          end
      end
  end.

Definition remove_all (r : regex) (s : string) : string :=
  remove_go r O O s.

End Re.

(* ================================================================== *)
(** ** The third-party interface                                        *)
(* ================================================================== *)

(** What the program asks of BeautifulSoup and of the interpreter.
    - [bs_text s] is
      [BeautifulSoup(s, "lxml").get_text(separator=' ', strip=True)];
    - [py_repr v] is [str(v)] for a float, a list or a dict;
    - [select_one], [select], [node_get] and [node_text] are the methods
      [select_one], [select], [get] and [get_text] of a parsed tree or
      of one of its elements; a query may raise. *)
Class Env : Type := {
  node : Type;
  bs_text : string -> string;
  py_repr : pyval -> string;
  select_one : node -> string -> result (option node);
  select : node -> string -> result (list node);
  node_get : node -> string -> option string;
  node_text : node -> string
}.

(** Whether [str(v)] returns.  [str] writes an [int] in decimal and
    refuses one of more than [Str.int_max_str_digits] digits, also
    inside a list or a dict; [json.dumps] does the same.  What
    [json.loads] delivers always converts. *)
Fixpoint str_converts (v : pyval) : bool :=
  match v with
  | PInt z => Z.abs z <? 10 ^ Str.int_max_str_digits
  | PList l => forallb str_converts l
  | PDict d => forallb (fun kv => str_converts kv.2) d
  | _ => true
  end.

(** [str(v)], for a value that converts. *)
Definition py_str `{E : Env} (v : pyval) : string :=
  match v with
  | PNone => "None"
  | PBool true => "True"
  | PBool false => "False"
  | PInt z => Str.str_of_int z
  | PStr s => s
  | PFloat _ | PList _ | PDict _ => py_repr v
  end.

(* ================================================================== *)
(** ** utils.py                                                         *)
(* ================================================================== *)

Module utils.
Section WithEnv.
Context `{E : Env}.

(** [clean_text(text)] *)
Definition clean_text (text : pyval) : pyval :=
  match text with
  | PNone => PNone
  | _ =>
      let text_content := bs_text (py_str text) in
      PStr (Str.join " " (Str.split_ws text_content))
  end.

(** [r'(\d+)X'] for a one-letter designator [X] *)
Definition re_count (designator : string) : Re.regex :=
  Re.Seq (Re.Group 1 (Re.Plus Re.digit)) (Re.lit false designator).

(** [r'(\d+)\s*(?:hour|hr)s?'] *)
Definition re_hour : Re.regex :=
  Re.Seq (Re.Group 1 (Re.Plus Re.digit))
    (Re.Seq (Re.Star Re.space)
       (Re.Seq (Re.Alt (Re.lit false "hour") (Re.lit false "hr"))
               (Re.Opt (Re.lit false "s")))).

(** [r'(\d+)\s*(?:minute|min)s?'] *)
Definition re_minute : Re.regex :=
  Re.Seq (Re.Group 1 (Re.Plus Re.digit))
    (Re.Seq (Re.Star Re.space)
       (Re.Seq (Re.Alt (Re.lit false "minute") (Re.lit false "min"))
               (Re.Opt (Re.lit false "s")))).

(** [r'(\d+)'] *)
Definition re_int : Re.regex := Re.Group 1 (Re.Plus Re.digit).

(** [int(m.group(1))] *)
Definition int_group1 (m : Re.rmatch) : result Z :=
  match Re.group m 1 with
  | Some t => Str.py_int t
  | None => Raise TypeError
  end.

Definition is_some {A} (o : option A) : bool :=
  match o with Some _ => true | None => false end.

(** The branch for ISO 8601 codes, lines 40-50. *)
Definition parse_iso_duration (cleaned_duration_str : string) : result pyval :=
  let hours_match := Re.search (re_count "H") cleaned_duration_str in
  let minutes_match := Re.search (re_count "M") cleaned_duration_str in
  let seconds_match := Re.search (re_count "S") cleaned_duration_str in
  let total_minutes := 0 in
  total_minutes ←
    match hours_match with
    | Some m => h ← int_group1 m; Ok (total_minutes + h * 60)
    | None => Ok total_minutes
    end;
  total_minutes ←
    match minutes_match with
    | Some m => n ← int_group1 m; Ok (total_minutes + n)
    | None => Ok total_minutes
    end;
  total_minutes ←
    match seconds_match with
    | Some m =>
        if total_minutes =? 0
        then s ← int_group1 m;
             Ok (if 30 <=? s then total_minutes + 1 else total_minutes)
        else Ok total_minutes
    | None => Ok total_minutes
    end;
  Ok (if 0 <? total_minutes then PInt total_minutes
      else if negb (is_some hours_match || is_some minutes_match
                    || is_some seconds_match)
           then PNone
           else PInt 0).

(** The branch for free text, lines 54-73. *)
Definition parse_text_duration (cleaned_duration_str : string) : result pyval :=
  let duration_str_lower := Str.lower cleaned_duration_str in
  let hour_match := Re.search re_hour duration_str_lower in
  hours ← match hour_match with
          | Some m => int_group1 m
          | None => Ok 0
          end;
  let minute_match := Re.search re_minute duration_str_lower in
  minutes ← match minute_match with
            | Some m => int_group1 m
            | None => Ok 0
            end;
  minutes ←
    (if negb (is_some hour_match) && negb (is_some minute_match)
     then match Re.search re_int duration_str_lower with
          | Some m => int_group1 m
          | None => Ok minutes
          end
     else Ok minutes);
  let calculated_total_minutes := hours * 60 + minutes in
  Ok (if 0 <? calculated_total_minutes
      then PInt calculated_total_minutes else PNone).

(** [parse_duration_to_minutes(duration_str)] *)
Definition parse_duration_to_minutes (duration_str : pyval) : result pyval :=
  if negb (truthy duration_str) then Ok PNone
  else
    match duration_str with
    | PInt z => Ok (PInt z)
    | PBool b => Ok (PInt (if b then 1 else 0))
    | PFloat f => z ← Float.to_int f; Ok (PInt z)
    | _ =>
        match clean_text (PStr (py_str duration_str)) with
        | PStr cleaned_duration_str =>
            if String.eqb cleaned_duration_str "" then Ok PNone
            else if Str.startswith "PT" cleaned_duration_str
                 then parse_iso_duration cleaned_duration_str
                 else parse_text_duration cleaned_duration_str
        | _ => Ok PNone
        end
    end.

(** [r'\((?:Contains|Allergens|Allergen Information):\s*([^)]+)\)'],
    with [re.IGNORECASE] *)
Definition re_allergens : Re.regex :=
  Re.Seq (Re.lit true "(")
    (Re.Seq (Re.alts [Re.lit true "Contains"; Re.lit true "Allergens";
                      Re.lit true "Allergen Information"])
       (Re.Seq (Re.lit true ":")
          (Re.Seq (Re.Star Re.space)
             (Re.Seq (Re.Group 1 (Re.Plus (Re.noneof ")")))
                     (Re.lit true ")"))))).

(** [r',\s*|\s+and\s+'] *)
Definition re_allergen_sep : Re.regex :=
  Re.Alt (Re.Seq (Re.lit false ",") (Re.Star Re.space))
         (Re.Seq (Re.Plus Re.space)
                 (Re.Seq (Re.lit false "and") (Re.Plus Re.space))).

(** [extract_allergens_from_text(text)]; the result is built as a set
    and its order is not determined, so it is kept as a set. *)
Definition extract_allergens_from_text (text : pyval) : gset string :=
  match text with
  | PStr s =>
      if negb (truthy text) then ∅
      else
        match Re.search re_allergens s with
        | Some m =>
            match Re.group m 1 with
            | Some allergen_string =>
                let potential_allergens :=
                  Re.split re_allergen_sep allergen_string in
                fold_left
                  (fun (allergens : gset string) allergen =>
                     let cleaned_allergen :=
                       Str.capitalize
                         (Str.lower (Str.rstrip_chars "." (Str.strip allergen))) in
                     if String.eqb cleaned_allergen "" then allergens
                     else allergens ∪ {[ cleaned_allergen ]})
                  potential_allergens ∅
            | None => ∅
            end
        | None => ∅
        end
  | _ => ∅
  end.

(** The quantity alternatives of the ingredient pattern, in order. *)
Definition re_quantity : Re.regex :=
  Re.alts
    ([ Re.Seq (Re.Plus (Re.Chr (fun c => Str.is_digit c
                                          || Str.has_char c "./")))
              (Re.Opt (Re.Seq (Re.Chr (fun c => Str.is_space c
                                                || Ascii.eqb c "-"%char))
                        (Re.Seq Re.digit (Re.Seq (Re.lit true "/") Re.digit))));
       Re.Plus Re.digit ]
     ++ map (Re.lit true)
          ["one"; "two"; "three"; "four"; "five"; "six"; "seven"; "eight";
           "nine"; "ten"; "a"; "an"; "some"]
     ++ [ Re.Seq (Re.lit true "pinch") (Re.Opt (Re.lit true "es"));
          Re.Seq (Re.lit true "dash") (Re.Opt (Re.lit true "es")) ]
     ++ map (Re.lit true) ["a few"; "several"; "to taste"]).

(** The unit alternatives of the ingredient pattern, in order. *)
Definition re_unit : Re.regex :=
  Re.alts
    (map (Re.lit true)
       ["thumb"; "clove"; "unit"; "cup"; "ounce"; "oz"; "teaspoon"; "tsp";
        "tablespoon"; "tbsp"; "tb"; "gram"; "g"; "kg"; "ml"; "l"; "pinch";
        "can"; "cans"; "stalk"; "head"; "bunch"; "slice"; "slices";
        "packet"; "pack"; "box"; "container"; "bottle"; "piece"; "lb";
        "pound"; "pounds"; "qt"; "quart"; "pt"; "pint"; "gallon"; "gal";
        "drop"; "dashes"; "leaves"]).

(** [pattern]: [^\s*(?P<quantity>...)\s*(?P<unit>...)?\s*(?P<name>.+)]
    with [re.IGNORECASE]; groups 1, 2, 3 are quantity, unit, name. *)
Definition pattern : Re.regex :=
  Re.Seq Re.Bol
    (Re.Seq (Re.Star Re.space)
       (Re.Seq (Re.Group 1 re_quantity)
          (Re.Seq (Re.Star Re.space)
             (Re.Seq (Re.Opt (Re.Group 2 re_unit))
                (Re.Seq (Re.Star Re.space)
                   (Re.Group 3 (Re.Plus Re.anychar))))))).

Definition qty_word_map : list (string * Z) :=
  [("a", 1); ("an", 1); ("one", 1); ("two", 2); ("three", 3); ("four", 4);
   ("five", 5); ("six", 6); ("seven", 7); ("eight", 8); ("nine", 9);
   ("ten", 10)].

Fixpoint word_lookup (w : string) (m : list (string * Z)) : option Z :=
  match m with
  | [] => None
  | (k, n) :: m' => if String.eqb w k then Some n else word_lookup w m'
  end.

Definition common_units_check : list string :=
  ["thumb"; "clove"; "unit"; "lime"; "scallions"; "garlic"; "ginger"].

Definition in_list (w : string) (l : list string) : bool :=
  existsb (String.eqb w) l.

(** [num, den = map(int, pieces)]: two pieces that both convert, or a
    [ValueError] (from [int] or from the unpacking). *)
Definition unpack_two_ints (pieces : list string) : result (Z * Z) :=
  match pieces with
  | [a; b] => x ← Str.py_int a; y ← Str.py_int b; Ok (x, y)
  | _ => Raise ValueError
  end.

(** [num / den] *)
Definition truediv (num den : Z) : result pyfloat := Float.truediv num den.

Definition list_item (l : list string) (i : nat) : result string :=
  match nth_error l i with
  | Some x => Ok x
  | None => Raise IndexError
  end.

(** The body of the [try] of lines 168-179. *)
Definition convert_quantity (quantity_str : string) : result pyval :=
  if Str.has_char "/" quantity_str then
    if Str.has_char "-" quantity_str || Str.has_char " " quantity_str then
      let parts :=
        Re.split (Re.Alt Re.space (Re.lit false "-")) quantity_str in
      p0 ← list_item parts 0;
      whole ← Str.py_int p0;
      p1 ← list_item parts 1;
      nd ← unpack_two_ints (Str.split_char "/" p1);
      f ← truediv nd.1 nd.2;
      w ← Float.of_int whole;
      Ok (PFloat (Float.add w f))
    else
      nd ← unpack_two_ints (Str.split_char "/" quantity_str);
      f ← truediv nd.1 nd.2;
      Ok (PFloat f)
  else
    f ← Str.py_float quantity_str;
    Ok (PFloat f).

(** Lines 163-183: the quantity value of a captured token. *)
Definition normalize_quantity (quantity_str : option string) : result pyval :=
  match quantity_str with
  | Some q =>
      if String.eqb q "" then Ok PNone
      else
        match word_lookup (Str.lower q) qty_word_map with
        | Some n => Ok (PInt n)
        | None =>
            try_except (convert_quantity q)
              (fun e => if is_ValueError e then Ok (PStr q) else Raise e)
        end
  | None => Ok PNone
  end.

(** [r'\s*\((?:Contains|Allergens|Allergen Information):\s*[^)]+\)'],
    with [re.IGNORECASE] *)
Definition re_allergen_note : Re.regex :=
  Re.Seq (Re.Star Re.space)
    (Re.Seq (Re.lit true "(")
       (Re.Seq (Re.alts [Re.lit true "Contains"; Re.lit true "Allergens";
                         Re.lit true "Allergen Information"])
          (Re.Seq (Re.lit true ":")
             (Re.Seq (Re.Star Re.space)
                (Re.Seq (Re.Plus (Re.noneof ")")) (Re.lit true ")")))))).

(** One parsed ingredient: the dict appended at lines 190-196. *)
Record ingredient : Type := mk_ingredient {
  name : pyval;
  quantity : pyval;
  unit : pyval;
  full_text : pyval;
  allergens_in_item : gset string
}.

(** An entry of the list handed to the line parsers: a BeautifulSoup
    element, or any other value. *)
Inductive item : Type :=
| Element (n : node)
| Value (v : pyval).

Definition str_truthy (s : string) : bool := negb (String.eqb s "").

Definition opt_truthy (o : option string) : bool :=
  match o with Some s => str_truthy s | None => false end.

(** Lines 128-160: quantity, unit and name strings of a cleaned line. *)
Definition split_line (full_text : string)
  : option string * option string * string :=
  match Re.rematch pattern full_text with
  | Some m =>
      let quantity_str := Re.group m 1 in
      let unit_str := Re.group m 2 in
      let name_str :=
        Str.rstrip_chars ","
          (Str.strip (match Re.group m 3 with Some n => n | None => full_text end)) in
      let first_word :=
        match Str.split_char " " name_str with w :: _ => w | [] => "" end in
      if negb (is_some unit_str) && opt_truthy quantity_str
         && negb (Str.any_chars Str.is_digit first_word)
      then (quantity_str, unit_str, name_str)
      else if negb (is_some unit_str) && opt_truthy quantity_str
      then
        let name_parts := Str.split_char_max " " 1 name_str in
        match name_parts with
        | p0 :: p1 :: _ =>
            if in_list (Str.lower p0) common_units_check
            then (quantity_str, Some p0, p1)
            else (quantity_str, unit_str, name_str)
        | [p0] =>
            if in_list (Str.lower p0) common_units_check
            then (quantity_str, Some p0, "")
            else (quantity_str, unit_str, name_str)
        | [] => (quantity_str, unit_str, name_str)
        end
      else (quantity_str, unit_str, name_str)
  | None => (None, None, full_text)
  end.

(** The text of an entry, lines 113-118; [None] is [continue]. *)
Definition item_raw_text (it : item) : option string :=
  match it with
  | Element n => Some (node_text n)
  | Value (PStr s) => Some s
  | Value _ => None
  end.

(** One turn of the loop of [parse_ingredient_strings_list]; [None] is
    [continue]. *)
Definition parse_ingredient_item (cleaning_func : pyval -> result pyval)
           (it : item) : result (option ingredient) :=
  match item_raw_text it with
  | None => Ok None
  | Some full_text_raw =>
      full_text ← cleaning_func (PStr full_text_raw);
      if negb (truthy full_text) then Ok None
      else
        let item_allergens := extract_allergens_from_text (PStr full_text_raw) in
        match full_text with
        | PStr text =>
            let '(quantity_str, unit_str, name_str) := split_line text in
            quantity ← normalize_quantity quantity_str;
            let name_str :=
              if str_truthy name_str
                 && negb (bool_decide (item_allergens = ∅))
              then Str.strip (Re.remove_all re_allergen_note name_str)
              else name_str in
            Ok (Some {|
              name := if str_truthy name_str
                      then clean_text (PStr name_str) else PNone;
              quantity := quantity;
              unit := match unit_str with
                      | Some u => if str_truthy u
                                  then clean_text (PStr u) else PNone
                      | None => PNone
                      end;
              full_text := full_text;
              allergens_in_item := item_allergens |})
        | _ => Raise TypeError
        end
  end.

(** [parse_ingredient_strings_list(ingredient_elements_or_strings)] *)
Fixpoint parse_ingredient_loop (cleaning_func : pyval -> result pyval)
         (items : list item) (parsed_ingredients : list ingredient)
         (overall_allergens : gset string)
  : result (list ingredient * gset string) :=
  match items with
  | [] => Ok (parsed_ingredients, overall_allergens)
  | it :: rest =>
      r ← parse_ingredient_item cleaning_func it;
      match r with
      | None =>
          parse_ingredient_loop cleaning_func rest parsed_ingredients
            overall_allergens
      | Some ing =>
          parse_ingredient_loop cleaning_func rest
            (parsed_ingredients ++ [ing])
            (overall_allergens ∪ allergens_in_item ing)
      end
  end.

Definition parse_ingredient_strings_list
           (ingredient_elements_or_strings : list item)
           (cleaning_func : pyval -> result pyval)
  : result (list ingredient * gset string) :=
  match ingredient_elements_or_strings with
  | [] => Ok ([], ∅)
  | _ => parse_ingredient_loop cleaning_func ingredient_elements_or_strings [] ∅
  end.

(** [parse_step_strings_list(step_elements_or_strings)] *)
Fixpoint parse_step_strings_list (step_elements_or_strings : list item)
         (cleaning_func : pyval -> result pyval) : result (list pyval) :=
  match step_elements_or_strings with
  | [] => Ok []
  | it :: rest =>
      match item_raw_text it with
      | Some raw =>
          text ← cleaning_func (PStr raw);
          parsed_steps ← parse_step_strings_list rest cleaning_func;
          Ok (if truthy text then text :: parsed_steps else parsed_steps)
      | None => parse_step_strings_list rest cleaning_func
      end
  end.

End WithEnv.
End utils.

(* ================================================================== *)
(** ** recipe_selectors.py                                              *)
(* ================================================================== *)

Module recipe_selectors.

(** A segment of an embedded-data path: a key or an integer index. *)
Inductive segment : Type :=
| Key (k : string)
| Index (i : Z).

(** A fallback strategy is a dict of strings, with the keys ["type"],
    ["selector"] and, optionally, ["attribute_name"]. *)
Abbreviation strategy := (gmap string string).

(** The per-field entry of [SELECTORS]; a key that is not written in an
    entry is [None] here. *)
Record selector_config : Type := mk_config {
  json_ld_path : option (list segment);
  css_selectors : option (list strategy);
  css_selectors_parent : option string;
  css_fields : option (list (string * strategy));
  id_in_url_pattern : option Re.regex
}.

(** [{}] *)
Definition empty_config : selector_config :=
  mk_config None None None None None.

Definition DISCLAIMER : string :=
  "Important Note: Web scraping can violate the Terms of Service (ToS) of websites, including HelloFresh. This application is developed for educational and demonstrational purposes only. Always review and respect the ToS of any website before attempting to scrape it. Proceed responsibly and at your own risk. This tool does not endorse or encourage activities that violate website ToS.".

Definition css (selector : string) : strategy :=
  {[ "type" := "css"; "selector" := selector ]}.
Definition css_attr (selector attribute_name : string) : strategy :=
  {[ "type" := "css"; "selector" := selector;
     "attribute_name" := attribute_name ]}.
Definition meta (selector attribute_name : string) : strategy :=
  {[ "type" := "meta"; "selector" := selector;
     "attribute_name" := attribute_name ]}.
Definition css_list (selector : string) : strategy :=
  {[ "type" := "css_list"; "selector" := selector ]}.

Definition field (path : string) (fallbacks : list strategy)
  : selector_config :=
  mk_config (Some [Key path]) (Some fallbacks) None None None.

Definition nutrition_step (label : string) : strategy :=
  css ("div[data-test-id='nutrition-step']:contains('" +:+ label
       +:+ "') span:last-child").

(** [r'([a-zA-Z0-9]{24})$'] *)
Definition id_pattern : Re.regex :=
  Re.Seq (Re.Group 1 (Re.repeat 24 (Re.Chr Str.is_alnum))) Re.Eol.

(** [SELECTORS], entry by entry.  The entry of the script tag holds
    keys that field resolution never reads. *)
Definition SELECTORS : list (string * selector_config) :=
  [ ("json_ld_script_selector", empty_config);
    ("external_id",
     mk_config (Some [Key "id"])
       (Some [meta "meta[name='page_id']" "content"]) None None
       (Some id_pattern));
    ("name",
     field "name"
       [css "h1[data-test-id='recipe-name']"; css "h1[itemprop='name']";
        css "h1"; meta "meta[property='og:title']" "content"]);
    ("description",
     field "description"
       [css "span[data-test-id='recipe-description']";
        css "div[data-test-id='recipe-description'] p";
        meta "meta[name='description']" "content"]);
    ("prep_time_minutes",
     field "prepTime"
       [css_attr "*[itemprop='prepTime']" "content";
        css "div[data-test-id='recipe-metadata-item-prep-time'] span"]);
    ("cook_time_minutes",
     field "cookTime"
       [css_attr "*[itemprop='cookTime']" "content";
        css "div[data-test-id='recipe-metadata-item-cook-time'] span"]);
    ("total_time_minutes",
     field "totalTime"
       [css_attr "*[itemprop='totalTime']" "content";
        css "div[data-test-id='recipe-description-meta'] div:nth-of-type(1) span:nth-of-type(2)";
        css "span:contains('Total Time') + span"]);
    ("servings",
     field "recipeYield"
       [css "button[data-test-id='yield-select-button-yield'] span";
        css "span[data-test-id='recipe-yield']";
        css "*[itemprop='recipeYield']"]);
    ("image_url",
     field "image"
       [meta "meta[property='og:image']" "content";
        css_attr "img[data-test-id='recipe-hero-image']" "src"]);
    ("ingredients",
     field "recipeIngredient"
       [css_list "div[data-test-id='ingredient-item-shipped'] div[data-test-id='ingredient-item-name']";
        css_list "div[data-test-id='ingredient-item-not-shipped'] div[data-test-id='ingredient-item-name']";
        css_list "*[itemprop='recipeIngredient']"]);
    ("steps",
     field "recipeInstructions"
       [css_list "div[data-test-id='instruction-step-description']"]);
    ("nutrition_info",
     mk_config (Some [Key "nutrition"]) None
       (Some "div[data-test-id='nutritions']")
       (Some [ ("calories", nutrition_step "Calories");
               ("fat", nutrition_step "Fat");
               ("saturated_fat", nutrition_step "Saturated Fat");
               ("carbohydrate", nutrition_step "Carbohydrate");
               ("sugar", nutrition_step "Sugar");
               ("protein", nutrition_step "Protein");
               ("fiber", nutrition_step "Dietary Fiber");
               ("cholesterol", nutrition_step "Cholesterol");
               ("sodium", nutrition_step "Sodium") ])
       None);
    ("tags_array",
     field "keywords"
       [css_list "div[data-test-id='recipe-tags-container'] a[data-test-id='tag-link']"]);
    ("cuisine", field "recipeCuisine" []);
    ("category", field "recipeCategory" []);
    ("date_published",
     field "datePublished"
       [meta "meta[property='article:published_time']" "content"]);
    ("prep_time_iso", mk_config (Some [Key "prepTime"]) None None None None);
    ("cook_time_iso", mk_config (Some [Key "cookTime"]) None None None None);
    ("total_time_iso", mk_config (Some [Key "totalTime"]) None None None None) ].

(** [SELECTORS.get(field_key, {})] on a table. *)
Fixpoint table_get (table : list (string * selector_config))
         (field_key : string) : selector_config :=
  match table with
  | [] => empty_config
  | (k, cfg) :: table' =>
      if String.eqb field_key k then cfg else table_get table' field_key
  end.

(** The entry of [SELECTORS] under ["json_ld_script_selector"]: where
    the embedded data sits in the page. *)
Definition json_ld_script_selector : strategy :=
  css "script[type='application/ld+json']#schema-org".

(** The configuration of the requests; the delays are in seconds. *)
Definition REQUEST_DELAY_SECONDS : Q := 1.
Definition MAX_RETRIES : nat := 2.
Definition RETRY_BACKOFF_FACTOR : Q := 3 # 10.

End recipe_selectors.

(** What the entry point asks of the libraries besides [Env]:
    - [parse_html s] is [BeautifulSoup(s, "lxml")];
    - [node_string n] is [n.string], [None] when the element does not
      hold a single piece of text;
    - [json_loads s] is [json.loads(s)]: the value, or the exception
      that it raises: [JSONDecodeError] on malformed text, and on valid
      text [RecursionError] (deep nesting) or [ValueError] (an integer
      of too many digits). *)
Class Web `{E : Env} : Type := {
  parse_html : string -> node;
  node_string : node -> option string;
  json_loads : string -> result pyval
}.

(* ================================================================== *)
(** ** scraper.py                                                       *)
(* ================================================================== *)

Module scraper.
Import recipe_selectors.

(** [extract_from_json_ld(json_ld_data, path)]; [path] is [None] when
    the field has no ["json_ld_path"]. *)
Fixpoint follow_path (current_data : pyval) (path : list segment)
  : result pyval :=
  match path with
  | [] => Ok current_data
  | key :: path' =>
      match current_data, key with
      | PDict d, Key k =>
          match dict_get d k with
          | Some v => follow_path v path'
          | None => Ok PNone
          end
      | PList l, Index i =>
          if i <? Z.of_nat (List.length l)
          then v ← list_getitem l i; follow_path v path'
          else Ok PNone
      | _, _ => Ok PNone
      end
  end.

Definition extract_from_json_ld (json_ld_data : pyval)
           (path : option (list segment)) : result pyval :=
  match path with
  | None | Some [] => Ok PNone
  | Some p => if negb (truthy json_ld_data) then Ok PNone
              else follow_path json_ld_data p
  end.

Section WithEnv.
Context `{E : Env}.

(** Computations that query the presentation tree: they may raise, and
    every selector handed to [select_one] or [select] is recorded, in
    order, so that "this strategy was evaluated" is observable. *)
Definition M (A : Type) : Type := list string -> result A * list string.

#[local] Instance M_ret : MRet M := fun A a log => (Ok a, log).
#[local] Instance M_bind : MBind M := fun A B f m log =>
  match m log with
  | (Ok a, log') => f a log'
  | (Raise e, log') => (Raise e, log')
  end.

Definition lift {A} (r : result A) : M A := fun log => (r, log).

(** [try: body / except Exception: handler] *)
Definition try_M {A} (body : M A) (handler : exn -> M A) : M A :=
  fun log =>
    match body log with
    | (Ok a, log') => (Ok a, log')
    | (Raise e, log') => handler e log'
    end.

Definition query_one (soup : node) (selector : string) : M (option node) :=
  fun log => (select_one soup selector, log ++ [selector]).

Definition query_all (soup : node) (selector : string) : M (list node) :=
  fun log => (select soup selector, log ++ [selector]).

(** [strategy[k]] *)
Definition strategy_item (strategy : gmap string string) (k : string)
  : result string :=
  match strategy !! k with
  | Some v => Ok v
  | None => Raise (KeyError k)
  end.

(** [cleaning_func(value) if value and cleaning_func
     else (value.strip() if value else None)] *)
Definition finish_value (cleaning_func : option (pyval -> result pyval))
           (value : option string) : result pyval :=
  match value with
  | Some v =>
      if utils.str_truthy v
      then match cleaning_func with
           | Some f => f (PStr v)
           | None => Ok (PStr (Str.strip v))
           end
      else Ok PNone
  | None => Ok PNone
  end.

(** The body of the [try] of [extract_data_point] for one strategy:
    [Some v] is [return v], [None] falls through to the next turn. *)
Definition data_point_attempt (soup : node) (strategy : gmap string string)
           (cleaning_func : option (pyval -> result pyval))
  : M (option pyval) :=
  ty ← lift (strategy_item strategy "type");
  if String.eqb ty "css" then
    sel ← lift (strategy_item strategy "selector");
    element ← query_one soup sel;
    match element with
    | Some el =>
        let value :=
          match strategy !! "attribute_name" with
          | Some a => if utils.str_truthy a then node_get el a
                      else Some (node_text el)
          | None => Some (node_text el)
          end in
        v ← lift (finish_value cleaning_func value);
        mret (Some v)
    | None => mret None
    end
  else if String.eqb ty "meta" then
    sel ← lift (strategy_item strategy "selector");
    element ← query_one soup sel;
    match element, strategy !! "attribute_name" with
    | Some el, Some a =>
        if utils.str_truthy a
        then v ← lift (finish_value cleaning_func (node_get el a));
             mret (Some v)
        else mret None
    | _, _ => mret None
    end
  else mret None.

(** [extract_data_point(soup, strategies, cleaning_func)] *)
Fixpoint extract_data_point (soup : node)
         (strategies : list (gmap string string))
         (cleaning_func : option (pyval -> result pyval)) : M pyval :=
  match strategies with
  | [] => mret PNone
  | strategy :: rest =>
      r ← try_M (data_point_attempt soup strategy cleaning_func)
                (fun _ => mret None);
      match r with
      | Some v => mret v
      | None => extract_data_point soup rest cleaning_func
      end
  end.

(** The body of the [try] of [extract_list_data] for one strategy. *)
Definition list_data_attempt (soup : node) (strategy : gmap string string)
  : M (option (list node)) :=
  ty ← lift (strategy_item strategy "type");
  if String.eqb ty "css_list" then
    sel ← lift (strategy_item strategy "selector");
    elements ← query_all soup sel;
    match elements with
    | [] => mret None
    | _ => mret (Some elements)
    end
  else mret None.

(** [extract_list_data(soup, strategies)] *)
Fixpoint extract_list_data (soup : node)
         (strategies : list (gmap string string)) : M (list node) :=
  match strategies with
  | [] => mret []
  | strategy :: rest =>
      r ← try_M (list_data_attempt soup strategy) (fun _ => mret None);
      match r with
      | Some elements => mret elements
      | None => extract_list_data soup rest
      end
  end.

(** [r'([\d\.]+)'] *)
Definition re_magnitude : Re.regex :=
  Re.Group 1 (Re.Plus (Re.Chr (fun c => Str.is_digit c
                                        || Ascii.eqb c "."%char))).

(** [extract_nutrition_value(value_str)] *)
Definition extract_nutrition_value (value_str : pyval) : result pyval :=
  match value_str with
  | PNone => Ok PNone
  | _ =>
      let s := Str.lower (py_str value_str) in
      match Re.search re_magnitude s with
      | Some m =>
          match Re.group m 1 with
          | Some t => f ← Str.py_float t; Ok (PFloat f)
          | None => Raise TypeError
          end
      | None => Ok PNone
      end
  end.

(** [r'\d+'] *)
Definition re_digits : Re.regex := Re.Plus Re.digit.

(** [parse_servings_from_json(yield_data)] *)
Definition parse_servings_from_json (yield_data : pyval) : result pyval :=
  match yield_data with
  | PNone => Ok PNone
  | PInt z => Ok (PInt z)
  | PBool b => Ok (PInt (if b then 1 else 0))
  | PFloat f => z ← Float.to_int f; Ok (PInt z)
  | PStr s =>
      match Re.search re_digits s with
      | Some m => n ← Str.py_int (Re.m_text m); Ok (PInt n)
      | None => Ok PNone
      end
  | _ => Ok PNone
  end.

(** The comprehension
    [[cleaning_func(item) if cleaning_func else item for item in raw if item]] *)
Fixpoint clean_items (cleaning_func : option (pyval -> result pyval))
         (raw : list pyval) : result (list pyval) :=
  match raw with
  | [] => Ok []
  | item :: raw' =>
      if truthy item then
        v ← match cleaning_func with
            | Some f => f item
            | None => Ok item
            end;
        vs ← clean_items cleaning_func raw';
        Ok (v :: vs)
      else clean_items cleaning_func raw'
  end.

Definition is_scalar (v : pyval) : bool :=
  match v with
  | PStr _ | PInt _ | PFloat _ | PBool _ => true
  | _ => false
  end.

Definition path_truthy (path : option (list segment)) : bool :=
  match path with
  | Some (_ :: _) => true
  | _ => false
  end.

(** The inner function [get_value] of [scrape_recipe_data], with the
    variables it closes over ([SELECTORS], [json_ld_data], [soup]) as
    its first arguments. *)
Definition get_value (table : list (string * selector_config))
           (json_ld_data : pyval) (soup : node) (field_key : string)
           (cleaning_func : option (pyval -> result pyval))
           (is_list : bool)
           (json_list_item_processor : option (pyval -> result pyval))
           (css_list_item_processor :
              option (list node -> option (pyval -> result pyval)
                      -> result pyval))
           (specific_json_parser : option (pyval -> result pyval))
  : M pyval :=
  let selector_config := table_get table field_key in
  let json_ld_path := json_ld_path selector_config in
  raw_json_value ←
    lift (if truthy json_ld_data && path_truthy json_ld_path
          then extract_from_json_ld json_ld_data json_ld_path
          else Ok PNone);
  if negb (is_none raw_json_value) then
    match specific_json_parser with
    | Some parser => lift (parser raw_json_value)
    | None =>
        if is_list then
          match json_list_item_processor with
          | Some processor => lift (processor raw_json_value)
          | None =>
              match raw_json_value with
              | PList items =>
                  lift (vs ← clean_items cleaning_func items; Ok (PList vs))
              | _ => mret (PList [])
              end
          end
        else
          match cleaning_func with
          | Some f =>
              if is_scalar raw_json_value
              then lift (f (PStr (py_str raw_json_value)))
              else mret raw_json_value
          | None => mret raw_json_value
          end
    end
  else
    match css_selectors selector_config with
    | Some (strategy :: rest) =>
        let css_strategies := strategy :: rest in
        if is_list then
          elements ← extract_list_data soup css_strategies;
          match css_list_item_processor, elements with
          | Some processor, _ :: _ => lift (processor elements cleaning_func)
          | _, _ => mret (PList [])
          end
        else extract_data_point soup css_strategies cleaning_func
    | _ => mret PNone
    end.

(** The default [cleaning_func=clean_text]. *)
Definition default_clean : pyval -> result pyval :=
  fun v => Ok (utils.clean_text v).

(** [for x in v]: the entries a value yields when iterated. *)
Fixpoint chars_of (s : string) : list pyval :=
  match s with
  | EmptyString => []
  | String c s' => PStr (String c EmptyString) :: chars_of s'
  end.

Definition iterate (v : pyval) : result (list pyval) :=
  match v with
  | PList l => Ok l
  | PStr s => Ok (chars_of s)
  | PDict d => Ok (map (fun kv => PStr kv.1) d)
  | _ => Raise TypeError
  end.

(** The dict that stands for an [ingredient] in the record. *)
Definition ingredient_dict (i : utils.ingredient) : pyval :=
  PDict [ ("name", utils.name i); ("quantity", utils.quantity i);
          ("unit", utils.unit i); ("full_text", utils.full_text i);
          ("allergens_in_item",
           PList (map PStr (elements (utils.allergens_in_item i)))) ].

(** Lines 221-225: ingredients and the allergens found in them. *)
Definition scrape_ingredients (table : list (string * selector_config))
           (json_ld_data : pyval) (soup : node)
           (scraped_data : gmap string pyval) : M (gmap string pyval) :=
  v ← get_value table json_ld_data soup "ingredients" None true
        None None None;
  entries ← lift (if truthy v then iterate v else Ok []);
  r ← lift (utils.parse_ingredient_strings_list
              (map utils.Value entries) default_clean);
  let ingredients_list := r.1 in
  let allergens_from_ingredients := r.2 in
  mret (<["allergens_extracted_from_ingredients" :=
            PList (map PStr (elements allergens_from_ingredients))]>
        (<["ingredients" := PList (map ingredient_dict ingredients_list)]>
           scraped_data)).

(** [process_json_steps(step_data_list)], lines 229-237 *)
Definition process_json_steps (step_data_list : pyval) : result pyval :=
  match step_data_list with
  | PList l =>
      let processed :=
        flat_map
          (fun step_item =>
             match step_item with
             | PDict d =>
                 match dict_get d "@type" with
                 | Some (PStr "HowToStep") =>
                     [utils.clean_text
                        (match dict_get d "text" with
                         | Some t => t
                         | None => PNone
                         end)]
                 | _ => []
                 end
             | PStr _ => [utils.clean_text step_item]
             | _ => []
             end) l in
      Ok (PList (filter (fun s => truthy s = true) processed))
  | _ => Ok (PList [])
  end.

(** [parse_step_strings_list] as the processor of selected elements;
    without a cleaning function its first call fails. *)
Definition steps_css_processor (elements : list node)
           (cleaning_func : option (pyval -> result pyval)) : result pyval :=
  match cleaning_func with
  | Some f =>
      vs ← utils.parse_step_strings_list (map utils.Element elements) f;
      Ok (PList vs)
  | None =>
      match elements with
      | [] => Ok (PList [])
      | _ => Raise TypeError
      end
  end.

(** Line 239 *)
Definition scrape_steps (table : list (string * selector_config))
           (json_ld_data : pyval) (soup : node)
           (scraped_data : gmap string pyval) : M (gmap string pyval) :=
  v ← get_value table json_ld_data soup "steps" (Some default_clean) true
        (Some process_json_steps) (Some steps_css_processor) None;
  mret (<["steps" := v]> scraped_data).

(** The canonical key of a raw nutrition key, lines 249-250. *)
Definition clean_key (key : string) : string :=
  if Str.contains "calories" (Str.lower key) then "calories"
  else Str.lower (Str.replace key "Content" "").

(** The loop of lines 246-254 over the items of the embedded mapping. *)
Fixpoint parse_nutrition_items (items : list (string * pyval))
         (parsed_nutrition : list (string * pyval))
  : result (list (string * pyval)) :=
  match items with
  | [] => Ok parsed_nutrition
  | (key, value_str) :: items' =>
      num_value ← extract_nutrition_value (PStr (py_str value_str));
      parse_nutrition_items items'
        (if is_none num_value then parsed_nutrition
         else dict_set parsed_nutrition (clean_key key) num_value)
  end.

(** The loop of lines 265-270 over the per-nutrient selectors. *)
Fixpoint css_nutrition_items (nutrition_parent_el : node)
         (fields : list (string * gmap string string))
         (css_nutrition_data : list (string * pyval))
  : M (list (string * pyval)) :=
  match fields with
  | [] => mret css_nutrition_data
  | (key, field_strategies) :: fields' =>
      value ← extract_data_point nutrition_parent_el [field_strategies]
                (Some default_clean);
      if truthy value then
        num_value ← lift (extract_nutrition_value value);
        css_nutrition_items nutrition_parent_el fields'
          (if is_none num_value then css_nutrition_data
           else dict_set css_nutrition_data
                  (Str.replace key "_schema" "") num_value)
      else css_nutrition_items nutrition_parent_el fields' css_nutrition_data
  end.

(** [scraped_data[k]] *)
Definition record_item (scraped_data : gmap string pyval) (k : string)
  : result pyval :=
  match scraped_data !! k with
  | Some v => Ok v
  | None => Raise (KeyError k)
  end.

(** Lines 243-273: the nutrition part of [scrape_recipe_data], from the
    record built so far to the record after it. *)
Definition scrape_nutrition (table : list (string * selector_config))
           (json_ld_data : pyval) (soup : node)
           (scraped_data : gmap string pyval) : M (gmap string pyval) :=
  nutrition_json ← get_value table json_ld_data soup "nutrition_info" None
                     false None None None;
  scraped_data ←
    match nutrition_json with
    | PDict items =>
        parsed_nutrition ← lift (parse_nutrition_items items []);
        mret (<["nutrition_info" := PDict parsed_nutrition]> scraped_data)
    | _ => mret scraped_data
    end;
  current ← lift (record_item scraped_data "nutrition_info");
  if negb (truthy current) then
    let nutrition_css_config := table_get table "nutrition_info" in
    match css_selectors_parent nutrition_css_config with
    | Some parent_selector =>
        if utils.str_truthy parent_selector then
          nutrition_parent_el ← query_one soup parent_selector;
          match nutrition_parent_el with
          | Some el =>
              css_nutrition_data ←
                css_nutrition_items el
                  (match css_fields nutrition_css_config with
                   | Some fields => fields
                   | None => []
                   end) [];
              mret (<["nutrition_info" := PDict css_nutrition_data]>
                      scraped_data)
          | None => mret scraped_data
          end
        else mret scraped_data
    | None => mret scraped_data
    end
  else mret scraped_data.

(** [a + b] on the values a time field can hold. *)
Definition py_add (a b : pyval) : result pyval :=
  match a, b with
  | PInt x, PInt y => Ok (PInt (x + y))
  | PStr x, PStr y => Ok (PStr (x +:+ y))
  | _, _ => Raise TypeError
  end.

(** [s.split('?')[0].split('/')[-1]] *)
Definition url_tail (s : string) : string :=
  let before_query :=
    match Str.split_char "?" s with
    | piece :: _ => piece
    | [] => ""
    end in
  List.last (Str.split_char "/" before_query) "".

(** [m.group(1)] of a search, as a value. *)
Definition search_group1 (r : Re.regex) (s : string) : option string :=
  match Re.search r s with
  | Some m => Re.group m 1
  | None => None
  end.

(** Lines 174-175 and 284-285: a field resolved with the defaults. *)
Definition scrape_plain (table : list (string * selector_config))
           (json_ld_data : pyval) (soup : node) (field_key : string)
           (scraped_data : gmap string pyval) : M (gmap string pyval) :=
  v ← get_value table json_ld_data soup field_key (Some default_clean)
        false None None None;
  mret (<[field_key := v]> scraped_data).

(** Lines 289-291: a field resolved without cleaning. *)
Definition scrape_raw (table : list (string * selector_config))
           (json_ld_data : pyval) (soup : node) (field_key : string)
           (scraped_data : gmap string pyval) : M (gmap string pyval) :=
  v ← get_value table json_ld_data soup field_key None false None None None;
  mret (<[field_key := v]> scraped_data).

(** Lines 196-198 and 205: a field resolved with a specific parser. *)
Definition scrape_parsed (table : list (string * selector_config))
           (json_ld_data : pyval) (soup : node) (field_key : string)
           (parser : pyval -> result pyval)
           (scraped_data : gmap string pyval) : M (gmap string pyval) :=
  v ← get_value table json_ld_data soup field_key (Some default_clean)
        false None None (Some parser);
  mret (<[field_key := v]> scraped_data).

(** Lines 178-192: the external identifier. *)
Definition scrape_external_id (table : list (string * selector_config))
           (json_ld_data : pyval) (soup : node) (recipe_url : string)
           (scraped_data : gmap string pyval) : M (gmap string pyval) :=
  let id_pattern := id_in_url_pattern (table_get table "external_id") in
  let extracted_id_from_url :=
    match id_pattern with
    | Some r => search_group1 r (url_tail recipe_url)
    | None => None
    end in
  json_ld_id_val ← get_value table json_ld_data soup "external_id" None
                     false None None None;
  let from_url :=
    match extracted_id_from_url with
    | Some i => if utils.str_truthy i then PStr i else PNone
    | None => PNone
    end in
  mret (<["external_id" :=
            match json_ld_id_val, id_pattern with
            | PStr v, Some r =>
                if utils.str_truthy v
                then match search_group1 r (url_tail v) with
                     | Some i => PStr i
                     | None => PStr v
                     end
                else from_url
            | _, _ => from_url
            end]> scraped_data).

(** Lines 200-202: total time from preparation and cooking time. *)
Definition backfill_total_time (scraped_data : gmap string pyval)
  : result (gmap string pyval) :=
  total ← record_item scraped_data "total_time_minutes";
  prep ← record_item scraped_data "prep_time_minutes";
  cook ← record_item scraped_data "cook_time_minutes";
  if is_none total && negb (is_none prep) && negb (is_none cook)
  then sum ← py_add prep cook;
       Ok (<["total_time_minutes" := sum]> scraped_data)
  else Ok scraped_data.

(** [d.get(k)] *)
Definition dict_get_or_none (d : list (string * pyval)) (k : string) : pyval :=
  match dict_get d k with
  | Some v => v
  | None => PNone
  end.

(** Lines 208-216: the image reference. *)
Definition scrape_image_url (table : list (string * selector_config))
           (json_ld_data : pyval) (soup : node)
           (scraped_data : gmap string pyval) : M (gmap string pyval) :=
  raw_image_data ← get_value table json_ld_data soup "image_url" None
                     false None None None;
  let scraped_data :=
    match raw_image_data with
    | PList (img_item :: _) =>
        <["image_url" :=
            match img_item with
            | PDict d => dict_get_or_none d "url"
            | _ => PStr (py_str img_item)
            end]> scraped_data
    | PDict d =>
        <["image_url" :=
            let url := dict_get_or_none d "url" in
            if truthy url then url else dict_get_or_none d "contentUrl"]>
          scraped_data
    | PStr _ => <["image_url" := raw_image_data]> scraped_data
    | _ => scraped_data
    end in
  match scraped_data !! "image_url" with
  | Some v =>
      if truthy v
      then match v with
           | PStr u => mret (<["image_url" := PStr (Str.strip u)]> scraped_data)
           | _ => lift (Raise AttributeError)
           end
      else mret scraped_data
  | None => mret scraped_data
  end.

(** Lines 277-282: tags. *)
Definition scrape_tags (table : list (string * selector_config))
           (json_ld_data : pyval) (soup : node)
           (scraped_data : gmap string pyval) : M (gmap string pyval) :=
  tags_value ← get_value table json_ld_data soup "tags_array" None
                 false None None None;
  mret (<["tags_array" :=
            match tags_value with
            | PStr s =>
                PList (map (fun tag => PStr (Str.strip tag))
                         (List.filter (fun tag => utils.str_truthy (Str.strip tag))
                            (Str.split_char "," s)))
            | PList l =>
                PList (map (fun tag => utils.clean_text (PStr (py_str tag)))
                         (List.filter truthy l))
            | _ => PList []
            end]> scraped_data).

(** [lambda x: x.strip() if x else None] *)
Definition strip_or_none (x : pyval) : result pyval :=
  if truthy x
  then match x with
       | PStr s => Ok (PStr (Str.strip s))
       | _ => Raise AttributeError
       end
  else Ok PNone.

(** Line 286 *)
Definition scrape_date_published (table : list (string * selector_config))
           (json_ld_data : pyval) (soup : node)
           (scraped_data : gmap string pyval) : M (gmap string pyval) :=
  v ← get_value table json_ld_data soup "date_published"
        (Some strip_or_none) false None None None;
  mret (<["date_published" := v]> scraped_data).

(** [scrape_recipe_data] from line 131 on: the page has been fetched
    and parsed, [json_ld_data] is what [get_json_ld_data] returned and
    [scraped_at_timestamp] is the current time as text. *)
Definition assemble_record (table : list (string * selector_config))
           (recipe_url scraped_at_timestamp : string)
           (json_ld_data : pyval) (soup : node) : M (gmap string pyval) :=
  let scraped_data : gmap string pyval :=
    <["disclaimer" := PStr DISCLAIMER]>
      (<["scraped_at_timestamp" := PStr scraped_at_timestamp]>
         (<["source_url" := PStr recipe_url]> ∅)) in
  scraped_data ← scrape_plain table json_ld_data soup "name" scraped_data;
  scraped_data ← scrape_plain table json_ld_data soup "description"
                   scraped_data;
  scraped_data ← scrape_external_id table json_ld_data soup recipe_url
                   scraped_data;
  scraped_data ← scrape_parsed table json_ld_data soup "prep_time_minutes"
                   utils.parse_duration_to_minutes scraped_data;
  scraped_data ← scrape_parsed table json_ld_data soup "cook_time_minutes"
                   utils.parse_duration_to_minutes scraped_data;
  scraped_data ← scrape_parsed table json_ld_data soup "total_time_minutes"
                   utils.parse_duration_to_minutes scraped_data;
  scraped_data ← lift (backfill_total_time scraped_data);
  scraped_data ← scrape_parsed table json_ld_data soup "servings"
                   parse_servings_from_json scraped_data;
  scraped_data ← scrape_image_url table json_ld_data soup scraped_data;
  scraped_data ← scrape_ingredients table json_ld_data soup scraped_data;
  scraped_data ← scrape_steps table json_ld_data soup scraped_data;
  scraped_data ← scrape_nutrition table json_ld_data soup scraped_data;
  scraped_data ← scrape_tags table json_ld_data soup scraped_data;
  scraped_data ← scrape_plain table json_ld_data soup "cuisine" scraped_data;
  scraped_data ← scrape_plain table json_ld_data soup "category" scraped_data;
  scraped_data ← scrape_date_published table json_ld_data soup scraped_data;
  scraped_data ← scrape_raw table json_ld_data soup "prep_time_iso"
                   scraped_data;
  scraped_data ← scrape_raw table json_ld_data soup "cook_time_iso"
                   scraped_data;
  scraped_data ← scrape_raw table json_ld_data soup "total_time_iso"
                   scraped_data;
  mret scraped_data.

End WithEnv.
Section WithWeb.
Context `{E : Env} `{W : !Web}.
#[local] Existing Instance M_ret.
#[local] Existing Instance M_bind.

(** [isinstance(item, dict) and item.get("@type") == "Recipe"] *)
Definition is_recipe (item : pyval) : bool :=
  match item with
  | PDict d =>
      match dict_get d "@type" with
      | Some (PStr ty) => String.eqb ty "Recipe"
      | _ => false
      end
  | _ => false
  end.

(** The loop of lines 26-28: the first entry of type [Recipe]. *)
Fixpoint first_recipe (json_data : list pyval) : option pyval :=
  match json_data with
  | [] => None
  | item :: json_data' =>
      if is_recipe item then Some item else first_recipe json_data'
  end.

(** [get_json_ld_data(soup)], with the entry of [SELECTORS] that it
    reads as its first argument; [None] when the entry is absent. *)
Definition get_json_ld_data (script_selector_info : option (gmap string string))
           (soup : node) : M pyval :=
  match script_selector_info with
  | None => mret PNone
  | Some info =>
      if bool_decide (info = ∅) then mret PNone
      else
        selector ← lift (strategy_item info "selector");
        script_tag ← query_one soup selector;
        match script_tag with
        | Some tag =>
            match node_string tag with
            | Some text =>
                if utils.str_truthy text then
                  match json_loads text with
                  | Ok (PList json_data) =>
                      match first_recipe json_data with
                      | Some item => mret item
                      | None =>
                          mret (match json_data with
                                | item :: _ => item
                                | [] => PNone
                                end)
                      end
                  | Ok (PDict d) => mret (PDict d)
                  | Ok _ => mret PNone
                  | Raise JSONDecodeError => mret PNone
                  | Raise e => lift (Raise e)
                  end
                else mret PNone
            | None => mret PNone
            end
        | None => mret PNone
        end
  end.

(** What a request comes to: the body of a response that
    [raise_for_status] accepts, an [HTTPError] with the status code of
    its response, or another [RequestException] with its text. *)
Inductive response : Type :=
| Fetched (text : string)
| HTTPError (status_code : Z)
| RequestException (message : string).

(** What a call does to the outside, in order.  The seconds of a pause
    are given as the decimal number that the source writes ([0.3]
    stands for that literal). *)
Inductive event : Type :=
| Sleep (seconds : Q)
| Get (url : string).

(** How the loop of lines 110-124 ends: it is left with [html_content]
    set or not, or the function returns an error from inside it. *)
Inductive fetched : Type :=
| Page (html_content : option string)
| Failed (error : string).

(** [{"error": message}] *)
Definition error_dict (message : string) : gmap string pyval :=
  {[ "error" := PStr message ]}.

(** Lines 110-124.  [requests_get url n] is what the request number [n]
    of this call comes to; [attempts] is what is left of
    [range(MAX_RETRIES)]. *)
Fixpoint fetch_loop (requests_get : string -> nat -> response)
         (recipe_url : string) (attempts : list nat) (trace : list event)
  : fetched * list event :=
  match attempts with
  | [] => (Page None, trace)
  | attempt :: attempts' =>
      let trace := trace ++ [Get recipe_url] in
      let backoff :=
        Sleep (RETRY_BACKOFF_FACTOR * inject_Z (2 ^ Z.of_nat attempt)) in
      match requests_get recipe_url attempt with
      | Fetched text => (Page (Some text), trace)
      | HTTPError status_code =>
          if status_code =? 404
          then (Failed "Recipe not found (404).", trace)
          else if Nat.eqb attempt (MAX_RETRIES - 1)
          then (Failed ("HTTP error after "
                        +:+ Str.str_of_int (Z.of_nat MAX_RETRIES)
                        +:+ " attempts: " +:+ Str.str_of_int status_code
                        +:+ "."), trace)
          else fetch_loop requests_get recipe_url attempts' (trace ++ [backoff])
      | RequestException message =>
          if Nat.eqb attempt (MAX_RETRIES - 1)
          then (Failed ("Request error after "
                        +:+ Str.str_of_int (Z.of_nat MAX_RETRIES)
                        +:+ " attempts: " +:+ message +:+ "."), trace)
          else fetch_loop requests_get recipe_url attempts' (trace ++ [backoff])
      end
  end.

(** What a call of [scrape_recipe_data] comes to: the dict it returns
    or the exception it raises, what it did to the outside, and the
    selectors it queried. *)
Record outcome : Type := mk_outcome {
  returned : result (gmap string pyval);
  events : list event;
  queries : list string
}.

(** [scrape_recipe_data(recipe_url)]; [now] is the current time as
    text.  The choice of the [User-Agent] header has no part in it. *)
Definition scrape_recipe_data (requests_get : string -> nat -> response)
           (now : string) (recipe_url : string) : outcome :=
  let trace := [Sleep REQUEST_DELAY_SECONDS] in
  match fetch_loop requests_get recipe_url (seq 0 MAX_RETRIES) trace with
  | (Failed error, trace) => mk_outcome (Ok (error_dict error)) trace []
  | (Page html_content, trace) =>
      match html_content with
      | Some html =>
          if utils.str_truthy html then
            let soup := parse_html html in
            let run :=
              (json_ld_data ← get_json_ld_data (Some json_ld_script_selector)
                                soup;
               assemble_record SELECTORS recipe_url now json_ld_data soup) [] in
            mk_outcome run.1 trace run.2
          else
            mk_outcome (Ok (error_dict "Could not retrieve HTML content."))
              trace []
      | None =>
          mk_outcome (Ok (error_dict "Could not retrieve HTML content."))
            trace []
      end
  end.

End WithWeb.

End scraper.

(* ================================================================== *)
(** ** app.py                                                           *)
(* ================================================================== *)

Module app.

(** What the handler reads of Flask's [request]: [is_json], and what
    [get_json()] returns or raises. *)
Record request : Type := mk_request {
  is_json : bool;
  get_json : result pyval
}.

(** [data.get('url')] *)
Definition data_get_url (data : pyval) : result pyval :=
  match data with
  | PDict d => Ok (scraper.dict_get_or_none d "url")
  | _ => Raise AttributeError
  end.

(** [recipe_url.startswith(('http://', 'https://'))] *)
Definition has_http_scheme (recipe_url : pyval) : result bool :=
  match recipe_url with
  | PStr u => Ok (Str.startswith "http://" u || Str.startswith "https://" u)
  | _ => Raise AttributeError
  end.

(** ["error" in scraped_data] *)
Definition has_error (scraped_data : gmap string pyval) : bool :=
  bool_decide (is_Some (scraped_data !! "error")).

(** [jsonify(data)]: the body of the response, or the [ValueError] of
    an int that cannot be written.  [jsonify] writes an [int] as [str]
    does; everything else that a record holds it writes. *)
Definition jsonify (data : gmap string pyval) : result (gmap string pyval) :=
  if forallb (fun kv => str_converts kv.2) (map_to_list data)
  then Ok data
  else Raise ValueError.

(** [handle_scrape_recipe()]: the body and the status of the response,
    or the exception left to Flask, and what the scraper did to the
    outside.  [scrape_recipe_data] is the scraper as the handler calls
    it.  The messages of the three refusals are text, which [jsonify]
    writes. *)
Definition handle_scrape_recipe
           (scrape_recipe_data : string -> scraper.outcome) (request : request)
  : result (gmap string pyval * Z) * list scraper.event :=
  if negb (is_json request)
  then (Ok (scraper.error_dict "Invalid request: payload must be JSON.", 400),
        [])
  else
    match data ← get_json request; data_get_url data with
    | Raise e => (Raise e, [])
    | Ok recipe_url =>
        if negb (truthy recipe_url)
        then (Ok (scraper.error_dict "URL is required.", 400), [])
        else
          match has_http_scheme recipe_url, recipe_url with
          | Ok true, PStr u =>
              let run := scrape_recipe_data u in
              (try_except
                 (scraped_data ← scraper.returned run;
                  body ← jsonify scraped_data;
                  Ok (body, if has_error scraped_data then 500 else 200))
                 (fun _ =>
                    Ok (scraper.error_dict
                          "An unexpected server error occurred. Please check server logs.",
                        500)),
               scraper.events run)
          | Ok _, _ =>
              (Ok (scraper.error_dict
                     "Invalid URL format. Must start with http:// or https://",
                   400), [])
          | Raise e, _ => (Raise e, [])
          end
    end.

End app.

(* ================================================================== *)
(** ** A small concrete page model                                      *)
(* ================================================================== *)

(** A finite stand-in for a parsed page, used to run the definitions on
    concrete inputs: an element has a text, attributes, and the elements
    each selector finds below it.  The empty selector is rejected, as a
    malformed selector is by the real library.  On text without markup
    [bs_text] returns its argument. *)
Module Sample.

Inductive elem : Type :=
| Elem (text : string) (attrs : list (string * string))
       (found : list (string * elem)).

Definition elem_text (e : elem) : string :=
  match e with Elem t _ _ => t end.

Fixpoint assoc (k : string) (l : list (string * string)) : option string :=
  match l with
  | [] => None
  | (k', v) :: l' => if String.eqb k k' then Some v else assoc k l'
  end.

Definition elem_get (e : elem) (a : string) : option string :=
  match e with Elem _ attrs _ => assoc a attrs end.

Definition elem_select (e : elem) (selector : string) : result (list elem) :=
  if String.eqb selector "" then Raise (LibError "empty selector")
  else
    match e with
    | Elem _ _ found =>
        Ok (map snd (List.filter (fun kv => String.eqb selector (fst kv)) found))
    end.

Definition elem_select_one (e : elem) (selector : string)
  : result (option elem) :=
  l ← elem_select e selector; Ok (head l).

#[export] Instance env : Env := {|
  node := elem;
  bs_text := fun s => s;
  py_repr := fun _ => "<repr>";
  select_one := elem_select_one;
  select := elem_select;
  node_get := elem_get;
  node_text := elem_text
|}.

(** A page with no embedded data and no matching element. *)
Definition empty_page : elem := Elem "" [] [].

(** A page whose markup carries a preparation time and a title. *)
Definition page_with_fallbacks : elem :=
  Elem "" []
    [ ("*[itemprop='prepTime']", Elem "" [("content", "PT30M")] []);
      ("h1", Elem "Tomato  Soup" [] []);
      ("*[itemprop='recipeIngredient']", Elem "1 cup sugar" [] []);
      ("div[data-test-id='instruction-step-description']",
       Elem "Stir." [] []) ].

(** Embedded data whose preparation time is not a duration and whose
    ingredient and instruction entries are single strings. *)
Definition odd_embedded_data : pyval :=
  PDict [ ("@type", PStr "Recipe");
          ("prepTime", PStr "soon");
          ("recipeIngredient", PStr "1 cup sugar");
          ("recipeInstructions", PStr "Stir.") ].

(** Embedded data in the shape of the sample page of the source's own
    test, and the address of that page. *)
Definition teriyaki_data : pyval :=
  PDict
    [ ("@type", PStr "Recipe");
      ("name",
       PStr "Teriyaki Chicken Tenders with Jasmine Rice and Green Beans");
      ("description", PStr "Soy to the world!");
      ("totalTime", PStr "PT35M");
      ("recipeYield", PInt 2);
      ("recipeIngredient",
       PList [ PStr "1 Thumb Ginger";
               PStr "5 teaspoon Cornstarch (Contains: Soy, Wheat)" ]);
      ("recipeInstructions",
       PList [ PDict [ ("@type", PStr "HowToStep");
                       ("text", PStr "Wash and dry all produce.") ] ]);
      ("nutrition",
       PDict [ ("@type", PStr "NutritionInformation");
               ("calories", PStr "640 kcal"); ("fatContent", PStr "15 g") ]);
      ("recipeCuisine", PStr "Asian");
      ("recipeCategory", PStr "main course");
      ("datePublished", PStr "2018-01-22T19:57:37+00:00") ].

Definition teriyaki_url : string :=
  "https://www.hellofresh.com/recipes/teriyaki-chicken-tenders-5a664231ad1d6c6f007d0d72".

End Sample.

(** The rest of the stand-in: a page is written as the text of its
    embedded data, which is found under the script selector and decoded
    by a table of the two texts that the examples use. *)
Module SamplePage.

Definition script_page (text : string) : Sample.elem :=
  Sample.Elem "" []
    [ ("script[type='application/ld+json']#schema-org",
       Sample.Elem text [] []) ].

Definition decode (text : string) : result pyval :=
  if String.eqb text "teriyaki" then Ok Sample.teriyaki_data
  else if String.eqb text "graph"
  then Ok (PList [ PDict [("@type", PStr "WebSite")];
                   Sample.teriyaki_data ])
  else Raise JSONDecodeError.

Definition parse (html : string) : Sample.elem :=
  if String.eqb html "<html></html>" then Sample.empty_page
  else script_page html.

Definition elem_string (e : Sample.elem) : option string :=
  Some (Sample.elem_text e).

#[export] Instance web : @Web Sample.env :=
  @Build_Web Sample.env parse elem_string decode.

(** A network on which the first request fails with the given
    response and every later one delivers the page. *)
Definition flaky (first : scraper.response) (html : string)
  : string -> nat -> scraper.response :=
  fun _ n => match n with O => first | _ => scraper.Fetched html end.

End SamplePage.

(* ================================================================== *)
(** ** Vocabulary of the statements                                     *)
(* ================================================================== *)

Import recipe_selectors.

(** A path segment that is a key or a non-negative index. *)
Definition nonneg_segment (k : segment) : Prop :=
  match k with
  | Key _ => True
  | Index i => 0 <= i
  end.

(** The machine-duration code [PThHmM] for [h] hours and [m] minutes,
    the counts written as [str] writes them. *)
Definition iso_code (h m : N) : string :=
  "PT" +:+ Str.str_of_int (Z.of_N h) +:+ "H"
       +:+ Str.str_of_int (Z.of_N m) +:+ "M".

(** The codes with one component only, [PTmM] and [PThH]. *)
Definition iso_minutes_code (m : N) : string :=
  "PT" +:+ Str.str_of_int (Z.of_N m) +:+ "M".

Definition iso_hours_code (h : N) : string :=
  "PT" +:+ Str.str_of_int (Z.of_N h) +:+ "H".

(** A count as a duration code writes it: a non-empty run of digits,
    leading zeros included, that [int] converts (at most
    [Str.int_max_str_digits] digits). *)
Definition count (ds : string) : Prop :=
  ds <> "" /\ Str.all_chars Str.is_digit ds = true
  /\ Z.of_nat (String.length ds) <= Str.int_max_str_digits.

(** A run of digits: not empty, and digits only. *)
Definition digit_run (ds : string) : Prop :=
  ds <> "" /\ Str.all_chars Str.is_digit ds = true.

(** [k] zeros. *)
Fixpoint zeros (k : nat) : string :=
  match k with
  | O => ""
  | S k' => String "0" (zeros k')
  end.

(** The library's text extraction leaves plain alphanumeric text as it
    is. *)
Definition bs_text_plain `{E : Env} : Prop :=
  forall s, Str.all_chars Str.is_alnum s = true -> bs_text s = s.

(** The normalised text of a value: what [clean_text(str(v))] holds. *)
Definition cleaned `{E : Env} (v : pyval) : string :=
  Str.join " " (Str.split_ws (bs_text (py_str v))).

Definition is_number (v : pyval) : bool :=
  match v with
  | PInt _ | PBool _ | PFloat _ => true
  | _ => false
  end.

(** The count captured by a search, 0 when nothing was found. *)
Definition group_value (o : option Re.rmatch) : Z :=
  match o with
  | Some m =>
      match Re.group m 1 with
      | Some t => Str.digits_value 0 t
      | None => 0
      end
  | None => 0
  end.

(** A machine-duration code has a recognizable component when one of
    the three searches of the ISO branch finds something. *)
Definition has_component (c : string) : bool :=
  utils.is_some (Re.search (utils.re_count "H") c)
  || utils.is_some (Re.search (utils.re_count "M") c)
  || utils.is_some (Re.search (utils.re_count "S") c).

(** The same, said of the text: it holds a non-empty run of digits
    directly followed by one of the three designators. *)
Definition component_in (c : string) : Prop :=
  exists pre ds d post,
    c = pre +:+ ds +:+ String d post
    /\ ds <> ""
    /\ Str.all_chars Str.is_digit ds = true
    /\ (d = "H"%char \/ d = "M"%char \/ d = "S"%char).

(** Every run of digits in the text is one that [int] converts: none
    is longer than [Str.int_max_str_digits]. *)
Definition digit_runs_convert (c : string) : Prop :=
  forall pre ds post,
    c = pre +:+ ds +:+ post ->
    Str.all_chars Str.is_digit ds = true ->
    Z.of_nat (String.length ds) <= Str.int_max_str_digits.

(** The total of a machine-duration code: hours and minutes, or else
    one minute for thirty seconds or more. *)
Definition iso_total (c : string) : Z :=
  let t := group_value (Re.search (utils.re_count "H") c) * 60
           + group_value (Re.search (utils.re_count "M") c) in
  if t =? 0
  then if 30 <=? group_value (Re.search (utils.re_count "S") c) then 1 else 0
  else t.

(** The total of a free-text duration: the hour and minute quantities,
    or else the first bare integer as minutes. *)
Definition text_total (c : string) : Z :=
  let l := Str.lower c in
  let h := Re.search utils.re_hour l in
  let m := Re.search utils.re_minute l in
  group_value h * 60
  + (if utils.is_some h || utils.is_some m then group_value m
     else group_value (Re.search utils.re_int l)).

(** The cleaned texts of the entries that the ingredient loop keeps:
    entries that carry text whose cleaned form is not empty. *)
Definition kept_text `{E : Env} (cleaning_func : pyval -> result pyval)
           (it : utils.item) : list pyval :=
  match utils.item_raw_text it with
  | Some raw =>
      match cleaning_func (PStr raw) with
      | Ok t => if truthy t then [t] else []
      | Raise _ => []
      end
  | None => []
  end.

(** [s.endswith(suffix)] *)
Definition endswith (suffix s : string) : bool :=
  Str.startswith (String.rev suffix) (String.rev s).

(** The canonical nutrition key as the specification words it: only a
    trailing ["Content"] is stripped, then the key is lower-cased;
    a key that contains ["calories"] becomes ["calories"]. *)
Definition canonical_key_as_stated (key : string) : string :=
  if Str.contains "calories" (Str.lower key) then "calories"
  else Str.lower
         (if endswith "Content" key
          then Str.take (String.length key - String.length "Content") key
          else key).

(** A value that is text or nothing. *)
Definition str_or_none (v : pyval) : Prop :=
  v = PNone \/ exists s, v = PStr s.

(** A word: not empty and free of blank characters. *)
Definition is_word (w : string) : Prop :=
  w <> "" /\ Str.all_chars (fun c => negb (Str.is_space c)) w = true.

(** Text in the normal form of [clean_text]: not empty, and made of
    words separated by single blanks. *)
Definition normal_text (s : string) : Prop :=
  s <> "" /\ Str.join " " (Str.split_ws s) = s.

(** What an entry contributes to the parsed steps under the default
    cleaning: the cleaned text of an entry that carries text, unless
    that is empty. *)
Definition step_text `{E : Env} (it : utils.item) : option string :=
  match utils.item_raw_text it with
  | Some raw =>
      let t := cleaned (PStr raw) in
      if String.eqb t "" then None else Some t
  | None => None
  end.

(** What an entry of the embedded instructions contributes: the cleaned
    text of a string, or of the ["text"] of a mapping whose ["@type"]
    is ["HowToStep"], unless that is missing or empty. *)
Definition json_step_text `{E : Env} (step_item : pyval) : option string :=
  match step_item with
  | PStr _ =>
      let t := cleaned step_item in
      if String.eqb t "" then None else Some t
  | PDict d =>
      match dict_get d "@type", dict_get d "text" with
      | Some (PStr "HowToStep"), Some text =>
          if is_none text then None
          else let t := cleaned text in
               if String.eqb t "" then None else Some t
      | _, _ => None
      end
  | _ => None
  end.

(** An allergen name as the ingredient lines write it: a non-empty word
    of letters and digits. *)
Definition allergen_name (w : string) : Prop :=
  w <> "" /\ Str.all_chars Str.is_alnum w = true.

(** The normal form of an allergen name: first letter in upper case,
    the rest in lower case. *)
Definition canonical_allergen (w : string) : string :=
  Str.capitalize (Str.lower w).

(** [str(n)] for a natural number: its decimal digits. *)
Definition dec (n : N) : string := Str.str_of_int (Z.of_N n).

(** The characters of a magnitude, [[\d\.]]. *)
Definition is_magnitude_char (c : ascii) : bool :=
  Str.is_digit c || Ascii.eqb c ".".

(** Where [$] matches: at the end of the text, or before a newline that
    ends it. *)
Definition at_end (s : string) : bool :=
  match s with
  | EmptyString => true
  | String c EmptyString => Ascii.eqb c "010"
  | _ => false
  end.

(** A recipe identifier: 24 letters and digits. *)
Definition recipe_id (i : string) : Prop :=
  String.length i = 24%nat /\ Str.all_chars Str.is_alnum i = true.

(** The addresses requested in a run, in order. *)
Definition requested (l : list scraper.event) : list string :=
  omap (fun ev => match ev with
                  | scraper.Get url => Some url
                  | scraper.Sleep _ => None
                  end) l.

(* ================================================================== *)
(** * Properties                                                        *)
(* ================================================================== *)

(* ------------------------------------------------------------------ *)
(** ** Embedded-path lookup                                             *)
(* ------------------------------------------------------------------ *)

Lemma list_getitem_in_range (l : list pyval) (i : Z) :
  0 <= i -> i < Z.of_nat (List.length l) ->
  exists v, list_getitem l i = Ok v.
Proof.
  intros H0 Hlt. unfold list_getitem.
  replace (i <? 0) with false by (symmetry; apply Z.ltb_ge; lia).
  replace (0 <=? i) with true by (symmetry; apply Z.leb_le; lia).
  replace (i <? Z.of_nat (List.length l)) with true
    by (symmetry; apply Z.ltb_lt; lia).
  simpl. destruct (nth_error l (Z.to_nat i)) as [v|] eqn:E.
  - now exists v.
  - apply nth_error_None in E. lia.
Qed.

(** With keys and non-negative indices only, the walk along a path ends
    in a value: no step can raise. *)
Lemma follow_path_nonneg_total (path : list segment) :
  Forall nonneg_segment path ->
  forall current_data, exists v, scraper.follow_path current_data path = Ok v.
Proof.
  induction 1 as [|key path Hkey Hpath IH]; intros current_data; simpl.
  - now exists current_data.
  - destruct current_data as [| b | z | q | s | l | d];
      destruct key as [k|i]; try (now exists PNone).
    + destruct (i <? Z.of_nat (List.length l)) eqn:Hlt; [|now exists PNone].
      apply Z.ltb_lt in Hlt. simpl in Hkey.
      destruct (list_getitem_in_range l i Hkey Hlt) as [v ->]. apply IH.
    + destruct (dict_get d k); [apply IH | now exists PNone].
Qed.

(** C5 (code at the failing input).  Embedded-path lookup is not total
    over integer indices: the guard on a sequence index is only
    [key < len(current_data)], so a negative index that reaches before
    the start of the sequence passes the guard and the indexing raises
    [IndexError].  Here the trees are [{"a": []}] and [{"a": [1, 2]}]
    and the paths are [["a", -1]] and [["a", -3]]. *)
Theorem extract_from_json_ld_negative_index_raises :
  scraper.extract_from_json_ld
    (PDict [("a", PList [])]) (Some [Key "a"; Index (-1)])
  = Raise IndexError
  /\ scraper.extract_from_json_ld
       (PDict [("a", PList [PInt 1; PInt 2])]) (Some [Key "a"; Index (-3)])
     = Raise IndexError.
Proof. split; reflexivity. Qed.

(* ------------------------------------------------------------------ *)
(** ** The nutrition part of record assembly                            *)
(* ------------------------------------------------------------------ *)

(** When the embedded nutrition entry
    resolves to anything but a mapping - in particular when it is
    missing - the record has no ["nutrition_info"] key when line 257
    reads it: the call raises [KeyError] and no fallback selector is
    queried after the field resolution. *)
Lemma scrape_nutrition_keyerror `{E : Env}
    (json_ld_data : pyval) (soup : node) (scraped_data : gmap string pyval)
    (log log' : list string) (v : pyval) :
  scraped_data !! "nutrition_info" = None ->
  scraper.get_value SELECTORS json_ld_data soup "nutrition_info" None false
    None None None log = (Ok v, log') ->
  is_dict v = false ->
  scraper.scrape_nutrition SELECTORS json_ld_data soup scraped_data log
  = (Raise (KeyError "nutrition_info"), log').
Proof.
  intros Hkey Hget Hv. unfold scraper.scrape_nutrition.
  unfold mbind at 1, scraper.M_bind at 1. rewrite Hget.
  destruct v; try discriminate Hv;
    unfold mbind, scraper.M_bind, mret, scraper.M_ret, scraper.lift,
      scraper.record_item; rewrite Hkey; reflexivity.
Qed.

(* ------------------------------------------------------------------ *)
(** ** Facts about strings                                              *)
(* ------------------------------------------------------------------ *)

Section StringFacts.

Lemma app_cons (c : ascii) (a b : string) :
  String c a +:+ b = String c (a +:+ b).
Proof. reflexivity. Qed.

Lemma app_empty_l (b : string) : "" +:+ b = b.
Proof. reflexivity. Qed.

Lemma app_empty_r (a : string) : a +:+ "" = a.
Proof. induction a as [|c a IH]; [reflexivity|]. now rewrite app_cons, IH. Qed.

Lemma app_assoc' (a b c : string) : (a +:+ b) +:+ c = a +:+ (b +:+ c).
Proof.
  induction a as [|x a IH]; [reflexivity|]. now rewrite !app_cons, IH.
Qed.

Lemma length_app (a b : string) :
  String.length (a +:+ b) = (String.length a + String.length b)%nat.
Proof.
  induction a as [|x a IH]; [reflexivity|]. rewrite app_cons. simpl. now rewrite IH.
Qed.

Lemma take_app_length (a b : string) : Str.take (String.length a) (a +:+ b) = a.
Proof.
  induction a as [|x a IH].
  - now destruct b.
  - rewrite app_cons. cbn [String.length Str.take]. now rewrite IH.
Qed.

Lemma all_chars_app (p : ascii -> bool) (a b : string) :
  Str.all_chars p (a +:+ b) = Str.all_chars p a && Str.all_chars p b.
Proof.
  induction a as [|x a IH]; [reflexivity|].
  rewrite app_cons. simpl. rewrite IH. now rewrite andb_assoc.
Qed.

Lemma all_chars_impl (p q : ascii -> bool) (s : string) :
  (forall c, p c = true -> q c = true) ->
  Str.all_chars p s = true -> Str.all_chars q s = true.
Proof.
  intros Hpq. induction s as [|c s IH]; [reflexivity|]. simpl.
  intros [Hc Hs]%andb_true_iff. rewrite (Hpq c Hc). now apply IH.
Qed.

Lemma rev_app_append (w acc s : string) :
  String.rev_app w acc +:+ s = String.rev_app w (acc +:+ s).
Proof.
  revert acc. induction w as [|c w IH]; intros acc; simpl; [reflexivity|].
  now rewrite IH, app_cons.
Qed.

Lemma alnum_not_space (c : ascii) :
  Str.is_alnum c = true -> Str.is_space c = false.
Proof.
  destruct c as [[] [] [] [] [] [] [] []]; vm_compute; congruence.
Qed.

Lemma digit_is_alnum (c : ascii) :
  Str.is_digit c = true -> Str.is_alnum c = true.
Proof. unfold Str.is_alnum. now intros ->. Qed.

(** Text without blanks is a single word for [split]. *)
Lemma split_ws_go_word (s w : string) :
  Str.all_chars (fun c => negb (Str.is_space c)) s = true ->
  Str.split_ws_go (Some w) s = [String.rev w +:+ s].
Proof.
  revert w. induction s as [|c s IH]; intros w; simpl.
  - now rewrite app_empty_r.
  - intros [Hc Hs]%andb_true_iff. apply negb_true_iff in Hc. rewrite Hc.
    rewrite IH by assumption. unfold String.rev. simpl.
    now rewrite !rev_app_append.
Qed.

Lemma split_ws_word (s : string) :
  s <> "" ->
  Str.all_chars (fun c => negb (Str.is_space c)) s = true ->
  Str.split_ws s = [s].
Proof.
  destruct s as [|c s]; [congruence|]. intros _. simpl.
  intros [Hc Hs]%andb_true_iff. apply negb_true_iff in Hc.
  unfold Str.split_ws. simpl. rewrite Hc.
  now rewrite split_ws_go_word by assumption.
Qed.

Lemma digit_val_digit_char (d : Z) :
  0 <= d < 10 -> Str.digit_val (Str.digit_char d) = Some d.
Proof.
  intros Hd.
  assert (d = 0 \/ d = 1 \/ d = 2 \/ d = 3 \/ d = 4 \/ d = 5 \/ d = 6
          \/ d = 7 \/ d = 8 \/ d = 9) as Hcases by lia.
  repeat (destruct Hcases as [-> | Hcases]; [reflexivity|]).
  now subst.
Qed.

Lemma digits_value_nonneg (s : string) (acc : Z) :
  0 <= acc -> 0 <= Str.digits_value acc s.
Proof.
  revert acc. induction s as [|c s IH]; intros acc Hacc; simpl; [assumption|].
  apply IH. destruct (Str.digit_val c) as [d|] eqn:Hd; [|lia].
  assert (0 <= d) by
    (destruct c as [[] [] [] [] [] [] [] []]; vm_compute in Hd;
     try discriminate; injection Hd as <-; lia).
  lia.
Qed.

Lemma str_of_nat_go_value (fuel : nat) :
  forall n acc, 0 <= n -> n < 2 ^ Z.of_nat fuel ->
    Str.digits_value 0 (Str.str_of_nat_go fuel n acc) = Str.digits_value n acc.
Proof.
  induction fuel as [|fuel IH]; intros n acc Hn Hlt.
  - simpl in *. now replace n with 0 by lia.
  - cbn [Str.str_of_nat_go].
    assert (Hmod : 0 <= n mod 10 < 10) by (apply Z.mod_pos_bound; lia).
    assert (Hstep : forall a, Str.digits_value a
                      (String (Str.digit_char (n mod 10)) acc)
                    = Str.digits_value (a * 10 + n mod 10) acc).
    { intros a. simpl. now rewrite digit_val_digit_char. }
    destruct (n <? 10) eqn:Hsmall.
    + apply Z.ltb_lt in Hsmall. rewrite Hstep.
      now rewrite Z.mod_small by lia.
    + apply Z.ltb_ge in Hsmall. rewrite IH.
      * rewrite Hstep. f_equal. pose proof (Z.div_mod n 10). lia.
      * apply Z.div_pos; lia.
      * rewrite Nat2Z.inj_succ, Z.pow_succ_r in Hlt by lia.
        apply Z.div_lt_upper_bound; lia.
Qed.

Lemma str_of_nat_go_digits (fuel : nat) :
  forall n acc, 0 <= n ->
    Str.all_chars Str.is_digit acc = true ->
    Str.all_chars Str.is_digit (Str.str_of_nat_go fuel n acc) = true.
Proof.
  induction fuel as [|fuel IH]; intros n acc Hn Hacc; [assumption|].
  cbn [Str.str_of_nat_go].
  assert (Hmod : 0 <= n mod 10 < 10) by (apply Z.mod_pos_bound; lia).
  assert (Hd : Str.all_chars Str.is_digit
                 (String (Str.digit_char (n mod 10)) acc) = true).
  { simpl. unfold Str.is_digit at 1. rewrite digit_val_digit_char by lia.
    assumption. }
  destruct (n <? 10); [assumption|].
  apply IH; [apply Z.div_pos; lia | assumption].
Qed.

Lemma str_of_nat_go_nonempty (fuel : nat) :
  forall n acc, acc <> "" -> Str.str_of_nat_go fuel n acc <> "".
Proof.
  induction fuel as [|fuel IH]; intros n acc Hacc; [assumption|].
  cbn [Str.str_of_nat_go]. destruct (n <? 10); [congruence|].
  apply IH. congruence.
Qed.

(** [str(n)] of a natural number is a non-empty run of digits that
    [int] reads back as [n]. *)
Lemma str_of_nat_spec (n : Z) :
  0 <= n ->
  Str.str_of_nat n <> ""
  /\ Str.all_chars Str.is_digit (Str.str_of_nat n) = true
  /\ Str.digits_value 0 (Str.str_of_nat n) = n.
Proof.
  intros Hn. unfold Str.str_of_nat. repeat split.
  - cbn [Str.str_of_nat_go]. destruct (n <? 10); [congruence|].
    apply str_of_nat_go_nonempty. congruence.
  - now apply str_of_nat_go_digits.
  - rewrite str_of_nat_go_value; [reflexivity | assumption |].
    rewrite Nat2Z.inj_succ, Z2Nat.id by apply Z.log2_nonneg.
    destruct (Z.eq_dec n 0) as [-> | Hnz]; [reflexivity|].
    apply Z.log2_spec. lia.
Qed.

(** [str(n)] has no more digits than the magnitude of [n] asks for. *)
Lemma str_of_nat_go_length (fuel : nat) :
  forall n acc k, 1 <= k -> n < 10 ^ k ->
    Z.of_nat (String.length (Str.str_of_nat_go fuel n acc))
    <= k + Z.of_nat (String.length acc).
Proof.
  induction fuel as [|fuel IH]; intros n acc k Hk Hn.
  - cbn [Str.str_of_nat_go]. lia.
  - cbn [Str.str_of_nat_go]. destruct (n <? 10) eqn:Hsmall.
    + cbn [String.length]. lia.
    + apply Z.ltb_ge in Hsmall.
      assert (Hk2 : 2 <= k).
      { destruct (Z.eq_dec k 1) as [-> | ?]; [|lia].
        change (10 ^ 1) with 10 in Hn. lia. }
      assert (Hpow : 10 ^ k = 10 * 10 ^ (k - 1)).
      { replace k with (Z.succ (k - 1)) at 1 by lia.
        apply Z.pow_succ_r. lia. }
      specialize (IH (n / 10) (String (Str.digit_char (n mod 10)) acc)
                     (k - 1) ltac:(lia)).
      cbn [String.length] in IH. rewrite Nat2Z.inj_succ in IH.
      assert (n / 10 < 10 ^ (k - 1))
        by (apply Z.div_lt_upper_bound; lia).
      lia.
Qed.

Lemma str_of_nat_length (n k : Z) :
  1 <= k -> n < 10 ^ k ->
  Z.of_nat (String.length (Str.str_of_nat n)) <= k.
Proof.
  intros Hk Hn. unfold Str.str_of_nat.
  pose proof (str_of_nat_go_length (S (Z.to_nat (Z.log2 n))) n "" k Hk Hn) as H.
  cbn [String.length] in H. lia.
Qed.

(** [int] reads a non-empty run of digits within its limit as the
    number written, and refuses a longer run. *)
Lemma py_int_digits (s : string) :
  s <> "" -> Str.all_chars Str.is_digit s = true ->
  Z.of_nat (String.length s) <= Str.int_max_str_digits ->
  Str.py_int s = Ok (Str.digits_value 0 s).
Proof.
  intros Hne Hd Hlen. unfold Str.py_int. destruct s; [congruence|].
  rewrite Hd. apply Z.leb_le in Hlen. now rewrite Hlen.
Qed.

Lemma py_int_long (s : string) :
  Str.int_max_str_digits < Z.of_nat (String.length s) ->
  Str.py_int s = Raise ValueError.
Proof.
  intros Hlen. unfold Str.py_int. destruct s; [reflexivity|].
  destruct (Str.all_chars _ _); [|reflexivity].
  apply Z.leb_gt in Hlen. now rewrite Hlen.
Qed.

End StringFacts.

(* ------------------------------------------------------------------ *)
(** ** Facts about the matcher                                          *)
(* ------------------------------------------------------------------ *)

Section RegexFacts.

Lemma run_star_eq {X} (r : Re.regex) pos s c (k : nat -> string -> Re.caps -> option X) :
  Re.run (Re.Star r) pos s c k = Re.star_loop r k (String.length s) pos s c.
Proof. reflexivity. Qed.

(** A greedy run over a character class, when what follows cannot start
    with a character of the class: the whole run is taken. *)
Lemma star_loop_chr_all {X} (p : ascii -> bool)
      (k : nat -> string -> Re.caps -> option X) :
  (forall pos a s c, p a = true -> k pos (String a s) c = None) ->
  forall ds rest n pos c,
    Str.all_chars p ds = true ->
    match rest with String a _ => p a = false | EmptyString => True end ->
    (String.length ds <= n)%nat ->
    Re.star_loop (Re.Chr p) k n pos (ds +:+ rest) c
    = k (pos + String.length ds)%nat rest c.
Proof.
  intros Hrej ds. induction ds as [|a ds IH]; intros rest n pos c Hds Hrest Hn.
  - rewrite app_empty_l. cbn [String.length]. rewrite Nat.add_0_r.
    destruct n as [|n]; [reflexivity|]. cbn [Re.star_loop Re.run].
    destruct rest as [|b rest]; [reflexivity|]. now rewrite Hrest.
  - cbn [Str.all_chars] in Hds. apply andb_true_iff in Hds as [Ha Hds].
    cbn [String.length] in Hn. destruct n as [|n]; [lia|].
    rewrite app_cons. cbn [Re.star_loop Re.run]. rewrite Ha.
    replace (Nat.ltb pos (S pos)) with true
      by (symmetry; apply Nat.ltb_lt; lia).
    fold (Re.star_loop (Re.Chr p) k).
    rewrite IH by (assumption || lia).
    cbn [String.length].
    replace (S pos + String.length ds)%nat with (pos + S (String.length ds))%nat
      by lia.
    destruct (k (pos + S (String.length ds))%nat rest c); [reflexivity|].
    now apply Hrej.
Qed.

(** Whatever a run over a character class takes is made of characters
    of the class. *)
Lemma star_loop_chr_sound {X} (p : ascii -> bool)
      (k : nat -> string -> Re.caps -> option X) (n : nat) :
  forall pos s c x,
    Re.star_loop (Re.Chr p) k n pos s c = Some x ->
    exists j, Str.all_chars p (Str.take j s) = true
              /\ k (pos + j)%nat (Str.drop j s) c = Some x.
Proof.
  induction n as [|n IH]; intros pos s c x Hrun.
  - exists O. rewrite Nat.add_0_r. now destruct s.
  - cbn [Re.star_loop Re.run] in Hrun.
    fold (Re.star_loop (Re.Chr p) k) in Hrun.
    assert (Hzero : k pos s c = Some x ->
              exists j, Str.all_chars p (Str.take j s) = true
                        /\ k (pos + j)%nat (Str.drop j s) c = Some x).
    { intros Hk. exists O. rewrite Nat.add_0_r. now destruct s. }
    destruct s as [|a s]; [now apply Hzero|].
    destruct (p a) eqn:Ha; [|now apply Hzero].
    replace (Nat.ltb pos (S pos)) with true in Hrun
      by (symmetry; apply Nat.ltb_lt; lia).
    destruct (Re.star_loop (Re.Chr p) k n (S pos) s c) as [y|] eqn:Hstar;
      [|now apply Hzero].
    injection Hrun as ->. destruct (IH _ _ _ _ Hstar) as (j & Hj & Hk).
    exists (S j). cbn [Str.take Str.drop Str.all_chars]. rewrite Ha, Hj.
    split; [reflexivity|].
    now replace (pos + S j)%nat with (S pos + j)%nat by lia.
Qed.

(** A pattern without groups hands the captured groups on unchanged. *)
Lemma run_no_groups {X} (r : Re.regex) :
  Re.no_groups r = true ->
  forall pos s c (k : nat -> string -> Re.caps -> option X) x,
    Re.run r pos s c k = Some x ->
    exists pos' s', k pos' s' c = Some x.
Proof.
  induction r as [| p | r1 IH1 r2 IH2 | r1 IH1 r2 IH2 | r1 IH1 | r1 IH1
                 | g r1 IH1 | |]; cbn [Re.no_groups]; intros Hng pos s c k x Hrun.
  - now exists pos, s.
  - cbn [Re.run] in Hrun. destruct s as [|a s]; [discriminate|].
    destruct (p a); [|discriminate]. now exists (S pos), s.
  - apply andb_true_iff in Hng as [H1 H2]. cbn [Re.run] in Hrun.
    destruct (IH1 H1 _ _ _ _ _ Hrun) as (pos1 & s1 & Hrun2).
    exact (IH2 H2 _ _ _ _ _ Hrun2).
  - apply andb_true_iff in Hng as [H1 H2]. cbn [Re.run] in Hrun.
    destruct (Re.run r1 pos s c k) as [y|] eqn:Hr1.
    + injection Hrun as ->. exact (IH1 H1 _ _ _ _ _ Hr1).
    + exact (IH2 H2 _ _ _ _ _ Hrun).
  - rewrite run_star_eq in Hrun.
    remember (String.length s) as n eqn:Hn. clear Hn. revert pos s c Hrun.
    induction n as [|n IHn]; intros pos s c Hrun.
    + now exists pos, s.
    + cbn [Re.star_loop] in Hrun. fold (Re.star_loop r1 k) in Hrun.
      match type of Hrun with
      | match ?m with _ => _ end = _ => destruct m as [y|] eqn:Hr1
      end.
      * injection Hrun as ->.
        destruct (IH1 Hng _ _ _ _ _ Hr1) as (pos1 & s1 & Hk).
        destruct (Nat.ltb pos pos1); [|discriminate].
        exact (IHn _ _ _ Hk).
      * now exists pos, s.
  - cbn [Re.run] in Hrun.
    destruct (Re.run r1 pos s c k) as [y|] eqn:Hr1.
    + injection Hrun as ->. exact (IH1 Hng _ _ _ _ _ Hr1).
    + now exists pos, s.
  - discriminate.
  - cbn [Re.run] in Hrun. destruct (Nat.eqb pos 0); [|discriminate].
    now exists pos, s.
  - cbn [Re.run] in Hrun.
    destruct s as [|a s]; [now exists pos, ""|].
    destruct a as [[] [] [] [] [] [] [] []]; destruct s as [|b s];
      cbn in Hrun; try discriminate; eexists pos, _; exact Hrun.
Qed.

(** The group [(\d+)] always holds a non-empty run of digits. *)
Lemma run_group_digits {X} (g : nat) pos s c
      (k : nat -> string -> Re.caps -> option X) x :
  Re.run (Re.Group g (Re.Plus Re.digit)) pos s c k = Some x ->
  exists ds pos' s',
    ds <> "" /\ Str.all_chars Str.is_digit ds = true
    /\ k pos' s' ((g, ds) :: c) = Some x.
Proof.
  unfold Re.Plus, Re.digit. cbn [Re.run]. intros Hrun.
  destruct s as [|a s]; [discriminate|].
  destruct (Str.is_digit a) eqn:Ha; [|discriminate].
  change (Re.star_loop (Re.Chr Str.is_digit)
            (fun pos' s' c' =>
               k pos' s' ((g, Str.take (pos' - pos) (String a s)) :: c'))
            (String.length s) (S pos) s c = Some x) in Hrun.
  apply star_loop_chr_sound in Hrun as (j & Hj & Hk).
  replace (S pos + j - pos)%nat with (S j) in Hk by lia.
  cbn [Str.take] in Hk.
  exists (String a (Str.take j s)), (S pos + j)%nat, (Str.drop j s).
  split; [congruence|]. split; [|assumption].
  cbn [Str.all_chars]. now rewrite Ha, Hj.
Qed.

Lemma search_from_sound (r : Re.regex) (s : string) :
  forall pos m, Re.search_from r pos s = Some m ->
                exists pos' s', Re.match_at r pos' s' = Some m.
Proof.
  induction s as [|a s IH]; intros pos m Hs; cbn [Re.search_from] in Hs.
  - destruct (Re.match_at r pos "") as [m'|] eqn:Hm; [|discriminate].
    injection Hs as ->. now exists pos, "".
  - destruct (Re.match_at r pos (String a s)) as [m'|] eqn:Hm.
    + injection Hs as ->. now exists pos, (String a s).
    + exact (IH _ _ Hs).
Qed.

(** Group 1 of a match of [(\d+)R], for [R] without groups. *)
Lemma search_count_group (R : Re.regex) (s : string) (m : Re.rmatch) :
  Re.no_groups R = true ->
  Re.search (Re.Seq (Re.Group 1 (Re.Plus Re.digit)) R) s = Some m ->
  exists ds, ds <> "" /\ Str.all_chars Str.is_digit ds = true
             /\ Re.group m 1 = Some ds.
Proof.
  intros Hng Hs. apply search_from_sound in Hs as (pos & s' & Hm).
  unfold Re.match_at in Hm. cbn [Re.run] in Hm.
  change (Re.run (Re.Group 1 (Re.Plus Re.digit)) pos s' []
            (fun pos' s'' c' =>
               Re.run R pos' s'' c'
                 (fun e _ c0 =>
                    Some (Re.mk_rmatch pos e (Str.take (e - pos) s') c0)))
          = Some m) in Hm.
  apply run_group_digits in Hm as (ds & pos1 & s1 & Hne & Hds & Hk).
  apply (run_no_groups R Hng) in Hk as (pos2 & s2 & Hfin).
  injection Hfin as <-. exists ds. now repeat split.
Qed.

Lemma search_int_group (s : string) (m : Re.rmatch) :
  Re.search (Re.Group 1 (Re.Plus Re.digit)) s = Some m ->
  exists ds, ds <> "" /\ Str.all_chars Str.is_digit ds = true
             /\ Re.group m 1 = Some ds.
Proof.
  intros Hs. apply search_from_sound in Hs as (pos & s' & Hm).
  unfold Re.match_at in Hm.
  apply run_group_digits in Hm as (ds & pos1 & s1 & Hne & Hds & Hfin).
  injection Hfin as <-. exists ds. now repeat split.
Qed.

End RegexFacts.

(* ------------------------------------------------------------------ *)
(** ** The duration parser                                              *)
(* ------------------------------------------------------------------ *)

Section DurationFacts.

(** [(\d+)D] at a run of digits followed by a letter [x]: the match
    exists exactly when [x] is the designator, and group 1 is the run. *)
Lemma match_at_count_run (d a x : ascii) (ds rest : string) (pos : nat) :
  Str.is_digit d = false -> Str.is_digit a = true ->
  Str.all_chars Str.is_digit ds = true -> Str.is_digit x = false ->
  Re.match_at (utils.re_count (String d "")) pos
    (String a (ds +:+ String x rest))
  = if Ascii.eqb d x
    then Some (Re.mk_rmatch pos (S (S pos + String.length ds))
                 (Str.take (S (S pos + String.length ds) - pos)
                    (String a (ds +:+ String x rest)))
                 [(1%nat, String a ds)])
    else None.
Proof.
  intros Hd Ha Hds Hx.
  unfold Re.match_at, utils.re_count, Re.Plus, Re.digit.
  cbn [Re.run Re.lit]. rewrite Ha.
  set (s := String a (ds +:+ String x rest)).
  set (kfin := fun (e : nat) (_ : string) (c : Re.caps) =>
                 Some (Re.mk_rmatch pos e (Str.take (e - pos) s) c)).
  set (KG := fun (pos' : nat) (s' : string) (c' : Re.caps) =>
               match s' with
               | String b t =>
                   if Ascii.eqb d b
                   then kfin (S pos') t ((1%nat, Str.take (pos' - pos) s) :: c')
                   else None
               | EmptyString => None
               end).
  change (Re.star_loop (Re.Chr Str.is_digit) KG
            (String.length (ds +:+ String x rest)) (S pos)
            (ds +:+ String x rest) []
          = if Ascii.eqb d x
            then Some (Re.mk_rmatch pos (S (S pos + String.length ds))
                         (Str.take (S (S pos + String.length ds) - pos) s)
                         [(1%nat, String a ds)])
            else None).
  rewrite star_loop_chr_all.
  - unfold KG, kfin. destruct (Ascii.eqb d x); [|reflexivity].
    do 3 f_equal. subst s.
    replace (S pos + String.length ds - pos)%nat with (S (String.length ds))
      by lia.
    cbn [Str.take]. now rewrite take_app_length.
  - intros pos' b t c' Hb. unfold KG.
    destruct (Ascii.eqb d b) eqn:Hdb; [|reflexivity].
    apply Ascii.eqb_eq in Hdb. congruence.
  - assumption.
  - assumption.
  - rewrite length_app. lia.
Qed.

Lemma match_at_count_nondigit (d a : ascii) (s : string) (pos : nat) :
  Str.is_digit a = false ->
  Re.match_at (utils.re_count (String d "")) pos (String a s) = None.
Proof.
  intros Ha. unfold Re.match_at, utils.re_count, Re.Plus, Re.digit.
  cbn [Re.run Re.lit]. now rewrite Ha.
Qed.

Lemma search_count_skip (d a : ascii) (s : string) (pos : nat) :
  Str.is_digit a = false ->
  Re.search_from (utils.re_count (String d "")) pos (String a s)
  = Re.search_from (utils.re_count (String d "")) (S pos) s.
Proof.
  intros Ha. cbn [Re.search_from]. now rewrite match_at_count_nondigit.
Qed.

(** Digits followed by another letter than the designator hold no
    match: the search goes on behind that letter. *)
Lemma search_count_miss (d x : ascii) (ds rest : string) :
  Str.is_digit d = false -> Str.is_digit x = false -> Ascii.eqb d x = false ->
  Str.all_chars Str.is_digit ds = true ->
  forall pos,
    Re.search_from (utils.re_count (String d "")) pos (ds +:+ String x rest)
    = Re.search_from (utils.re_count (String d ""))
        (S (pos + String.length ds)) rest.
Proof.
  intros Hd Hx Hdx. induction ds as [|a ds IH]; intros Hds pos.
  - rewrite app_empty_l. cbn [String.length]. rewrite Nat.add_0_r.
    now apply search_count_skip.
  - cbn [Str.all_chars] in Hds. apply andb_true_iff in Hds as [Ha Hds].
    rewrite app_cons. cbn [Re.search_from].
    rewrite match_at_count_run by assumption. rewrite Hdx.
    rewrite IH by assumption. cbn [String.length].
    now replace (S (S pos + String.length ds))
      with (S (pos + S (String.length ds))) by lia.
Qed.

(** Digits followed by the designator are the match, with the digits as
    group 1. *)
Lemma search_count_hit (d : ascii) (ds rest : string) (pos : nat) :
  Str.is_digit d = false -> ds <> "" ->
  Str.all_chars Str.is_digit ds = true ->
  exists m,
    Re.search_from (utils.re_count (String d "")) pos (ds +:+ String d rest)
    = Some m
    /\ Re.group m 1 = Some ds.
Proof.
  intros Hd Hne Hds. destruct ds as [|a ds]; [congruence|].
  cbn [Str.all_chars] in Hds. apply andb_true_iff in Hds as [Ha Hds].
  rewrite app_cons. cbn [Re.search_from].
  rewrite match_at_count_run by assumption. rewrite Ascii.eqb_refl.
  eexists. split; reflexivity.
Qed.

End DurationFacts.

Section DurationClaims.
Context `{E : Env}.

Lemma clean_text_plain (s : string) :
  bs_text_plain -> s <> "" -> Str.all_chars Str.is_alnum s = true ->
  utils.clean_text (PStr s) = PStr s.
Proof.
  intros Hbs Hne Hs. unfold utils.clean_text. cbn [py_str].
  rewrite Hbs by assumption. rewrite split_ws_word; [reflexivity | assumption |].
  apply (all_chars_impl Str.is_alnum); [|assumption].
  intros c Hc. now rewrite alnum_not_space.
Qed.

(** The ISO branch on [PT<dh>H<dm>M] for two runs of digits. *)
Lemma parse_iso_duration_hm (dh dm : string) :
  count dh -> count dm ->
  utils.parse_iso_duration
    (String "P" (String "T" (dh +:+ String "H" (dm +:+ String "M" ""))))
  = Ok (PInt (Str.digits_value 0 dh * 60 + Str.digits_value 0 dm)).
Proof.
  intros (Hneh & Hdh & Hlh) (Hnem & Hdm & Hlm).
  set (code := String "P" (String "T" (dh +:+ String "H" (dm +:+ String "M" "")))).
  assert (Hh : exists mh, Re.search (utils.re_count "H") code = Some mh
                          /\ Re.group mh 1 = Some dh).
  { unfold Re.search, code. rewrite !search_count_skip by reflexivity.
    now apply search_count_hit. }
  assert (Hm : exists mm, Re.search (utils.re_count "M") code = Some mm
                          /\ Re.group mm 1 = Some dm).
  { unfold Re.search, code. rewrite !search_count_skip by reflexivity.
    rewrite search_count_miss by (reflexivity || assumption).
    now apply search_count_hit. }
  assert (Hs : Re.search (utils.re_count "S") code = None).
  { unfold Re.search, code. rewrite !search_count_skip by reflexivity.
    rewrite search_count_miss by (reflexivity || assumption).
    rewrite search_count_miss by (reflexivity || assumption).
    reflexivity. }
  destruct Hh as (mh & Hh & Hgh). destruct Hm as (mm & Hm & Hgm).
  unfold utils.parse_iso_duration. fold code. rewrite Hh, Hm, Hs.
  unfold utils.int_group1. rewrite Hgh, Hgm.
  rewrite !py_int_digits by assumption.
  cbn [mbind result_bind Py.bind utils.is_some orb negb].
  pose proof (digits_value_nonneg dh 0 ltac:(lia)).
  pose proof (digits_value_nonneg dm 0 ltac:(lia)).
  rewrite Z.add_0_l.
  destruct (0 <? _) eqn:Hpos; [reflexivity|].
  apply Z.ltb_ge in Hpos. do 2 f_equal. lia.
Qed.

(** The ISO branch on [PT<ds>D] for one run of digits and a designator
    [D] among [H] and [M]. *)
Lemma parse_iso_duration_one (ds : string) (hours : bool) :
  count ds ->
  utils.parse_iso_duration
    (String "P" (String "T" (ds +:+ String (if hours then "H" else "M") "")))
  = Ok (PInt (if hours then Str.digits_value 0 ds * 60
              else Str.digits_value 0 ds)).
Proof.
  intros (Hne & Hds & Hlen).
  pose proof (digits_value_nonneg ds 0 ltac:(lia)) as Hpos.
  destruct hours.
  - set (code := String "P" (String "T" (ds +:+ String "H" ""))).
    assert (Hh : exists m, Re.search (utils.re_count "H") code = Some m
                           /\ Re.group m 1 = Some ds).
    { unfold Re.search, code. rewrite !search_count_skip by reflexivity.
      now apply search_count_hit. }
    assert (Hm : Re.search (utils.re_count "M") code = None).
    { unfold Re.search, code. rewrite !search_count_skip by reflexivity.
      rewrite search_count_miss by (reflexivity || assumption).
      reflexivity. }
    assert (Hs : Re.search (utils.re_count "S") code = None).
    { unfold Re.search, code. rewrite !search_count_skip by reflexivity.
      rewrite search_count_miss by (reflexivity || assumption).
      reflexivity. }
    destruct Hh as (m & Hh & Hg).
    unfold utils.parse_iso_duration. fold code. rewrite Hh, Hm, Hs.
    unfold utils.int_group1. rewrite Hg, py_int_digits by assumption.
    cbn [mbind result_bind Py.bind utils.is_some orb negb].
    rewrite Z.add_0_l.
    destruct (0 <? _) eqn:Hlt; [reflexivity|].
    apply Z.ltb_ge in Hlt. do 2 f_equal. lia.
  - set (code := String "P" (String "T" (ds +:+ String "M" ""))).
    assert (Hh : Re.search (utils.re_count "H") code = None).
    { unfold Re.search, code. rewrite !search_count_skip by reflexivity.
      rewrite search_count_miss by (reflexivity || assumption).
      reflexivity. }
    assert (Hm : exists m, Re.search (utils.re_count "M") code = Some m
                           /\ Re.group m 1 = Some ds).
    { unfold Re.search, code. rewrite !search_count_skip by reflexivity.
      now apply search_count_hit. }
    assert (Hs : Re.search (utils.re_count "S") code = None).
    { unfold Re.search, code. rewrite !search_count_skip by reflexivity.
      rewrite search_count_miss by (reflexivity || assumption).
      reflexivity. }
    destruct Hm as (m & Hm & Hg).
    unfold utils.parse_iso_duration. fold code. rewrite Hh, Hm, Hs.
    unfold utils.int_group1. rewrite Hg, py_int_digits by assumption.
    cbn [mbind result_bind Py.bind utils.is_some orb negb].
    rewrite Z.add_0_l.
    destruct (0 <? _) eqn:Hlt; [reflexivity|].
    apply Z.ltb_ge in Hlt. do 2 f_equal. lia.
Qed.

(** Beyond the limit of [int] the parser raises: a minute count of
    more than 4300 digits is a [ValueError]. *)
Lemma parse_duration_long_count_raises (ds : string) :
  bs_text_plain -> digit_run ds ->
  Str.int_max_str_digits < Z.of_nat (String.length ds) ->
  utils.parse_duration_to_minutes (PStr ("PT" +:+ ds +:+ "M"))
  = Raise ValueError.
Proof.
  intros Hbs [Hne Hds] Hlong.
  change ("PT" +:+ ds +:+ "M")
    with (String "P" (String "T" (ds +:+ String "M" ""))).
  set (code := String "P" (String "T" (ds +:+ String "M" ""))).
  assert (Hh : Re.search (utils.re_count "H") code = None).
  { unfold Re.search, code. rewrite !search_count_skip by reflexivity.
    rewrite search_count_miss by (reflexivity || assumption).
    reflexivity. }
  assert (Hm : exists m, Re.search (utils.re_count "M") code = Some m
                         /\ Re.group m 1 = Some ds).
  { unfold Re.search, code. rewrite !search_count_skip by reflexivity.
    now apply search_count_hit. }
  destruct Hm as (m & Hm & Hg).
  unfold utils.parse_duration_to_minutes. cbn [truthy String.eqb negb py_str].
  rewrite clean_text_plain.
  - fold code. cbn [String.eqb Str.startswith Ascii.eqb andb].
    change (Ascii.eqb "P" "P") with true. cbv iota.
    unfold utils.parse_iso_duration. rewrite Hh, Hm.
    unfold utils.int_group1. rewrite Hg, (py_int_long ds Hlong).
    reflexivity.
  - assumption.
  - discriminate.
  - pose proof (all_chars_impl _ _ ds digit_is_alnum Hds) as Ha.
    unfold code. repeat (rewrite ?all_chars_app; cbn [Str.all_chars]).
    rewrite Ha. reflexivity.
Qed.

(** The digits of a number below [10^4300] are a count. *)
Lemma count_str_of_nat (n : N) :
  Z.of_N n < 10 ^ Str.int_max_str_digits ->
  count (Str.str_of_nat (Z.of_N n))
  /\ Str.digits_value 0 (Str.str_of_nat (Z.of_N n)) = Z.of_N n.
Proof.
  intros Hn.
  destruct (str_of_nat_spec (Z.of_N n) ltac:(lia)) as (Hne & Hd & Hv).
  split; [|exact Hv]. split; [exact Hne | split; [exact Hd|]].
  apply str_of_nat_length; [discriminate | exact Hn].
Qed.

(** A count is plain alphanumeric text. *)
Lemma count_alnum (ds : string) :
  count ds -> Str.all_chars Str.is_alnum ds = true.
Proof. intros (_ & Hd & _). exact (all_chars_impl _ _ ds digit_is_alnum Hd). Qed.

(** C3.  On the machine-duration code [PThHmM] the duration parser
    returns [60*h + m], for all counts [h] and [m] that [int] converts,
    that is, of at most 4300 digits (and likewise [m] on [PTmM] and
    [60*h] on [PThH]); the same holds for counts written with leading
    zeros.  ["PT45M"] gives 45, ["PT1H30M"] gives 90, and the empty
    string gives no value.  The first hypothesis says that the HTML
    library returns plain alphanumeric text unchanged. *)
Theorem parse_duration_iso_code :
  bs_text_plain ->
  (forall h m : N,
      Z.of_N h < 10 ^ Str.int_max_str_digits ->
      Z.of_N m < 10 ^ Str.int_max_str_digits ->
      utils.parse_duration_to_minutes (PStr (iso_code h m))
      = Ok (PInt (60 * Z.of_N h + Z.of_N m)))
  /\ (forall m : N,
         Z.of_N m < 10 ^ Str.int_max_str_digits ->
         utils.parse_duration_to_minutes (PStr (iso_minutes_code m))
         = Ok (PInt (Z.of_N m)))
  /\ (forall h : N,
         Z.of_N h < 10 ^ Str.int_max_str_digits ->
         utils.parse_duration_to_minutes (PStr (iso_hours_code h))
         = Ok (PInt (60 * Z.of_N h)))
  /\ (forall dh dm : string,
         count dh -> count dm ->
         utils.parse_duration_to_minutes
           (PStr ("PT" +:+ dh +:+ "H" +:+ dm +:+ "M"))
         = Ok (PInt (60 * Str.digits_value 0 dh + Str.digits_value 0 dm)))
  /\ utils.parse_duration_to_minutes (PStr "PT45M") = Ok (PInt 45)
  /\ utils.parse_duration_to_minutes (PStr "PT1H30M") = Ok (PInt 90)
  /\ utils.parse_duration_to_minutes (PStr "") = Ok PNone.
Proof.
  intros Hbs.
  assert (Hint : forall n : N, Str.str_of_int (Z.of_N n)
                               = Str.str_of_nat (Z.of_N n)).
  { intros n. unfold Str.str_of_int.
    now replace (Z.of_N n <? 0) with false by (symmetry; apply Z.ltb_ge; lia). }
  assert (Hone : forall (ds : string) (hours : bool),
             count ds ->
             utils.parse_duration_to_minutes
               (PStr (String "P" (String "T"
                        (ds +:+ String (if hours then "H" else "M") ""))))
             = Ok (PInt (if hours then Str.digits_value 0 ds * 60
                         else Str.digits_value 0 ds))).
  { intros ds hours Hc.
    unfold utils.parse_duration_to_minutes. cbn [truthy String.eqb negb].
    cbn [py_str]. rewrite clean_text_plain.
    + cbn [String.eqb Str.startswith Ascii.eqb andb].
      change (Ascii.eqb "P" "P") with true.
      now rewrite parse_iso_duration_one.
    + assumption.
    + discriminate.
    + pose proof (count_alnum ds Hc) as Ha.
      repeat (rewrite ?all_chars_app; cbn [Str.all_chars]).
      rewrite Ha. now destruct hours. }
  assert (Hboth : forall dh dm : string,
             count dh -> count dm ->
             utils.parse_duration_to_minutes
               (PStr ("PT" +:+ dh +:+ "H" +:+ dm +:+ "M"))
             = Ok (PInt (60 * Str.digits_value 0 dh + Str.digits_value 0 dm))).
  { intros dh dm Hch Hcm.
    change ("PT" +:+ dh +:+ "H" +:+ dm +:+ "M")
      with (String "P" (String "T" (dh +:+ String "H" (dm +:+ String "M" "")))).
    unfold utils.parse_duration_to_minutes. cbn [truthy String.eqb negb].
    cbn [py_str]. rewrite clean_text_plain.
    + cbn [String.eqb Str.startswith Ascii.eqb andb].
      change (Ascii.eqb "P" "P") with true.
      rewrite parse_iso_duration_hm by assumption.
      do 2 f_equal. lia.
    + assumption.
    + discriminate.
    + pose proof (count_alnum dh Hch) as Hah.
      pose proof (count_alnum dm Hcm) as Ham.
      repeat (rewrite ?all_chars_app; cbn [Str.all_chars]).
      rewrite Hah, Ham. reflexivity. }
  split; [|split; [|split; [|split; [exact Hboth | repeat split]]]].
  - intros h m Hh Hm.
    destruct (count_str_of_nat h Hh) as [Hch Hvh].
    destruct (count_str_of_nat m Hm) as [Hcm Hvm].
    unfold iso_code. rewrite !Hint, Hboth by assumption.
    now rewrite Hvh, Hvm.
  - intros m Hm. destruct (count_str_of_nat m Hm) as [Hcm Hvm].
    unfold iso_minutes_code. rewrite Hint.
    change ("PT" +:+ Str.str_of_nat (Z.of_N m) +:+ "M")
      with (String "P" (String "T"
              (Str.str_of_nat (Z.of_N m) +:+ String "M" ""))).
    rewrite (Hone _ false Hcm). now rewrite Hvm.
  - intros h Hh. destruct (count_str_of_nat h Hh) as [Hch Hvh].
    unfold iso_hours_code. rewrite Hint.
    change ("PT" +:+ Str.str_of_nat (Z.of_N h) +:+ "H")
      with (String "P" (String "T"
              (Str.str_of_nat (Z.of_N h) +:+ String "H" ""))).
    rewrite (Hone _ true Hch). rewrite Hvh. do 2 f_equal. lia.
  - unfold utils.parse_duration_to_minutes. cbn [truthy String.eqb negb py_str].
    rewrite clean_text_plain by (assumption || discriminate || reflexivity).
    reflexivity.
  - unfold utils.parse_duration_to_minutes. cbn [truthy String.eqb negb py_str].
    rewrite clean_text_plain by (assumption || discriminate || reflexivity).
    reflexivity.
Qed.

End DurationClaims.

Lemma parse_duration_iso_code_witness :
  bs_text_plain (E := Sample.env)
  /\ utils.parse_duration_to_minutes (E := Sample.env) (PStr (iso_code 2 5))
     = Ok (PInt 125).
Proof.
  assert (Hbs : bs_text_plain (E := Sample.env)) by (intros s _; reflexivity).
  split; [exact Hbs|].
  apply (proj1 (parse_duration_iso_code (E := Sample.env) Hbs) 2%N 5%N);
    vm_compute; reflexivity.
Defined.

Section ComponentFacts.

Lemma take_drop (j : nat) (s : string) : Str.take j s +:+ Str.drop j s = s.
Proof.
  revert j. induction s as [|c s IH]; intros [|j]; try reflexivity.
  cbn [Str.take Str.drop]. now rewrite app_cons, IH.
Qed.

(** A match of [(\d+)D] starts with a non-empty run of digits followed
    by the designator. *)
Lemma match_at_count_inv (d : ascii) (pos : nat) (s : string) (m : Re.rmatch) :
  Re.match_at (utils.re_count (String d "")) pos s = Some m ->
  exists ds post,
    s = ds +:+ String d post /\ ds <> ""
    /\ Str.all_chars Str.is_digit ds = true.
Proof.
  unfold Re.match_at, utils.re_count, Re.Plus, Re.digit.
  cbn [Re.run Re.lit]. destruct s as [|a s]; [discriminate|].
  destruct (Str.is_digit a) eqn:Ha; [|discriminate].
  set (KG := fun (pos' : nat) (s' : string) (c' : Re.caps) =>
               match s' with
               | String b t =>
                   if Ascii.eqb d b
                   then Some (Re.mk_rmatch pos (S pos')
                                (Str.take (S pos' - pos) (String a s))
                                ((1%nat, Str.take (pos' - pos) (String a s))
                                   :: c'))
                   else None
               | EmptyString => None
               end).
  intros Hrun.
  change (Re.star_loop (Re.Chr Str.is_digit) KG (String.length s) (S pos) s []
          = Some m) in Hrun.
  apply star_loop_chr_sound in Hrun as (j & Hj & Hk).
  unfold KG in Hk. destruct (Str.drop j s) as [|b t] eqn:Hdrop; [discriminate|].
  destruct (Ascii.eqb d b) eqn:Hdb; [|discriminate].
  apply Ascii.eqb_eq in Hdb as <-.
  exists (String a (Str.take j s)), t. repeat split.
  - rewrite app_cons, <- Hdrop. now rewrite take_drop.
  - discriminate.
  - cbn [Str.all_chars]. now rewrite Ha, Hj.
Qed.

Lemma search_count_inv (d : ascii) (s : string) :
  forall pos m,
    Re.search_from (utils.re_count (String d "")) pos s = Some m ->
    exists pre ds post,
      s = pre +:+ ds +:+ String d post /\ ds <> ""
      /\ Str.all_chars Str.is_digit ds = true.
Proof.
  induction s as [|a s IH]; intros pos m Hs; cbn [Re.search_from] in Hs.
  - destruct (Re.match_at _ pos "") as [m'|] eqn:Hm; [|discriminate].
    apply match_at_count_inv in Hm as (ds & post & Heq & Hne & Hds).
    exists "", ds, post. now rewrite app_empty_l.
  - destruct (Re.match_at _ pos (String a s)) as [m'|] eqn:Hm.
    + apply match_at_count_inv in Hm as (ds & post & Heq & Hne & Hds).
      exists "", ds, post. now rewrite app_empty_l.
    + apply IH in Hs as (pre & ds & post & Heq & Hne & Hds).
      exists (String a pre), ds, post. rewrite app_cons, <- Heq. now split.
Qed.

(** A match somewhere in the text is found by the search, or an earlier
    one is. *)
Lemma search_from_complete (r : Re.regex) (pre suffix : string) :
  (forall pos, exists m, Re.match_at r pos suffix = Some m) ->
  forall pos, exists m, Re.search_from r pos (pre +:+ suffix) = Some m.
Proof.
  intros Hmatch. induction pre as [|c pre IH]; intros pos.
  - rewrite app_empty_l. destruct (Hmatch pos) as [m Hm].
    exists m. destruct suffix; cbn [Re.search_from]; now rewrite Hm.
  - rewrite app_cons. cbn [Re.search_from].
    destruct (Re.match_at r pos (String c (pre +:+ suffix))) as [m|];
      [now exists m | apply IH].
Qed.

Lemma search_count_complete (d : ascii) (pre ds post : string) :
  Str.is_digit d = false -> ds <> "" ->
  Str.all_chars Str.is_digit ds = true ->
  exists m, Re.search (utils.re_count (String d ""))
              (pre +:+ ds +:+ String d post) = Some m.
Proof.
  intros Hd Hne Hds. apply search_from_complete. intros pos.
  destruct ds as [|a ds]; [congruence|].
  cbn [Str.all_chars] in Hds. apply andb_true_iff in Hds as [Ha Hds].
  rewrite app_cons, match_at_count_run by assumption.
  rewrite Ascii.eqb_refl. eauto.
Qed.

(** The searches of the ISO branch find something exactly when the code
    holds a run of digits followed by [H], [M] or [S]. *)
Lemma has_component_spec (c : string) :
  has_component c = true <-> component_in c.
Proof.
  unfold has_component, component_in, Re.search. split.
  - intros Hc.
    assert (Hsome : forall o : option Re.rmatch,
               utils.is_some o = true -> exists m, o = Some m)
      by (intros [m|]; [eauto | discriminate]).
    apply orb_true_iff in Hc as [Hc | Hc];
      [apply orb_true_iff in Hc as [Hc | Hc]|];
      apply Hsome in Hc as [m Hm];
      apply search_count_inv in Hm as (pre & ds & post & Heq & Hne & Hds);
      exists pre, ds; eexists; exists post; eauto 10.
  - intros (pre & ds & d & post & -> & Hne & Hds & [-> | [-> | ->]]).
    + destruct (search_count_complete "H" pre ds post eq_refl Hne Hds)
        as [m Hm]. unfold Re.search in Hm. now rewrite Hm.
    + destruct (search_count_complete "M" pre ds post eq_refl Hne Hds)
        as [m Hm]. unfold Re.search in Hm. rewrite Hm.
      now rewrite orb_true_r.
    + destruct (search_count_complete "S" pre ds post eq_refl Hne Hds)
        as [m Hm]. unfold Re.search in Hm. rewrite Hm.
      now rewrite orb_true_r.
Qed.

End ComponentFacts.

Section CountsInText.

(** What a search finds, it finds at a suffix of the text. *)
Lemma search_from_suffix (r : Re.regex) (s : string) :
  forall pos m, Re.search_from r pos s = Some m ->
    exists pre s' pos', s = pre +:+ s' /\ Re.match_at r pos' s' = Some m.
Proof.
  induction s as [|a s IH]; intros pos m Hs; cbn [Re.search_from] in Hs.
  - destruct (Re.match_at r pos "") as [m'|] eqn:Hm; [|discriminate].
    injection Hs as ->. now exists "", "", pos.
  - destruct (Re.match_at r pos (String a s)) as [m'|] eqn:Hm.
    + injection Hs as ->. now exists "", (String a s), pos.
    + destruct (IH _ _ Hs) as (pre & s' & pos' & -> & Hm').
      exists (String a pre), s', pos'. now rewrite app_cons.
Qed.

(** The group [(\d+)] holds the run of digits that the text starts
    with, or a part of it. *)
Lemma run_group_digits_text {X} (g : nat) pos s c
      (k : nat -> string -> Re.caps -> option X) x :
  Re.run (Re.Group g (Re.Plus Re.digit)) pos s c k = Some x ->
  exists ds pos' s',
    s = ds +:+ s' /\ ds <> "" /\ Str.all_chars Str.is_digit ds = true
    /\ k pos' s' ((g, ds) :: c) = Some x.
Proof.
  unfold Re.Plus, Re.digit. cbn [Re.run]. intros Hrun.
  destruct s as [|a s]; [discriminate|].
  destruct (Str.is_digit a) eqn:Ha; [|discriminate].
  change (Re.star_loop (Re.Chr Str.is_digit)
            (fun pos' s' c' =>
               k pos' s' ((g, Str.take (pos' - pos) (String a s)) :: c'))
            (String.length s) (S pos) s c = Some x) in Hrun.
  apply star_loop_chr_sound in Hrun as (j & Hj & Hk).
  replace (S pos + j - pos)%nat with (S j) in Hk by lia.
  cbn [Str.take] in Hk.
  exists (String a (Str.take j s)), (S pos + j)%nat, (Str.drop j s).
  split; [now rewrite app_cons, take_drop|].
  split; [congruence|]. split; [|assumption].
  cbn [Str.all_chars]. now rewrite Ha, Hj.
Qed.

(** Group 1 of a match of [(\d+)R], for [R] without groups, is a run of
    digits of the text. *)
Lemma search_count_group_in (R : Re.regex) (s : string) (m : Re.rmatch) :
  Re.no_groups R = true ->
  Re.search (Re.Seq (Re.Group 1 (Re.Plus Re.digit)) R) s = Some m ->
  exists pre ds post,
    s = pre +:+ ds +:+ post /\ ds <> ""
    /\ Str.all_chars Str.is_digit ds = true /\ Re.group m 1 = Some ds.
Proof.
  intros Hng Hs. apply search_from_suffix in Hs as (pre & s' & pos & -> & Hm).
  unfold Re.match_at in Hm. cbn [Re.run] in Hm.
  change (Re.run (Re.Group 1 (Re.Plus Re.digit)) pos s' []
            (fun pos' s'' c' =>
               Re.run R pos' s'' c'
                 (fun e _ c0 =>
                    Some (Re.mk_rmatch pos e (Str.take (e - pos) s') c0)))
          = Some m) in Hm.
  apply run_group_digits_text in Hm as (ds & pos1 & s1 & -> & Hne & Hds & Hk).
  apply (run_no_groups R Hng) in Hk as (pos2 & s2 & Hfin).
  injection Hfin as <-. exists pre, ds, s1. now repeat split.
Qed.

Lemma search_int_group_in (s : string) (m : Re.rmatch) :
  Re.search (Re.Group 1 (Re.Plus Re.digit)) s = Some m ->
  exists pre ds post,
    s = pre +:+ ds +:+ post /\ ds <> ""
    /\ Str.all_chars Str.is_digit ds = true /\ Re.group m 1 = Some ds.
Proof.
  intros Hs. apply search_from_suffix in Hs as (pre & s' & pos & -> & Hm).
  unfold Re.match_at in Hm.
  apply run_group_digits_text in Hm as (ds & pos1 & s1 & -> & Hne & Hds & Hfin).
  injection Hfin as <-. exists pre, ds, s1. now repeat split.
Qed.

(** Text of at most 4300 characters holds no longer run of digits. *)
Lemma short_text_converts (c : string) :
  Z.of_nat (String.length c) <= Str.int_max_str_digits ->
  digit_runs_convert c.
Proof.
  intros Hlen pre ds post -> _. rewrite !length_app in Hlen. lia.
Qed.

Lemma map_chars_app_inv (f : ascii -> ascii) (x y : string) :
  forall c, Str.map_chars f c = x +:+ y ->
    exists a b, c = a +:+ b /\ Str.map_chars f a = x /\ Str.map_chars f b = y.
Proof.
  induction x as [|h x IH]; intros c Hc.
  - exists "", c. now rewrite app_empty_l in Hc.
  - destruct c as [|ch c]; [discriminate|].
    rewrite app_cons in Hc. cbn [Str.map_chars] in Hc.
    injection Hc as Hh Hrest.
    destruct (IH _ Hrest) as (a & b & -> & <- & <-).
    exists (String ch a), b. rewrite app_cons. cbn [Str.map_chars].
    now rewrite Hh.
Qed.

Lemma lower_digit_run (a : string) :
  Str.all_chars Str.is_digit (Str.lower a) = Str.all_chars Str.is_digit a
  /\ String.length (Str.lower a) = String.length a.
Proof.
  induction a as [|c a [IHd IHl]]; [now split|].
  cbn [Str.lower Str.map_chars Str.all_chars String.length].
  fold (Str.lower a). rewrite IHd, IHl. split; [|reflexivity]. f_equal.
  destruct c as [[] [] [] [] [] [] [] []]; reflexivity.
Qed.

(** Lower-casing the text leaves its runs of digits as they are. *)
Lemma digit_runs_lower (c : string) :
  digit_runs_convert c -> digit_runs_convert (Str.lower c).
Proof.
  intros Hc pre ds post Heq Hds.
  apply map_chars_app_inv in Heq as (a & b & -> & <- & Heq).
  apply map_chars_app_inv in Heq as (d & e & -> & <- & <-).
  fold (Str.lower d) in *.
  destruct (lower_digit_run d) as [Hd Hl]. rewrite Hl.
  apply (Hc a d e); [reflexivity | now rewrite <- Hd].
Qed.

End CountsInText.

Section DurationCases.
Context `{E : Env}.

(** Reading the count of a match of [(\d+)R] does not fail when the
    runs of digits of the text are within the limit of [int]. *)
Lemma int_group1_search (R : Re.regex) (c : string) (m : Re.rmatch) :
  digit_runs_convert c ->
  Re.no_groups R = true ->
  Re.search (Re.Seq (Re.Group 1 (Re.Plus Re.digit)) R) c = Some m ->
  utils.int_group1 m = Ok (group_value (Some m))
  /\ 0 <= group_value (Some m).
Proof.
  intros Hc Hng Hs.
  destruct (search_count_group_in R c m Hng Hs)
    as (pre & ds & post & Heq & Hne & Hds & Hg).
  unfold utils.int_group1, group_value. rewrite Hg.
  split; [|apply digits_value_nonneg; lia].
  apply py_int_digits; [assumption | assumption |].
  exact (Hc pre ds post Heq Hds).
Qed.

Lemma int_group1_search_int (c : string) (m : Re.rmatch) :
  digit_runs_convert c ->
  Re.search utils.re_int c = Some m ->
  utils.int_group1 m = Ok (group_value (Some m))
  /\ 0 <= group_value (Some m).
Proof.
  intros Hc Hs.
  destruct (search_int_group_in c m Hs)
    as (pre & ds & post & Heq & Hne & Hds & Hg).
  unfold utils.int_group1, group_value. rewrite Hg.
  split; [|apply digits_value_nonneg; lia].
  apply py_int_digits; [assumption | assumption |].
  exact (Hc pre ds post Heq Hds).
Qed.

Ltac count_match Hc o Hv Hpos :=
  let m := fresh "m" in
  let Heq := fresh "Heq" in
  destruct o as [m|] eqn:Heq;
  [ (apply (int_group1_search _ _ _ Hc) in Heq as [Hv Hpos]; [|reflexivity])
    || (apply (int_group1_search_int _ _ Hc) in Heq as [Hv Hpos]);
    rewrite Hv; clear Hv
  | ].

(** The ISO branch returns, and these are its values. *)
Lemma parse_iso_duration_value (c : string) :
  digit_runs_convert c ->
  utils.parse_iso_duration c
  = Ok (if has_component c then PInt (iso_total c) else PNone)
  /\ 0 <= iso_total c.
Proof.
  intros Hc.
  unfold utils.parse_iso_duration, has_component, iso_total, utils.re_count.
  cbn [Re.lit].
  count_match Hc (Re.search (Re.Seq (Re.Group 1 (Re.Plus Re.digit))
                                 (Re.Chr (Ascii.eqb "H"))) c) Hvh Hh;
  count_match Hc (Re.search (Re.Seq (Re.Group 1 (Re.Plus Re.digit))
                                 (Re.Chr (Ascii.eqb "M"))) c) Hvm Hm;
  count_match Hc (Re.search (Re.Seq (Re.Group 1 (Re.Plus Re.digit))
                                 (Re.Chr (Ascii.eqb "S"))) c) Hvs Hs;
  cbn [mbind result_bind Py.bind utils.is_some orb negb];
  repeat match goal with
         | |- context [group_value None] =>
             change (group_value None) with 0
         end;
  rewrite ?Z.add_0_l, ?Z.add_0_r, ?Z.mul_0_l;
  repeat match goal with
         | |- context [?a =? ?b] => destruct (Z.eqb_spec a b)
         | |- context [?a <=? ?b] => destruct (Z.leb_spec a b)
         | |- context [?a <? ?b] => destruct (Z.ltb_spec a b)
         end;
  try (rewrite ?Hvs; cbn [mbind result_bind Py.bind]);
  repeat match goal with
         | |- context [?a <=? ?b] => destruct (Z.leb_spec a b)
         end;
  split; try reflexivity; try lia; try (do 2 f_equal; lia).
  all: repeat match goal with
              | |- context [?a <? ?b] => destruct (Z.ltb_spec a b)
              end;
       try reflexivity; try lia; do 2 f_equal; lia.
Qed.

(** The free-text branch returns, and these are its values. *)
Lemma parse_text_duration_value (c : string) :
  digit_runs_convert c ->
  utils.parse_text_duration c
  = Ok (if 0 <? text_total c then PInt (text_total c) else PNone)
  /\ 0 <= text_total c.
Proof.
  intros Hc%digit_runs_lower.
  unfold utils.parse_text_duration, text_total, utils.re_hour, utils.re_minute.
  count_match Hc (Re.search
                 (Re.Seq (Re.Group 1 (Re.Plus Re.digit))
                    (Re.Seq (Re.Star Re.space)
                       (Re.Seq (Re.Alt (Re.lit false "hour") (Re.lit false "hr"))
                          (Re.Opt (Re.lit false "s"))))) (Str.lower c)) Hvh Hh;
  count_match Hc (Re.search
                 (Re.Seq (Re.Group 1 (Re.Plus Re.digit))
                    (Re.Seq (Re.Star Re.space)
                       (Re.Seq (Re.Alt (Re.lit false "minute") (Re.lit false "min"))
                          (Re.Opt (Re.lit false "s"))))) (Str.lower c)) Hvm Hm;
  cbn [mbind result_bind Py.bind utils.is_some orb negb andb];
  try (count_match Hc (Re.search utils.re_int (Str.lower c)) Hvi Hi;
       cbn [mbind result_bind Py.bind]);
  repeat match goal with
         | |- context [group_value None] =>
             change (group_value None) with 0
         end;
  split; try reflexivity; try lia.
Qed.

Lemma parse_duration_falsy (v : pyval) :
  truthy v = false -> utils.parse_duration_to_minutes v = Ok PNone.
Proof. intros Hv. unfold utils.parse_duration_to_minutes. now rewrite Hv. Qed.

(** A number is never turned into "no value": it is converted with
    [int], which raises on an infinity and on not-a-number. *)
Lemma parse_duration_number (v : pyval) :
  truthy v = true -> is_number v = true ->
  (exists z, utils.parse_duration_to_minutes v = Ok (PInt z))
  \/ (exists e, utils.parse_duration_to_minutes v = Raise e).
Proof.
  intros Hv Hn. unfold utils.parse_duration_to_minutes. rewrite Hv.
  destruct v as [| b | z | f | s | l | d]; try discriminate Hn; cbn [negb];
    try (left; eexists; reflexivity).
  destruct (Float.to_int f); cbn [mbind result_bind Py.bind]; eauto.
Qed.

Lemma parse_duration_text (v : pyval) :
  truthy v = true -> is_number v = false ->
  utils.parse_duration_to_minutes v
  = if String.eqb (cleaned v) "" then Ok PNone
    else if Str.startswith "PT" (cleaned v)
         then utils.parse_iso_duration (cleaned v)
         else utils.parse_text_duration (cleaned v).
Proof.
  intros Hv Hn. unfold utils.parse_duration_to_minutes. rewrite Hv.
  destruct v; try discriminate Hn; try discriminate Hv; reflexivity.
Qed.

(** The cases of the duration parser, in terms of its searches. *)
Lemma parse_duration_cases (v : pyval) :
  str_converts v = true ->
  (is_number v = false -> digit_runs_convert (cleaned v)) ->
  (utils.parse_duration_to_minutes v = Ok PNone <->
     truthy v = false \/
     (is_number v = false /\
      (cleaned v = "" \/
       (Str.startswith "PT" (cleaned v) = true
        /\ has_component (cleaned v) = false) \/
       (Str.startswith "PT" (cleaned v) = false
        /\ text_total (cleaned v) = 0))))
  /\ (truthy v = true -> is_number v = false -> cleaned v <> "" ->
      Str.startswith "PT" (cleaned v) = true ->
      has_component (cleaned v) = true ->
      utils.parse_duration_to_minutes v = Ok (PInt (iso_total (cleaned v))))
  /\ (is_number v = false -> Str.startswith "PT" (cleaned v) = false ->
      utils.parse_duration_to_minutes v <> Ok (PInt 0)).
Proof.
  intros _ Hruns.
  destruct (truthy v) eqn:Hv.
  2:{ rewrite (parse_duration_falsy v Hv). repeat split; auto; discriminate. }
  destruct (is_number v) eqn:Hn.
  { destruct (parse_duration_number v Hv Hn) as [[z Hz] | [e Hz]]; rewrite Hz;
      (repeat split; try discriminate;
       intros [Hf | [Hf _]]; discriminate). }
  specialize (Hruns eq_refl).
  destruct (parse_iso_duration_value (cleaned v) Hruns) as [Hiso Hiso0].
  destruct (parse_text_duration_value (cleaned v) Hruns) as [Htxt Htxt0].
  rewrite (parse_duration_text v Hv Hn), Hiso, Htxt.
  destruct (String.eqb_spec (cleaned v) "") as [Hc | Hc].
  { repeat split; auto; try discriminate; try congruence. }
  destruct (Str.startswith "PT" (cleaned v)) eqn:Hpt.
  - destruct (has_component (cleaned v)) eqn:Hcomp.
    + repeat split; try discriminate; try reflexivity.
      intros [Hf | [_ [Hf | [[_ Hf] | [Hf _]]]]];
        congruence.
    + repeat split; auto; try discriminate.
      intros _. right. split; [reflexivity|]. right. left. now split.
  - destruct (Z.ltb_spec 0 (text_total (cleaned v))) as [Hpos | Hzero].
    + repeat split; try discriminate.
      * intros [Hf | [_ [Hf | [[Hf _] | [_ Hf]]]]]; try congruence. lia.
      * intros _ _ Heq. injection Heq as Heq. lia.
    + repeat split; try discriminate.
      intros _. right. split; [reflexivity|]. right. right.
      split; [reflexivity | lia].
Qed.

(** C4, as amended.  For an input that [str] converts and whose text
    holds no run of more than 4300 digits (the counts that [int]
    converts): the duration parser
    returns no value exactly when the input is empty (falsy), or its
    normalised text is empty, or it is a machine-duration code without
    a recognizable hour, minute or second component (no run of digits
    followed by [H], [M] or [S]), or it is free text whose total is
    zero.  A machine-duration code with a recognizable component yields
    its total, also when that total is 0; free text never yields 0. *)
Theorem parse_duration_absent_cases (v : pyval) :
  str_converts v = true ->
  (is_number v = false -> digit_runs_convert (cleaned v)) ->
  (utils.parse_duration_to_minutes v = Ok PNone <->
     truthy v = false \/
     (is_number v = false /\
      (cleaned v = "" \/
       (Str.startswith "PT" (cleaned v) = true
        /\ ~ component_in (cleaned v)) \/
       (Str.startswith "PT" (cleaned v) = false
        /\ text_total (cleaned v) = 0))))
  /\ (truthy v = true -> is_number v = false -> cleaned v <> "" ->
      Str.startswith "PT" (cleaned v) = true ->
      component_in (cleaned v) ->
      utils.parse_duration_to_minutes v = Ok (PInt (iso_total (cleaned v)))
      /\ 0 <= iso_total (cleaned v))
  /\ (is_number v = false -> Str.startswith "PT" (cleaned v) = false ->
      utils.parse_duration_to_minutes v <> Ok (PInt 0)).
Proof.
  intros Hstr Hruns.
  destruct (parse_duration_cases v Hstr Hruns) as (Hiff & Hcode & Htext).
  pose proof (has_component_spec (cleaned v)) as Hspec.
  assert (Hneg : has_component (cleaned v) = false <-> ~ component_in (cleaned v)).
  { rewrite <- Hspec. now destruct (has_component (cleaned v)). }
  split; [|split].
  - rewrite Hiff, Hneg. reflexivity.
  - intros Hv Hn Hc Hpt Hcomp. split.
    + apply Hcode; try assumption. now apply Hspec.
    + apply parse_iso_duration_value. exact (Hruns Hn).
  - exact Htext.
Qed.

End DurationCases.

(** C4 (counterexample).  ["PT0M"] is a machine-duration code whose
    total is zero minutes, and the parser returns 0 for it, not "no
    value". *)
Lemma parse_duration_zero_code :
  utils.parse_duration_to_minutes (E := Sample.env) (PStr "PT0M")
  = Ok (PInt 0)
  /\ utils.parse_duration_to_minutes (E := Sample.env) (PStr "PT0M")
     <> Ok PNone.
Proof. split; [vm_compute; reflexivity | vm_compute; discriminate]. Qed.

Lemma parse_duration_absent_cases_witness :
  str_converts (PStr "PT0M") = true
  /\ (is_number (PStr "PT0M") = false ->
      digit_runs_convert (cleaned (E := Sample.env) (PStr "PT0M")))
  /\ truthy (PStr "PT0M") = true
  /\ is_number (PStr "PT0M") = false
  /\ cleaned (E := Sample.env) (PStr "PT0M") <> ""
  /\ Str.startswith "PT" (cleaned (E := Sample.env) (PStr "PT0M")) = true
  /\ component_in (cleaned (E := Sample.env) (PStr "PT0M"))
  /\ utils.parse_duration_to_minutes (E := Sample.env) (PStr "PT0M")
     = Ok (PInt (iso_total (cleaned (E := Sample.env) (PStr "PT0M")))).
Proof.
  assert (H0 : is_number (PStr "PT0M") = false ->
               digit_runs_convert (cleaned (E := Sample.env) (PStr "PT0M")))
    by (intros _; apply short_text_converts; vm_compute; discriminate).
  assert (H1 : truthy (PStr "PT0M") = true) by reflexivity.
  assert (H2 : is_number (PStr "PT0M") = false) by reflexivity.
  assert (H3 : cleaned (E := Sample.env) (PStr "PT0M") <> "")
    by (vm_compute; discriminate).
  assert (H4 : Str.startswith "PT" (cleaned (E := Sample.env) (PStr "PT0M"))
               = true) by (vm_compute; reflexivity).
  assert (H5 : component_in (cleaned (E := Sample.env) (PStr "PT0M"))).
  { exists "PT", "0", "M"%char, "". repeat split; auto. }
  refine (conj eq_refl
            (conj H0 (conj H1 (conj H2 (conj H3 (conj H4 (conj H5 _))))))).
  exact (proj1 (proj1 (proj2 (parse_duration_absent_cases (E := Sample.env)
                                (PStr "PT0M") eq_refl H0))
                 H1 H2 H3 H4 H5)).
Defined.

(* ------------------------------------------------------------------ *)
(** ** The field resolver                                               *)
(* ------------------------------------------------------------------ *)

Section ResolverClaims.
Context `{E : Env}.

Ltac run_M :=
  unfold mbind, mret, scraper.M_bind, scraper.M_ret, scraper.lift,
    scraper.try_M.

(** A path that resolves to a value is a non-empty path on a truthy
    tree, so the resolver does call the lookup. *)
Lemma embedded_lookup_reached (json_ld_data : pyval)
      (path : option (list segment)) (raw : pyval) :
  scraper.extract_from_json_ld json_ld_data path = Ok raw ->
  raw <> PNone ->
  truthy json_ld_data && scraper.path_truthy path = true.
Proof.
  intros Hext Hraw. unfold scraper.extract_from_json_ld in Hext.
  destruct path as [[|seg path]|]; try (injection Hext as <-; congruence).
  destruct (truthy json_ld_data); [reflexivity|].
  injection Hext as <-. congruence.
Qed.

(** C2.  When the embedded-data path of a field resolves to a non-null
    value, resolution ends there: no selector is queried (the query log
    is unchanged), the result does not depend on the presentation tree,
    and with a specific sub-parser the result is exactly what the
    sub-parser returns for that value - also when it returns nothing. *)
Theorem get_value_embedded_value_ends_resolution
    (table : list (string * selector_config)) (json_ld_data : pyval)
    (soup : node) (field_key : string)
    (cleaning_func : option (pyval -> result pyval)) (is_list : bool)
    (json_list_item_processor : option (pyval -> result pyval))
    (css_list_item_processor :
       option (list node -> option (pyval -> result pyval) -> result pyval))
    (specific_json_parser : option (pyval -> result pyval))
    (log : list string) (raw : pyval) :
  scraper.extract_from_json_ld json_ld_data
    (json_ld_path (table_get table field_key)) = Ok raw ->
  raw <> PNone ->
  snd (scraper.get_value table json_ld_data soup field_key cleaning_func
         is_list json_list_item_processor css_list_item_processor
         specific_json_parser log) = log
  /\ (forall soup',
        scraper.get_value table json_ld_data soup' field_key cleaning_func
          is_list json_list_item_processor css_list_item_processor
          specific_json_parser log
        = scraper.get_value table json_ld_data soup field_key cleaning_func
            is_list json_list_item_processor css_list_item_processor
            specific_json_parser log)
  /\ (forall parser,
        specific_json_parser = Some parser ->
        scraper.get_value table json_ld_data soup field_key cleaning_func
          is_list json_list_item_processor css_list_item_processor
          specific_json_parser log
        = (parser raw, log)).
Proof.
  intros Hext Hraw.
  pose proof (embedded_lookup_reached _ _ _ Hext Hraw) as Hreach.
  assert (Hnone : is_none raw = false) by (destruct raw; try reflexivity; now destruct Hraw).
  unfold scraper.get_value. run_M. rewrite Hreach, Hext, Hnone. cbn [negb].
  repeat split.
  - destruct specific_json_parser as [parser|]; [reflexivity|].
    destruct is_list.
    + destruct json_list_item_processor; [reflexivity|].
      destruct raw; reflexivity.
    + destruct cleaning_func; [|reflexivity].
      destruct (scraper.is_scalar raw); reflexivity.
  - intros parser ->. reflexivity.
Qed.

(** C10.  For a list-typed field whose embedded path resolves to a
    non-null value that is not a sequence, the resolver returns the
    empty list and queries no selector - both with the default
    per-item cleaning (ingredients) and with the step processor
    (steps) - and the record gets that empty list. *)
Theorem get_value_list_field_wrong_shape
    (table : list (string * selector_config)) (json_ld_data : pyval)
    (soup : node) (field_key : string)
    (cleaning_func : option (pyval -> result pyval))
    (css_list_item_processor :
       option (list node -> option (pyval -> result pyval) -> result pyval))
    (log : list string) (raw : pyval) :
  scraper.extract_from_json_ld json_ld_data
    (json_ld_path (table_get table field_key)) = Ok raw ->
  raw <> PNone ->
  is_list raw = false ->
  scraper.get_value table json_ld_data soup field_key cleaning_func true
    None css_list_item_processor None log = (Ok (PList []), log)
  /\ scraper.get_value table json_ld_data soup field_key cleaning_func true
       (Some scraper.process_json_steps) css_list_item_processor None log
     = (Ok (PList []), log)
  /\ (field_key = "ingredients" ->
      forall scraped_data,
        scraper.scrape_ingredients table json_ld_data soup scraped_data log
        = (Ok (<["allergens_extracted_from_ingredients" := PList []]>
                 (<["ingredients" := PList []]> scraped_data)), log))
  /\ (field_key = "steps" ->
      forall scraped_data,
        scraper.scrape_steps table json_ld_data soup scraped_data log
        = (Ok (<["steps" := PList []]> scraped_data), log)).
Proof.
  intros Hext Hraw Hshape.
  pose proof (embedded_lookup_reached _ _ _ Hext Hraw) as Hreach.
  assert (Hnone : is_none raw = false) by (destruct raw; try reflexivity; now destruct Hraw).
  assert (Hplain :
            forall cf cp,
              scraper.get_value table json_ld_data soup field_key cf true
                None cp None log = (Ok (PList []), log)).
  { intros cf cp. unfold scraper.get_value. run_M.
    rewrite Hreach, Hext, Hnone. cbn [negb].
    destruct raw; try reflexivity; discriminate. }
  assert (Hsteps :
            forall cf cp,
              scraper.get_value table json_ld_data soup field_key cf true
                (Some scraper.process_json_steps) cp None log
              = (Ok (PList []), log)).
  { intros cf cp. unfold scraper.get_value. run_M.
    rewrite Hreach, Hext, Hnone. cbn [negb].
    destruct raw; try reflexivity; discriminate. }
  repeat split.
  - apply Hplain.
  - apply Hsteps.
  - intros -> scraped_data. unfold scraper.scrape_ingredients.
    unfold mbind at 1, scraper.M_bind at 1. rewrite Hplain. reflexivity.
  - intros -> scraped_data. unfold scraper.scrape_steps.
    unfold mbind at 1, scraper.M_bind at 1. rewrite Hsteps. reflexivity.
Qed.

(** Scalar fallback resolution never raises. *)
Lemma extract_data_point_total (soup : node)
      (strategies : list (gmap string string))
      (cleaning_func : option (pyval -> result pyval)) :
  forall log, exists v log',
    scraper.extract_data_point soup strategies cleaning_func log
    = (Ok v, log').
Proof.
  induction strategies as [|strategy rest IH]; intros log.
  - now exists PNone, log.
  - cbn [scraper.extract_data_point]. run_M.
    destruct (scraper.data_point_attempt soup strategy cleaning_func log)
      as [[[v|]|e] log'].
    + now exists v, log'.
    + apply IH.
    + apply IH.
Qed.

(** List fallback resolution never raises. *)
Lemma extract_list_data_total (soup : node)
      (strategies : list (gmap string string)) :
  forall log, exists elements log',
    scraper.extract_list_data soup strategies log = (Ok elements, log').
Proof.
  induction strategies as [|strategy rest IH]; intros log.
  - now exists [], log.
  - cbn [scraper.extract_list_data]. run_M.
    destruct (scraper.list_data_attempt soup strategy log)
      as [[[v|]|e] log'].
    + now exists v, log'.
    + apply IH.
    + apply IH.
Qed.

(** C6.  An exception raised while one fallback strategy is evaluated
    is caught: the strategy counts as having found nothing and
    resolution goes on with the strategies after it, in order; so
    neither resolution function ever raises. *)
Theorem fallback_exception_is_a_miss :
  (forall soup strategy rest cleaning_func log e log',
      scraper.data_point_attempt soup strategy cleaning_func log
      = (Raise e, log') ->
      scraper.extract_data_point soup (strategy :: rest) cleaning_func log
      = scraper.extract_data_point soup rest cleaning_func log')
  /\ (forall soup strategy rest log e log',
         scraper.list_data_attempt soup strategy log = (Raise e, log') ->
         scraper.extract_list_data soup (strategy :: rest) log
         = scraper.extract_list_data soup rest log')
  /\ (forall soup strategies cleaning_func log,
         exists v log',
           scraper.extract_data_point soup strategies cleaning_func log
           = (Ok v, log'))
  /\ (forall soup strategies log,
         exists elements log',
           scraper.extract_list_data soup strategies log
           = (Ok elements, log')).
Proof.
  repeat split.
  - intros soup strategy rest cf log e log' Hraise.
    cbn [scraper.extract_data_point]. run_M. now rewrite Hraise.
  - intros soup strategy rest log e log' Hraise.
    cbn [scraper.extract_list_data]. run_M. now rewrite Hraise.
  - intros soup strategies cf log. apply extract_data_point_total.
  - intros soup strategies log. apply extract_list_data_total.
Qed.

End ResolverClaims.

Lemma get_value_embedded_value_ends_resolution_witness :
  scraper.extract_from_json_ld Sample.odd_embedded_data
    (json_ld_path (table_get SELECTORS "prep_time_minutes"))
  = Ok (PStr "soon")
  /\ PStr "soon" <> PNone
  /\ scraper.get_value (E := Sample.env) SELECTORS Sample.odd_embedded_data
       Sample.page_with_fallbacks "prep_time_minutes"
       (Some (scraper.default_clean (E := Sample.env))) false None None
       (Some (utils.parse_duration_to_minutes (E := Sample.env))) []
     = (utils.parse_duration_to_minutes (E := Sample.env) (PStr "soon"), []).
Proof.
  assert (H1 : scraper.extract_from_json_ld Sample.odd_embedded_data
                 (json_ld_path (table_get SELECTORS "prep_time_minutes"))
               = Ok (PStr "soon")) by reflexivity.
  assert (H2 : PStr "soon" <> PNone) by discriminate.
  refine (conj H1 (conj H2 _)).
  exact (proj2 (proj2 (get_value_embedded_value_ends_resolution
                         (E := Sample.env) SELECTORS Sample.odd_embedded_data
                         Sample.page_with_fallbacks "prep_time_minutes"
                         (Some (scraper.default_clean (E := Sample.env))) false None None
                         (Some (utils.parse_duration_to_minutes (E := Sample.env))) []
                         (PStr "soon") H1 H2))
               (utils.parse_duration_to_minutes (E := Sample.env)) eq_refl).
Defined.

Lemma get_value_list_field_wrong_shape_witness :
  scraper.extract_from_json_ld Sample.odd_embedded_data
    (json_ld_path (table_get SELECTORS "ingredients"))
  = Ok (PStr "1 cup sugar")
  /\ PStr "1 cup sugar" <> PNone
  /\ is_list (PStr "1 cup sugar") = false
  /\ scraper.get_value (E := Sample.env) SELECTORS Sample.odd_embedded_data
       Sample.page_with_fallbacks "ingredients" None true None None None []
     = (Ok (PList []), []).
Proof.
  assert (H1 : scraper.extract_from_json_ld Sample.odd_embedded_data
                 (json_ld_path (table_get SELECTORS "ingredients"))
               = Ok (PStr "1 cup sugar")) by reflexivity.
  assert (H2 : PStr "1 cup sugar" <> PNone) by discriminate.
  assert (H3 : is_list (PStr "1 cup sugar") = false) by reflexivity.
  refine (conj H1 (conj H2 (conj H3 _))).
  exact (proj1 (get_value_list_field_wrong_shape
                  (E := Sample.env) SELECTORS Sample.odd_embedded_data
                  Sample.page_with_fallbacks "ingredients" None None []
                  (PStr "1 cup sugar") H1 H2 H3)).
Defined.

Lemma fallback_exception_is_a_miss_witness :
  scraper.data_point_attempt (E := Sample.env) Sample.page_with_fallbacks
    (css "") (Some (scraper.default_clean (E := Sample.env))) []
  = (Raise (LibError "empty selector"), [""])
  /\ scraper.extract_data_point (E := Sample.env) Sample.page_with_fallbacks
       [css ""; css "h1"] (Some (scraper.default_clean (E := Sample.env))) []
     = scraper.extract_data_point (E := Sample.env) Sample.page_with_fallbacks
         [css "h1"] (Some (scraper.default_clean (E := Sample.env))) [""].
Proof.
  assert (H1 : scraper.data_point_attempt (E := Sample.env)
                 Sample.page_with_fallbacks (css "")
                 (Some (scraper.default_clean (E := Sample.env))) []
               = (Raise (LibError "empty selector"), [""]))
    by (vm_compute; reflexivity).
  refine (conj H1 _).
  exact (proj1 (fallback_exception_is_a_miss (E := Sample.env))
           Sample.page_with_fallbacks (css "") [css "h1"]
           (Some (scraper.default_clean (E := Sample.env))) [] _ _ H1).
Defined.

(* ------------------------------------------------------------------ *)
(** ** The ingredient line parser                                       *)
(* ------------------------------------------------------------------ *)

Section IngredientClaims.
Context `{E : Env}.

(** One turn of the loop: a kept entry carries the cleaned text of its
    line, a skipped entry is one without usable text. *)
Lemma parse_ingredient_item_full_text
      (cleaning_func : pyval -> result pyval) (it : utils.item)
      (r : option utils.ingredient) :
  utils.parse_ingredient_item cleaning_func it = Ok r ->
  kept_text cleaning_func it
  = match r with
    | Some ing => [utils.full_text ing]
    | None => []
    end.
Proof.
  unfold utils.parse_ingredient_item, kept_text.
  destruct (utils.item_raw_text it) as [raw|].
  2:{ intros [= <-]. reflexivity. }
  destruct (cleaning_func (PStr raw)) as [t|e]; cbn [mbind result_bind Py.bind].
  2:{ discriminate. }
  destruct (truthy t) eqn:Ht; cbn [negb].
  2:{ intros [= <-]. reflexivity. }
  destruct t as [| b | z | q | text | l | d]; try discriminate.
  destruct (utils.split_line text) as [[quantity_str unit_str] name_str].
  destruct (utils.normalize_quantity quantity_str) as [qv|e];
    cbn [mbind result_bind Py.bind]; [|discriminate].
  intros [= <-]. reflexivity.
Qed.

Lemma parse_ingredient_loop_full_text
      (cleaning_func : pyval -> result pyval) (items : list utils.item) :
  forall acc seen ings allergens,
    utils.parse_ingredient_loop cleaning_func items acc seen
    = Ok (ings, allergens) ->
    map utils.full_text ings
    = map utils.full_text acc ++ flat_map (kept_text cleaning_func) items.
Proof.
  induction items as [|it items IH]; intros acc seen ings allergens Hloop.
  - cbn in Hloop. injection Hloop as <- <-. cbn. now rewrite app_nil_r.
  - cbn [utils.parse_ingredient_loop] in Hloop.
    destruct (utils.parse_ingredient_item cleaning_func it) as [r|e] eqn:Hit;
      cbn [mbind result_bind Py.bind] in Hloop; [|discriminate].
    apply parse_ingredient_item_full_text in Hit.
    cbn [flat_map]. rewrite Hit. destruct r as [ing|].
    + apply IH in Hloop. rewrite Hloop, map_app. cbn [map].
      now rewrite <- app_assoc.
    + apply IH in Hloop. exact Hloop.
Qed.

(** C7, as amended.  Every emitted ingredient carries, as its
    [full_text], the cleaned (normalised) text of its line - not the
    raw line - whatever the quantity, unit and name parsing made of
    it: the [full_text] fields are, in order, the cleaned texts of the
    entries that have non-empty cleaned text. *)
Theorem ingredient_full_text_is_cleaned_line
    (cleaning_func : pyval -> result pyval) (items : list utils.item)
    (ings : list utils.ingredient) (allergens : gset string) :
  utils.parse_ingredient_strings_list items cleaning_func
  = Ok (ings, allergens) ->
  map utils.full_text ings = flat_map (kept_text cleaning_func) items.
Proof.
  unfold utils.parse_ingredient_strings_list.
  destruct items as [|it items].
  - intros [= <- <-]. reflexivity.
  - intros Hloop. now apply parse_ingredient_loop_full_text in Hloop.
Qed.

(** The value of a converted token is a number. *)
Lemma convert_quantity_value (q : string) (v : pyval) :
  utils.convert_quantity q = Ok v -> exists f, v = PFloat f.
Proof.
  unfold utils.convert_quantity.
  destruct (Str.has_char "/" q).
  - destruct (Str.has_char "-" q || Str.has_char " " q).
    + destruct (utils.list_item _ 0) as [p0|]; [|discriminate].
      cbn [mbind result_bind Py.bind].
      destruct (Str.py_int p0) as [whole|]; [|discriminate].
      cbn [mbind result_bind Py.bind].
      destruct (utils.list_item _ 1) as [p1|]; [|discriminate].
      cbn [mbind result_bind Py.bind].
      destruct (utils.unpack_two_ints _) as [nd|]; [|discriminate].
      cbn [mbind result_bind Py.bind].
      destruct (utils.truediv _ _) as [f|]; [|discriminate].
      cbn [mbind result_bind Py.bind].
      destruct (Float.of_int whole) as [w|]; [|discriminate].
      cbn [mbind result_bind Py.bind]. intros [= <-]. eauto.
    + destruct (utils.unpack_two_ints _) as [nd|]; [|discriminate].
      cbn [mbind result_bind Py.bind].
      destruct (utils.truediv _ _) as [f|]; [|discriminate].
      cbn [mbind result_bind Py.bind]. intros [= <-]. eauto.
  - destruct (Str.py_float q) as [f|]; [|discriminate].
    cbn [mbind result_bind Py.bind]. intros [= <-]. eauto.
Qed.

(** Whenever the conversion of a captured token returns, the token has
    a value: a table entry, a number, or the token itself. *)
Lemma normalize_quantity_keeps_token (q : string) (v : pyval) :
  q <> "" ->
  utils.normalize_quantity (Some q) = Ok v ->
  (exists n, utils.word_lookup (Str.lower q) utils.qty_word_map = Some n
             /\ v = PInt n)
  \/ (exists f, v = PFloat f)
  \/ v = PStr q.
Proof.
  intros Hq. unfold utils.normalize_quantity.
  destruct (String.eqb_spec q "") as [|_]; [contradiction|].
  destruct (utils.word_lookup (Str.lower q) utils.qty_word_map) as [n|].
  - intros [= <-]. left. eauto.
  - unfold try_except.
    destruct (utils.convert_quantity q) as [w|e] eqn:Hconv.
    + intros [= <-]. right. left. now apply convert_quantity_value in Hconv.
    + destruct (is_ValueError e); [|discriminate].
      intros [= <-]. now right; right.
Qed.

End IngredientClaims.

(** C7 (counterexample).  A line with doubled blanks is emitted with
    the blanks collapsed: the audit field is not the untouched line. *)
Lemma ingredient_full_text_not_raw_line :
  exists ing,
    utils.parse_ingredient_strings_list (E := Sample.env)
      [utils.Value (PStr "1  cup  sugar")]
      (scraper.default_clean (E := Sample.env))
    = Ok ([ing], ∅)
    /\ utils.full_text ing = PStr "1 cup sugar"
    /\ utils.full_text ing <> PStr "1  cup  sugar".
Proof.
  eexists. split; [vm_compute; reflexivity|].
  split; [reflexivity | discriminate].
Qed.

Lemma ingredient_full_text_is_cleaned_line_witness :
  exists ings allergens,
    utils.parse_ingredient_strings_list (E := Sample.env)
      [utils.Value (PStr "1  cup  sugar"); utils.Value (PInt 3);
       utils.Value (PStr "Salt")]
      (scraper.default_clean (E := Sample.env))
    = Ok (ings, allergens)
    /\ map utils.full_text ings = [PStr "1 cup sugar"; PStr "Salt"].
Proof.
  eexists. eexists.
  assert (H1 : utils.parse_ingredient_strings_list (E := Sample.env)
                 [utils.Value (PStr "1  cup  sugar"); utils.Value (PInt 3);
                  utils.Value (PStr "Salt")]
                 (scraper.default_clean (E := Sample.env))
               = Ok (_, _)) by (vm_compute; reflexivity).
  refine (conj H1 _).
  exact (ingredient_full_text_is_cleaned_line (E := Sample.env) _ _ _ _ H1).
Defined.

(** C8 (code at the failing input).  In the line ["1/0 cup sugar"] the
    pattern captures the quantity token ["1/0"]; its conversion divides
    by zero, the [except ValueError] clause does not catch that, and
    the whole ingredient list is lost to the exception. *)
Theorem quantity_zero_denominator_raises :
  utils.split_line "1/0 cup sugar" = (Some "1/0", Some "cup", "sugar")
  /\ utils.normalize_quantity (Some "1/0") = Raise ZeroDivisionError
  /\ utils.parse_ingredient_strings_list (E := Sample.env)
       [utils.Value (PStr "1/0 cup sugar")]
       (scraper.default_clean (E := Sample.env))
     = Raise ZeroDivisionError.
Proof. repeat split; vm_compute; reflexivity. Qed.

(* ------------------------------------------------------------------ *)
(** ** Nutrition keys                                                   *)
(* ------------------------------------------------------------------ *)

Section NutritionKeys.

Lemma lower_app (a b : string) :
  Str.lower (a +:+ b) = Str.lower a +:+ Str.lower b.
Proof.
  unfold Str.lower. induction a as [|c a IH]; [reflexivity|].
  rewrite app_cons. cbn [Str.map_chars]. now rewrite IH.
Qed.

(** After an occurrence, the rest of it is passed over. *)
Lemma replace_go_skip (old new : string) (s : string) :
  forall k, Str.replace_go old new k s
            = Str.replace_go old new 0 (Str.drop k s).
Proof.
  induction s as [|c s IH]; intros [|k]; try reflexivity.
  cbn [Str.replace_go Str.drop]. apply IH.
Qed.

(** Text without an occurrence is left as it is. *)
Lemma replace_without_occurrence (old new s : string) :
  Str.contains old s = false -> Str.replace s old new = s.
Proof.
  unfold Str.replace. induction s as [|c s IH]; [reflexivity|].
  cbn [Str.contains]. intros [Hhere Hlater]%orb_false_iff.
  cbn [Str.replace_go]. rewrite Hhere. now rewrite IH.
Qed.

Lemma startswith_longer (p y z : string) :
  (String.length p <= String.length y)%nat ->
  Str.startswith p (y +:+ z) = Str.startswith p y.
Proof.
  revert y. induction p as [|a p IH]; intros y Hlen; [now destruct y|].
  destruct y as [|b y]; [cbn in Hlen; lia|].
  rewrite app_cons. cbn [Str.startswith]. rewrite IH; [reflexivity|].
  cbn in Hlen. lia.
Qed.

Lemma startswith_app_prefix (p x y z : string) :
  (String.length p <= String.length x + String.length y)%nat ->
  Str.startswith p (x +:+ y +:+ z) = Str.startswith p (x +:+ y).
Proof.
  intros Hlen. rewrite <- app_assoc'. apply startswith_longer.
  rewrite length_app. exact Hlen.
Qed.

(** The leftmost occurrence of ["Content"] is removed and the search
    goes on behind it. *)
Lemma replace_content_first (a b : string) :
  Str.contains "Content" (a +:+ "Conten") = false ->
  Str.replace (a +:+ "Content" +:+ b) "Content" ""
  = a +:+ Str.replace b "Content" "".
Proof.
  unfold Str.replace. induction a as [|c a IH]; intros Hfree.
  - rewrite !app_empty_l.
    change ("Content" +:+ b) with (String "C" ("ontent" +:+ b)).
    cbn [Str.replace_go]. 
    change (Str.startswith "Content" (String "C" ("ontent" +:+ b)))
      with (Str.startswith "Content" ("Content" +:+ b)).
    rewrite startswith_longer by (cbn; lia).
    change (Str.startswith "Content" "Content") with true. cbv iota.
    rewrite app_empty_l, replace_go_skip. reflexivity.
  - rewrite app_cons in Hfree. cbn [Str.contains] in Hfree.
    apply orb_false_iff in Hfree as [Hhere Hlater].
    rewrite app_cons. cbn [Str.replace_go].
    change ("Content" +:+ b) with ("Conten" +:+ "t" +:+ b).
    rewrite <- (app_cons c a ("Conten" +:+ "t" +:+ b)).
    rewrite startswith_app_prefix by (cbn; lia).
    rewrite app_cons, Hhere.
    change ("Conten" +:+ "t" +:+ b) with ("Content" +:+ b).
    now rewrite IH.
Qed.

(** C9, as amended.  The canonical key of a raw nutrition key is the
    key with every occurrence of ["Content"] removed - wherever it
    stands, not only at the end - and then lower-cased, except that a
    key containing ["calories"] in any case maps to ["calories"].  So a
    key in which ["Content"] occurs only as the trailing suffix loses
    that suffix, and a key without it is only lower-cased.  The raw
    entry ["fatContent"]: ["15g"] becomes ["fat"]: 15.0. *)
Theorem clean_key_removes_every_content :
  (forall key, Str.contains "calories" (Str.lower key) = true ->
               scraper.clean_key key = "calories")
  /\ (forall key, Str.contains "calories" (Str.lower key) = false ->
                  Str.contains "Content" key = false ->
                  scraper.clean_key key = Str.lower key)
  /\ (forall a b,
         Str.contains "calories" (Str.lower (a +:+ "Content" +:+ b)) = false ->
         Str.contains "Content" (a +:+ "Conten") = false ->
         scraper.clean_key (a +:+ "Content" +:+ b)
         = Str.lower a +:+ Str.lower (Str.replace b "Content" ""))
  /\ (forall a,
         Str.contains "calories" (Str.lower (a +:+ "Content")) = false ->
         Str.contains "Content" (a +:+ "Conten") = false ->
         scraper.clean_key (a +:+ "Content") = Str.lower a)
  /\ (forall E : Env,
         scraper.parse_nutrition_items [("fatContent", PStr "15g")] []
         = Ok [("fat", PFloat 15)]).
Proof.
  repeat split.
  - intros key Hcal. unfold scraper.clean_key. now rewrite Hcal.
  - intros key Hcal Hfree. unfold scraper.clean_key. rewrite Hcal.
    now rewrite replace_without_occurrence.
  - intros a b Hcal Hfree. unfold scraper.clean_key. rewrite Hcal.
    now rewrite replace_content_first, lower_app.
  - intros a Hcal Hfree. unfold scraper.clean_key. rewrite Hcal.
    rewrite <- (app_empty_r (a +:+ "Content")), app_assoc'.
    rewrite replace_content_first by assumption.
    change (Str.replace "" "Content" "") with "".
    now rewrite app_empty_r.
Qed.

End NutritionKeys.

(** C9 (counterexample).  ["ContentType"] has no trailing ["Content"];
    as stated its canonical key would be the lower-cased key, but the
    code removes the leading occurrence as well. *)
Lemma clean_key_removes_leading_content :
  scraper.clean_key "ContentType" = "type"
  /\ canonical_key_as_stated "ContentType" = "contenttype"
  /\ scraper.clean_key "ContentType" <> canonical_key_as_stated "ContentType".
Proof. repeat split; vm_compute; congruence. Qed.

Lemma clean_key_removes_every_content_witness :
  Str.contains "calories" (Str.lower ("saturatedFat" +:+ "Content")) = false
  /\ Str.contains "Content" ("saturatedFat" +:+ "Conten") = false
  /\ scraper.clean_key ("saturatedFat" +:+ "Content") = "saturatedfat".
Proof.
  assert (H1 : Str.contains "calories"
                 (Str.lower ("saturatedFat" +:+ "Content")) = false)
    by (vm_compute; reflexivity).
  assert (H2 : Str.contains "Content" ("saturatedFat" +:+ "Conten") = false)
    by (vm_compute; reflexivity).
  refine (conj H1 (conj H2 _)).
  exact (proj1 (proj2 (proj2 (proj2 clean_key_removes_every_content)))
           "saturatedFat" H1 H2).
Defined.

(* ------------------------------------------------------------------ *)
(** ** Record assembly on a page without embedded data                  *)
(* ------------------------------------------------------------------ *)

Section WithoutEmbeddedData.
Context `{E : Env}.
Variable soup : node.

Lemma bind_ok {A B} (m : scraper.M A) (f : A -> scraper.M B)
      (log log' : list string) (a : A) :
  m log = (Ok a, log') ->
  mbind (MBind := scraper.M_bind) f m log = f a log'.
Proof. intros Hm. unfold mbind, scraper.M_bind. now rewrite Hm. Qed.

Lemma finish_value_shape (cleaning_func : option (pyval -> result pyval))
      (value : option string) (v : pyval) :
  (forall f, cleaning_func = Some f -> f = scraper.default_clean) ->
  scraper.finish_value cleaning_func value = Ok v -> str_or_none v.
Proof.
  intros Hcf. unfold scraper.finish_value.
  destruct value as [t|]; [|intros [= <-]; now left].
  destruct (utils.str_truthy t); [|intros [= <-]; now left].
  destruct cleaning_func as [f|].
  - rewrite (Hcf f eq_refl). unfold scraper.default_clean, utils.clean_text.
    intros [= <-]. right. eauto.
  - intros [= <-]. right. eauto.
Qed.

Lemma data_point_attempt_shape (strategy : gmap string string)
      (cleaning_func : option (pyval -> result pyval))
      (log log' : list string) (v : pyval) :
  (forall f, cleaning_func = Some f -> f = scraper.default_clean) ->
  scraper.data_point_attempt soup strategy cleaning_func log
  = (Ok (Some v), log') ->
  str_or_none v.
Proof.
  intros Hcf. unfold scraper.data_point_attempt.
  unfold mbind, mret, scraper.M_bind, scraper.M_ret, scraper.lift,
    scraper.query_one.
  destruct (scraper.strategy_item strategy "type") as [ty|]; [|discriminate].
  destruct (String.eqb ty "css").
  - destruct (scraper.strategy_item strategy "selector") as [sel|];
      [|discriminate].
    destruct (select_one soup sel) as [[el|]|]; try discriminate.
    match goal with
    | |- context [scraper.finish_value ?cf ?val] =>
        destruct (scraper.finish_value cf val) as [w|] eqn:Hfin
    end; [|discriminate].
    intros [= <- _]. exact (finish_value_shape _ _ _ Hcf Hfin).
  - destruct (String.eqb ty "meta"); [|discriminate].
    destruct (scraper.strategy_item strategy "selector") as [sel|];
      [|discriminate].
    destruct (select_one soup sel) as [[el|]|]; try discriminate.
    destruct (strategy !! "attribute_name") as [a|]; [|discriminate].
    destruct (utils.str_truthy a); [|discriminate].
    match goal with
    | |- context [scraper.finish_value ?cf ?val] =>
        destruct (scraper.finish_value cf val) as [w|] eqn:Hfin
    end; [|discriminate].
    intros [= <- _]. exact (finish_value_shape _ _ _ Hcf Hfin).
Qed.

(** A scalar fallback resolution returns text or nothing. *)
Lemma extract_data_point_shape (strategies : list (gmap string string))
      (cleaning_func : option (pyval -> result pyval)) :
  (forall f, cleaning_func = Some f -> f = scraper.default_clean) ->
  forall log, exists v log',
    scraper.extract_data_point soup strategies cleaning_func log = (Ok v, log')
    /\ str_or_none v.
Proof.
  intros Hcf. induction strategies as [|strategy rest IH]; intros log.
  - exists PNone, log. split; [reflexivity | now left].
  - cbn [scraper.extract_data_point].
    unfold mbind, mret, scraper.M_bind, scraper.M_ret, scraper.try_M.
    destruct (scraper.data_point_attempt soup strategy cleaning_func log)
      as [[[v|]|e] log'] eqn:Hatt.
    + exists v, log'. split; [reflexivity|].
      exact (data_point_attempt_shape _ _ _ _ _ Hcf Hatt).
    + apply IH.
    + apply IH.
Qed.

(** Without embedded data a scalar field is resolved by its fallbacks
    alone, whatever its parser. *)
Lemma get_value_without_data (field_key : string)
      (cleaning_func : option (pyval -> result pyval))
      (parser : option (pyval -> result pyval)) :
  (forall f, cleaning_func = Some f -> f = scraper.default_clean) ->
  forall log, exists v log',
    scraper.get_value SELECTORS PNone soup field_key cleaning_func false
      None None parser log = (Ok v, log')
    /\ str_or_none v.
Proof.
  intros Hcf log. unfold scraper.get_value.
  unfold mbind at 1, scraper.M_bind at 1, scraper.lift at 1.
  cbn [truthy andb is_none negb].
  destruct (css_selectors (table_get SELECTORS field_key)) as [[|s rest]|].
  - exists PNone, log. split; [reflexivity | now left].
  - now apply extract_data_point_shape.
  - exists PNone, log. split; [reflexivity | now left].
Qed.

Lemma parse_steps_default (items : list utils.item) :
  exists vs, utils.parse_step_strings_list items scraper.default_clean = Ok vs.
Proof.
  induction items as [|it items [vs IH]]; [now exists []|].
  cbn [utils.parse_step_strings_list].
  destruct (utils.item_raw_text it) as [raw|]; [|now exists vs].
  change (scraper.default_clean (PStr raw))
    with (Ok (utils.clean_text (PStr raw))).
  cbn [mbind result_bind Py.bind].
  rewrite IH. cbn [mbind result_bind Py.bind]. eauto.
Qed.

Lemma scrape_plain_without_data (field_key : string)
      (scraped_data : gmap string pyval) (log : list string) :
  exists v log',
    scraper.scrape_plain SELECTORS PNone soup field_key scraped_data log
    = (Ok (<[field_key := v]> scraped_data), log')
    /\ str_or_none v.
Proof.
  destruct (get_value_without_data field_key (Some scraper.default_clean)
              None ltac:(now intros f [= <-]) log) as (v & log' & Hget & Hv).
  exists v, log'. split; [|assumption].
  unfold scraper.scrape_plain. now rewrite (bind_ok _ _ _ _ _ Hget).
Qed.

Lemma scrape_parsed_without_data (field_key : string)
      (parser : pyval -> result pyval)
      (scraped_data : gmap string pyval) (log : list string) :
  exists v log',
    scraper.scrape_parsed SELECTORS PNone soup field_key parser
      scraped_data log
    = (Ok (<[field_key := v]> scraped_data), log')
    /\ str_or_none v.
Proof.
  destruct (get_value_without_data field_key (Some scraper.default_clean)
              (Some parser) ltac:(now intros f [= <-]) log)
    as (v & log' & Hget & Hv).
  exists v, log'. split; [|assumption].
  unfold scraper.scrape_parsed. now rewrite (bind_ok _ _ _ _ _ Hget).
Qed.

Lemma scrape_external_id_without_data (recipe_url : string)
      (scraped_data : gmap string pyval) (log : list string) :
  exists v log',
    scraper.scrape_external_id SELECTORS PNone soup recipe_url
      scraped_data log
    = (Ok (<["external_id" := v]> scraped_data), log').
Proof.
  destruct (get_value_without_data "external_id" None None
              ltac:(discriminate) log) as (v & log' & Hget & Hv).
  unfold scraper.scrape_external_id. rewrite (bind_ok _ _ _ _ _ Hget).
  eexists _, log'. reflexivity.
Qed.

Lemma backfill_total_time_without_data (scraped_data : gmap string pyval)
      (vp vc vt : pyval) :
  scraped_data !! "prep_time_minutes" = Some vp ->
  scraped_data !! "cook_time_minutes" = Some vc ->
  scraped_data !! "total_time_minutes" = Some vt ->
  str_or_none vp -> str_or_none vc -> str_or_none vt ->
  exists sd',
    scraper.backfill_total_time scraped_data = Ok sd'
    /\ forall k, k <> "total_time_minutes" -> sd' !! k = scraped_data !! k.
Proof.
  intros Hp Hc Ht Hvp Hvc Hvt.
  unfold scraper.backfill_total_time, scraper.record_item.
  rewrite Hp, Hc, Ht. cbn [mbind result_bind Py.bind].
  destruct Hvt as [-> | [st ->]], Hvp as [-> | [sp ->]],
        Hvc as [-> | [sc ->]];
    cbn [is_none negb andb scraper.py_add mbind result_bind Py.bind];
    eexists; (split; [reflexivity|]); intros k Hk;
    rewrite ?lookup_insert_ne by congruence; reflexivity.
Qed.

Lemma scrape_image_url_without_data (scraped_data : gmap string pyval)
      (log : list string) :
  scraped_data !! "image_url" = None ->
  exists sd' log',
    scraper.scrape_image_url SELECTORS PNone soup scraped_data log
    = (Ok sd', log')
    /\ forall k, k <> "image_url" -> sd' !! k = scraped_data !! k.
Proof.
  intros Hnoimg.
  destruct (get_value_without_data "image_url" None None
              ltac:(discriminate) log) as (v & log' & Hget & Hv).
  unfold scraper.scrape_image_url. rewrite (bind_ok _ _ _ _ _ Hget).
  destruct Hv as [-> | [u ->]].
  - rewrite Hnoimg. now exists scraped_data, log'.
  - rewrite lookup_insert_eq.
    destruct (truthy (PStr u)); eexists _, log';
      (split; [reflexivity|]); intros k Hk;
      rewrite ?lookup_insert_ne by congruence; reflexivity.
Qed.

Lemma get_value_list_without_data (field_key : string)
      (cleaning_func : option (pyval -> result pyval))
      (css_list_item_processor :
         option (list node -> option (pyval -> result pyval) -> result pyval))
      (log : list string) :
  (forall processor elements,
      css_list_item_processor = Some processor ->
      exists v, processor elements cleaning_func = Ok v) ->
  exists v log',
    scraper.get_value SELECTORS PNone soup field_key cleaning_func true
      None css_list_item_processor None log = (Ok v, log')
    /\ (css_list_item_processor = None -> v = PList [] \/ v = PNone).
Proof.
  intros Hproc. unfold scraper.get_value.
  unfold mbind at 1, scraper.M_bind at 1, scraper.lift at 1.
  cbn [truthy andb is_none negb].
  destruct (css_selectors (table_get SELECTORS field_key)) as [[|s rest]|].
  - exists PNone, log. split; [reflexivity | now right].
  - destruct (extract_list_data_total soup (s :: rest) log)
      as (els & log' & Hels).
    rewrite (bind_ok _ _ _ _ _ Hels).
    destruct css_list_item_processor as [processor|].
    + destruct els as [|el els];
        [exists (PList []), log'; split; [reflexivity | now left]|].
      destruct (Hproc processor (el :: els) eq_refl) as (v & Hv).
      exists v, log'. unfold scraper.lift. rewrite Hv.
      split; [reflexivity | discriminate].
    + exists (PList []), log'. split; [reflexivity | now left].
  - exists PNone, log. split; [reflexivity | now right].
Qed.

Lemma scrape_ingredients_without_data (scraped_data : gmap string pyval)
      (log : list string) :
  exists log',
    scraper.scrape_ingredients SELECTORS PNone soup scraped_data log
    = (Ok (<["allergens_extracted_from_ingredients" := PList []]>
             (<["ingredients" := PList []]> scraped_data)), log').
Proof.
  destruct (get_value_list_without_data "ingredients" None None log
              ltac:(discriminate)) as (v & log' & Hget & Hv).
  exists log'. unfold scraper.scrape_ingredients.
  rewrite (bind_ok _ _ _ _ _ Hget).
  destruct (Hv eq_refl) as [-> | ->]; reflexivity.
Qed.

Lemma scrape_steps_without_data (scraped_data : gmap string pyval)
      (log : list string) :
  exists v log',
    scraper.scrape_steps SELECTORS PNone soup scraped_data log
    = (Ok (<["steps" := v]> scraped_data), log').
Proof.
  destruct (get_value_list_without_data "steps" (Some scraper.default_clean)
              (Some scraper.steps_css_processor) log)
    as (v & log' & Hget & _).
  { intros processor elements [= <-]. unfold scraper.steps_css_processor.
    destruct (parse_steps_default (map utils.Element elements)) as (vs & ->).
    cbn [mbind result_bind Py.bind]. eauto. }
  exists v, log'. unfold scraper.scrape_steps.
  now rewrite (bind_ok _ _ _ _ _ Hget).
Qed.

Ltac block_step :=
  lazymatch goal with
  | |- exists _, mbind _ (scraper.scrape_plain _ _ _ ?key ?sd) ?l = _ =>
      let H := fresh "Hstep" in
      destruct (scrape_plain_without_data key sd l) as (? & ? & H & ?);
      rewrite (bind_ok _ _ _ _ _ H); clear H; cbn beta
  | |- exists _, mbind _ (scraper.scrape_parsed _ _ _ ?key ?p ?sd) ?l = _ =>
      let H := fresh "Hstep" in
      destruct (scrape_parsed_without_data key p sd l) as (? & ? & H & ?);
      rewrite (bind_ok _ _ _ _ _ H); clear H; cbn beta
  | |- exists _, mbind _ (scraper.scrape_external_id _ _ _ ?u ?sd) ?l = _ =>
      let H := fresh "Hstep" in
      destruct (scrape_external_id_without_data u sd l) as (? & ? & H);
      rewrite (bind_ok _ _ _ _ _ H); clear H; cbn beta
  | |- exists _, mbind _ (scraper.scrape_ingredients _ _ _ ?sd) ?l = _ =>
      let H := fresh "Hstep" in
      destruct (scrape_ingredients_without_data sd l) as (? & H);
      rewrite (bind_ok _ _ _ _ _ H); clear H; cbn beta
  | |- exists _, mbind _ (scraper.scrape_steps _ _ _ ?sd) ?l = _ =>
      let H := fresh "Hstep" in
      destruct (scrape_steps_without_data sd l) as (? & ? & H);
      rewrite (bind_ok _ _ _ _ _ H); clear H; cbn beta
  end.

(** C1 (the whole call).  On every page without embedded data - for
    every presentation tree, address and time - record assembly gets
    as far as the nutrition field and raises [KeyError] there: the
    presentation fallback for nutrition is never reached, and no
    record is returned. *)
Theorem assemble_record_without_embedded_data_raises
    (recipe_url scraped_at_timestamp : string) (log : list string) :
  exists log',
    scraper.assemble_record SELECTORS recipe_url scraped_at_timestamp
      PNone soup log
    = (Raise (KeyError "nutrition_info"), log').
Proof.
  unfold scraper.assemble_record. cbv zeta.
  do 6 block_step.
  lazymatch goal with
  | |- exists _, mbind _ (scraper.lift (scraper.backfill_total_time ?sd)) ?l
                 = _ =>
      destruct (backfill_total_time_without_data sd _ _ _
                  ltac:(now simplify_map_eq) ltac:(now simplify_map_eq)
                  ltac:(now simplify_map_eq)
                  ltac:(assumption) ltac:(assumption) ltac:(assumption))
        as (sd7 & Hback & Hsame7);
      rewrite (bind_ok (scraper.lift _) _ l l sd7)
        by (unfold scraper.lift; now rewrite Hback)
  end.
  cbn beta. block_step.
  lazymatch goal with
  | |- exists _, mbind _ (scraper.scrape_image_url _ _ _ ?sd) ?l = _ =>
      destruct (scrape_image_url_without_data sd l) as (sd9 & l9 & Himg & Hsame9);
      [ rewrite lookup_insert_ne, Hsame7 by done; now simplify_map_eq
      | rewrite (bind_ok _ _ _ _ _ Himg); clear Himg; cbn beta ]
  end.
  do 2 block_step.
  lazymatch goal with
  | |- exists _, mbind _ (scraper.scrape_nutrition _ _ _ ?sd) ?l = _ =>
      destruct (get_value_without_data "nutrition_info" None None
                  ltac:(discriminate) l) as (vn & ln & Hget & Hvn);
      exists ln;
      unfold mbind at 1, scraper.M_bind at 1;
      rewrite (scrape_nutrition_keyerror PNone soup sd l ln vn)
  end.
  - reflexivity.
  - rewrite !lookup_insert_ne, Hsame9, lookup_insert_ne, Hsame7 by done.
    now simplify_map_eq.
  - exact Hget.
  - destruct Hvn as [-> | [s ->]]; reflexivity.
Qed.

End WithoutEmbeddedData.

(** A nutrition value whose first run of digits and points is a lone
    point, as in ["n.a."], makes [float] fail: the exception leaves the
    loop of lines 246-254 and with it the whole call. *)
Lemma nutrition_value_lone_point_raises :
  scraper.parse_nutrition_items (E := Sample.env)
    [("fatContent", PStr "n.a.")] []
  = Raise ValueError.
Proof. vm_compute. reflexivity. Qed.

(** The assertions of the source's own test, on embedded data of that
    shape: with a nutrition mapping present the call returns a record. *)
Lemma assemble_record_sample :
  match fst (scraper.assemble_record (E := Sample.env) SELECTORS
               Sample.teriyaki_url "2024-01-01T00:00:00+00:00"
               Sample.teriyaki_data Sample.empty_page []) with
  | Ok record =>
      map (fun k => record !! k)
        ["name"; "total_time_minutes"; "servings"; "external_id";
         "nutrition_info"; "steps"]
      = [ Some (PStr "Teriyaki Chicken Tenders with Jasmine Rice and Green Beans");
          Some (PInt 35); Some (PInt 2);
          Some (PStr "5a664231ad1d6c6f007d0d72");
          Some (PDict [("calories", PFloat 640); ("fat", PFloat 15)]);
          Some (PList [PStr "Wash and dry all produce."]) ]
  | Raise _ => False
  end.
Proof. vm_compute. reflexivity. Qed.

(* ------------------------------------------------------------------ *)
(** ** Text normalisation                                               *)
(* ------------------------------------------------------------------ *)

Section CleanText.

Lemma all_chars_rev_app (p : ascii -> bool) (w acc : string) :
  Str.all_chars p (String.rev_app w acc)
  = Str.all_chars p w && Str.all_chars p acc.
Proof.
  revert acc. induction w as [|c w IH]; intros acc; [reflexivity|].
  cbn [String.rev_app Str.all_chars]. rewrite IH. cbn [Str.all_chars].
  destruct (p c), (Str.all_chars p w); reflexivity.
Qed.

Lemma rev_app_nonempty (w acc : string) :
  acc <> "" -> String.rev_app w acc <> "".
Proof.
  revert acc. induction w as [|c w IH]; intros acc Hacc; [assumption|].
  cbn [String.rev_app]. apply IH. discriminate.
Qed.

Lemma rev_word (w : string) :
  is_word w -> is_word (String.rev w).
Proof.
  intros [Hne Hw]. unfold String.rev. split.
  - destruct w as [|c w]; [congruence|]. cbn [String.rev_app].
    apply rev_app_nonempty. discriminate.
  - rewrite all_chars_rev_app. now rewrite Hw.
Qed.

(** [split] yields words: non-empty and free of blanks. *)
Lemma split_ws_go_words (s : string) :
  forall cur,
    match cur with Some w => is_word w | None => True end ->
    Forall is_word (Str.split_ws_go cur s).
Proof.
  induction s as [|c s IH]; intros cur Hcur; cbn [Str.split_ws_go].
  - destruct cur as [w|]; [|constructor].
    constructor; [now apply rev_word | constructor].
  - destruct (Str.is_space c) eqn:Hc.
    + destruct cur as [w|]; [|now apply IH].
      constructor; [now apply rev_word | now apply IH].
    + apply IH. destruct cur as [w|].
      * destruct Hcur as [Hne Hw]. split; [discriminate|].
        cbn [Str.all_chars]. now rewrite Hc, Hw.
      * split; [discriminate|]. cbn [Str.all_chars]. now rewrite Hc.
Qed.

Lemma split_ws_words (s : string) : Forall is_word (Str.split_ws s).
Proof. now apply split_ws_go_words. Qed.

Lemma split_ws_go_app (w rest : string) :
  Str.all_chars (fun c => negb (Str.is_space c)) w = true ->
  forall cur,
    Str.split_ws_go (Some cur) (w +:+ String " " rest)
    = (String.rev cur +:+ w) :: Str.split_ws_go None rest.
Proof.
  induction w as [|c w IH]; intros Hw cur.
  - rewrite app_empty_l, app_empty_r. reflexivity.
  - cbn [Str.all_chars] in Hw. apply andb_true_iff in Hw as [Hc Hw].
    apply negb_true_iff in Hc. rewrite app_cons. cbn [Str.split_ws_go].
    rewrite Hc, IH by assumption. unfold String.rev. cbn [String.rev_app].
    now rewrite !rev_app_append.
Qed.

(** Splitting single-spaced words gives the words back. *)
Lemma split_ws_join (ws : list string) :
  Forall is_word ws -> Str.split_ws (Str.join " " ws) = ws.
Proof.
  induction 1 as [|w ws [Hne Hw] Hws IH]; [reflexivity|].
  destruct ws as [|w' ws].
  - cbn [Str.join]. now apply split_ws_word.
  - change (Str.join " " (w :: w' :: ws))
      with (w +:+ String " " (Str.join " " (w' :: ws))).
    destruct w as [|c w]; [congruence|].
    cbn [Str.all_chars] in Hw. apply andb_true_iff in Hw as [Hc Hw].
    apply negb_true_iff in Hc.
    unfold Str.split_ws. rewrite app_cons. cbn [Str.split_ws_go]. rewrite Hc.
    rewrite split_ws_go_app by assumption.
    change (Str.split_ws_go None (Str.join " " (w' :: ws)))
      with (Str.split_ws (Str.join " " (w' :: ws))).
    now rewrite IH.
Qed.

(** X1.  On a value that [str] converts, [clean_text] returns [None]
    only for [None]; otherwise it
    returns text in whitespace normal form: the words of the text that
    the HTML library extracted, in order, separated by single blanks -
    no blank at either end, no two blanks in a row, no other whitespace
    character.  (What a second call of [clean_text] makes of the result
    is up to the HTML library and is not part of the statement.) *)
Theorem clean_text_normal_form `{E : Env} (text : pyval) :
  str_converts text = true ->
  match utils.clean_text text with
  | PNone => text = PNone
  | PStr s =>
      text <> PNone
      /\ Str.split_ws s = Str.split_ws (bs_text (py_str text))
      /\ Forall is_word (Str.split_ws s)
      /\ Str.join " " (Str.split_ws s) = s
  | _ => False
  end.
Proof.
  intros _.
  pose proof (split_ws_words (bs_text (py_str text))) as Hwords.
  pose proof (split_ws_join _ Hwords) as Hsplit.
  destruct text; cbn [utils.clean_text]; try reflexivity;
    (split; [discriminate|]); rewrite Hsplit; auto.
Qed.

End CleanText.

Lemma clean_text_normal_form_witness :
  str_converts (PStr "  Stir   well. ") = true
  /\ utils.clean_text (E := Sample.env) (PStr "  Stir   well. ")
     = PStr "Stir well."
  /\ Str.split_ws "Stir well." = ["Stir"; "well."].
Proof.
  assert (H : str_converts (PStr "  Stir   well. ") = true) by reflexivity.
  pose proof (clean_text_normal_form (E := Sample.env)
                (PStr "  Stir   well. ") H) as Hnf.
  assert (Hrun : utils.clean_text (E := Sample.env) (PStr "  Stir   well. ")
                 = PStr "Stir well.") by (vm_compute; reflexivity).
  rewrite Hrun in Hnf. destruct Hnf as (_ & Hwords & _).
  split; [exact H | split; [exact Hrun|]].
  rewrite Hwords. vm_compute. reflexivity.
Defined.

(* ------------------------------------------------------------------ *)
(** ** Instruction steps                                                *)
(* ------------------------------------------------------------------ *)

Section Steps.
Context `{E : Env}.

(** The test [step_item.get("@type") == "HowToStep"] on a type that is
    another string. *)
Lemma howto_other {A} (ty : string) (a b : A) :
  ty <> "HowToStep" ->
  match ty with
  | "HowToStep" => a
  | _ => b
  end = b.
Proof.
  intros Hty.
  do 9 (destruct ty as [|c ty]; [reflexivity|];
        destruct c as [[] [] [] [] [] [] [] []]; try reflexivity).
  destruct ty; [congruence | reflexivity].
Qed.

Lemma cleaned_normal (v : pyval) :
  cleaned v <> "" -> normal_text (cleaned v).
Proof.
  intros Hne. split; [assumption|]. unfold cleaned.
  now rewrite split_ws_join by apply split_ws_words.
Qed.

Lemma step_text_normal (it : utils.item) (t : string) :
  step_text it = Some t -> normal_text t.
Proof.
  unfold step_text. destruct (utils.item_raw_text it) as [raw|]; [|discriminate].
  cbv zeta. destruct (String.eqb_spec (cleaned (PStr raw)) "") as [|Hne];
    [discriminate|].
  intros [= <-]. now apply cleaned_normal.
Qed.

Lemma json_step_text_normal (step_item : pyval) (t : string) :
  json_step_text step_item = Some t -> normal_text t.
Proof.
  unfold json_step_text. destruct step_item as [| b | z | q | s | l | d];
    try discriminate.
  - cbv zeta. destruct (String.eqb_spec (cleaned (PStr s)) "") as [|Hne];
      [discriminate|].
    intros [= <-]. now apply cleaned_normal.
  - destruct (dict_get d "@type") as [[| | | | ty | |]|]; try discriminate.
    destruct (String.eqb_spec ty "HowToStep") as [-> | Hty].
    + destruct (dict_get d "text") as [text|]; [|discriminate].
      destruct (is_none text); [discriminate|]. cbv zeta.
      destruct (String.eqb_spec (cleaned text) "") as [|Hne]; [discriminate|].
      intros [= <-]. now apply cleaned_normal.
    + rewrite howto_other by exact Hty. discriminate.
Qed.

(** X2.  With the default cleaning, [parse_step_strings_list] never
    raises.  It returns, in order, the cleaned texts of the entries that
    carry text, leaving out those whose cleaned text is empty; so every
    step returned is a non-empty text in normal form, and there are at
    most as many steps as entries. *)
Theorem parse_step_strings_list_default (items : list utils.item) :
  utils.parse_step_strings_list items scraper.default_clean
  = Ok (map PStr (omap step_text items))
  /\ Forall normal_text (omap step_text items)
  /\ (List.length (omap step_text items) <= List.length items)%nat.
Proof.
  split; [|split].
  - induction items as [|it items IH]; [reflexivity|].
    cbn [utils.parse_step_strings_list omap list_omap]. unfold step_text at 1.
    destruct (utils.item_raw_text it) as [raw|]; [|exact IH].
    rewrite IH. unfold scraper.default_clean.
    cbn [mbind result_bind Py.bind utils.clean_text truthy].
    change (Str.join " " (Str.split_ws (bs_text (py_str (PStr raw)))))
      with (cleaned (PStr raw)).
    cbv zeta. now destruct (String.eqb (cleaned (PStr raw)) "").
  - induction items as [|it items IH]; [constructor|].
    cbn [omap list_omap]. destruct (step_text it) as [t|] eqn:Ht; [|exact IH].
    constructor; [exact (step_text_normal _ _ Ht) | exact IH].
  - induction items as [|it items IH]; [reflexivity|].
    cbn [omap list_omap]. destruct (step_text it); cbn [List.length]; lia.
Qed.

(** X3.  [process_json_steps] never raises.  From a list it returns, in
    order, the cleaned texts of the string entries and of the ["text"]
    of the [HowToStep] mappings, leaving out empty ones; every other
    entry is dropped, and anything that is not a list gives the empty
    list. *)
Theorem process_json_steps_texts (step_data_list : pyval) :
  scraper.process_json_steps step_data_list
  = Ok (PList (map PStr
                 (match step_data_list with
                  | PList l => omap json_step_text l
                  | _ => []
                  end)))
  /\ (forall l, step_data_list = PList l ->
                Forall normal_text (omap json_step_text l)).
Proof.
  split.
  - destruct step_data_list as [| b | z | q | s | l | d]; try reflexivity.
    unfold scraper.process_json_steps. do 2 f_equal.
    induction l as [|x l IH]; [reflexivity|].
    cbn [flat_map omap list_omap]. rewrite filter_app, IH. clear IH.
    set (rest := omap json_step_text l). unfold json_step_text.
    destruct x as [| b | z | q | s | l' | d]; try reflexivity.
    + cbn [utils.clean_text]. change (Str.join " " (Str.split_ws (bs_text (py_str (PStr s)))))
        with (cleaned (PStr s)).
      cbv zeta. rewrite filter_cons. cbn [truthy].
      destruct (String.eqb (cleaned (PStr s)) ""); cbn [negb];
        destruct (decide _); try congruence; reflexivity.
    + destruct (dict_get d "@type") as [[| | | | ty | |]|]; try reflexivity.
      assert (Hty : {ty = "HowToStep"} + {ty <> "HowToStep"})
        by apply string_dec.
      destruct Hty as [-> | Hty].
      * destruct (dict_get d "text") as [text|]; [|reflexivity].
        destruct text as [| b | z | q | s | l' | d']; try reflexivity;
          cbn [utils.clean_text is_none];
          match goal with
          | |- context [Str.join " " (Str.split_ws (bs_text (py_str ?v)))] =>
              change (Str.join " " (Str.split_ws (bs_text (py_str v))))
                with (cleaned v)
          end;
          cbv zeta; rewrite filter_cons; cbn [truthy];
          destruct (String.eqb (cleaned _) ""); cbn [negb];
          destruct (decide _); try congruence; reflexivity.
      * rewrite !howto_other by exact Hty. reflexivity.
  - intros l _. induction l as [|x l IH]; [constructor|].
    cbn [omap list_omap].
    destruct (json_step_text x) as [t|] eqn:Ht; [|exact IH].
    constructor; [exact (json_step_text_normal _ _ Ht) | exact IH].
Qed.

End Steps.

(* ------------------------------------------------------------------ *)
(** ** More facts about the matcher                                     *)
(* ------------------------------------------------------------------ *)

Section MatcherSteps.

Lemma run_seq {X} (r1 r2 : Re.regex) pos s c
      (k : nat -> string -> Re.caps -> option X) :
  Re.run (Re.Seq r1 r2) pos s c k
  = Re.run r1 pos s c (fun pos' s' c' => Re.run r2 pos' s' c' k).
Proof. reflexivity. Qed.

Lemma run_alt {X} (r1 r2 : Re.regex) pos s c
      (k : nat -> string -> Re.caps -> option X) :
  Re.run (Re.Alt r1 r2) pos s c k
  = match Re.run r1 pos s c k with
    | Some x => Some x
    | None => Re.run r2 pos s c k
    end.
Proof. reflexivity. Qed.

Lemma run_chr {X} (p : ascii -> bool) pos a s c
      (k : nat -> string -> Re.caps -> option X) :
  Re.run (Re.Chr p) pos (String a s) c k
  = if p a then k (S pos) s c else None.
Proof. reflexivity. Qed.

Lemma run_chr_empty {X} (p : ascii -> bool) pos c
      (k : nat -> string -> Re.caps -> option X) :
  Re.run (Re.Chr p) pos "" c k = None.
Proof. reflexivity. Qed.

Lemma run_group {X} (g : nat) (r : Re.regex) pos s c
      (k : nat -> string -> Re.caps -> option X) :
  Re.run (Re.Group g r) pos s c k
  = Re.run r pos s c
      (fun pos' s' c' => k pos' s' ((g, Str.take (pos' - pos) s) :: c')).
Proof. reflexivity. Qed.

(** A greedy run over a character class takes the whole run when what
    follows the run then succeeds. *)
Lemma star_loop_chr_greedy {X} (p : ascii -> bool)
      (k : nat -> string -> Re.caps -> option X) (x : X) :
  forall ds rest n pos c,
    Str.all_chars p ds = true ->
    match rest with String a _ => p a = false | EmptyString => True end ->
    (String.length ds <= n)%nat ->
    k (pos + String.length ds)%nat rest c = Some x ->
    Re.star_loop (Re.Chr p) k n pos (ds +:+ rest) c = Some x.
Proof.
  intros ds. induction ds as [|a ds IH]; intros rest n pos c Hds Hrest Hn Hk.
  - rewrite app_empty_l. cbn [String.length] in Hk. rewrite Nat.add_0_r in Hk.
    destruct n as [|n]; [exact Hk|]. cbn [Re.star_loop Re.run].
    destruct rest as [|b rest]; [exact Hk|]. now rewrite Hrest.
  - cbn [Str.all_chars] in Hds. apply andb_true_iff in Hds as [Ha Hds].
    cbn [String.length] in Hn, Hk. destruct n as [|n]; [lia|].
    rewrite app_cons. cbn [Re.star_loop Re.run]. rewrite Ha.
    replace (Nat.ltb pos (S pos)) with true
      by (symmetry; apply Nat.ltb_lt; lia).
    fold (Re.star_loop (Re.Chr p) k).
    rewrite (IH rest n (S pos) c); [reflexivity | assumption | assumption
                                   | lia |].
    now replace (S pos + String.length ds)%nat
      with (pos + S (String.length ds))%nat by lia.
Qed.

Lemma star_loop_chr_greedy_eq {X} (p : ascii -> bool)
      (k : nat -> string -> Re.caps -> option X) :
  forall ds rest n pos c,
    Str.all_chars p ds = true ->
    match rest with String a _ => p a = false | EmptyString => True end ->
    (String.length ds <= n)%nat ->
    k (pos + String.length ds)%nat rest c <> None ->
    Re.star_loop (Re.Chr p) k n pos (ds +:+ rest) c
    = k (pos + String.length ds)%nat rest c.
Proof.
  intros ds rest n pos c Hds Hrest Hn Hk.
  destruct (k (pos + String.length ds)%nat rest c) as [x|] eqn:Hx;
    [|congruence].
  now apply star_loop_chr_greedy.
Qed.

(** With a continuation that always succeeds, so does a repetition. *)
Lemma star_loop_total {X} (r : Re.regex)
      (k : nat -> string -> Re.caps -> option X) :
  (forall pos s c, exists x, k pos s c = Some x) ->
  forall n pos s c, exists x, Re.star_loop r k n pos s c = Some x.
Proof.
  intros Hk n. destruct n as [|n]; intros pos s c; [apply Hk|].
  cbn [Re.star_loop].
  match goal with
  | |- exists x, match ?m with _ => _ end = _ => destruct m as [y|]
  end; [now exists y | apply Hk].
Qed.

Lemma eqb_ci_lower (a b : ascii) :
  Str.lower_char a = Str.lower_char b -> Str.eqb_ci a b = true.
Proof. unfold Str.eqb_ci. intros ->. apply Ascii.eqb_refl. Qed.

(** A literal under [re.IGNORECASE] matches its text in any letter
    case. *)
Lemma run_lit_ci {X} (w : string) :
  forall w', Str.lower w' = Str.lower w ->
  forall s pos c (k : nat -> string -> Re.caps -> option X),
    Re.run (Re.lit true w) pos (w' +:+ s) c k
    = k (pos + String.length w)%nat s c.
Proof.
  induction w as [|a w IH]; intros w' Hw s pos c k.
  - destruct w'; [|discriminate]. cbn [String.length].
    now rewrite Nat.add_0_r.
  - destruct w' as [|a' w']; [discriminate|]. cbn [Str.lower Str.map_chars] in Hw.
    injection Hw as Ha Hw. rewrite app_cons.
    assert (Hstep : forall K : nat -> string -> Re.caps -> option X,
               Re.run (Re.Chr (Str.eqb_ci a)) pos (String a' (w' +:+ s)) c K
               = K (S pos) (w' +:+ s) c).
    { intros K. rewrite run_chr. now rewrite eqb_ci_lower. }
    destruct w as [|b w].
    + destruct w'; [|discriminate]. cbn [Re.lit]. rewrite Hstep.
      rewrite app_empty_l. cbn [String.length]. f_equal. lia.
    + change (Re.lit true (String a (String b w)))
        with (Re.Seq (Re.Chr (Str.eqb_ci a)) (Re.lit true (String b w))).
      rewrite run_seq, Hstep, (IH w' Hw).
      cbn [String.length]. f_equal. lia.
Qed.

Lemma rev_app_rev_app (w cur acc : string) :
  String.rev_app (String.rev_app w cur) acc = String.rev_app cur (w +:+ acc).
Proof.
  revert cur. induction w as [|a w IH]; intros cur; [reflexivity|].
  cbn [String.rev_app]. now rewrite IH.
Qed.

Lemma rev_rev_app (w cur : string) :
  String.rev (String.rev_app w cur) = String.rev cur +:+ w.
Proof.
  unfold String.rev. rewrite rev_app_rev_app, app_empty_r.
  now rewrite rev_app_append.
Qed.

Lemma rstrip_set_id (p : ascii -> bool) (s : string) :
  Str.all_chars (fun c => negb (p c)) s = true -> Str.rstrip_set p s = s.
Proof.
  induction s as [|a s IH]; [reflexivity|]. cbn [Str.all_chars Str.rstrip_set].
  intros [Ha Hs]%andb_true_iff. rewrite (IH Hs).
  apply negb_true_iff in Ha. rewrite Ha. now destruct s.
Qed.

Lemma all_chars_join (p : ascii -> bool) (sep : string) (ws : list string) :
  Str.all_chars p sep = true ->
  Forall (fun w => Str.all_chars p w = true) ws ->
  Str.all_chars p (Str.join sep ws) = true.
Proof.
  intros Hsep. induction 1 as [|w ws Hw Hws IH]; [reflexivity|].
  destruct ws as [|w' ws]; [exact Hw|].
  change (Str.join sep (w :: w' :: ws))
    with (w +:+ sep +:+ Str.join sep (w' :: ws)).
  now rewrite !all_chars_app, Hw, Hsep, IH.
Qed.

End MatcherSteps.

(* ------------------------------------------------------------------ *)
(** ** Allergen disclosures                                             *)
(* ------------------------------------------------------------------ *)

Section Allergens.

Lemma upper_char_idem (c : ascii) :
  Str.upper_char (Str.upper_char c) = Str.upper_char c.
Proof. destruct c as [[] [] [] [] [] [] [] []]; reflexivity. Qed.

Lemma lower_char_idem (c : ascii) :
  Str.lower_char (Str.lower_char c) = Str.lower_char c.
Proof. destruct c as [[] [] [] [] [] [] [] []]; reflexivity. Qed.

Lemma lower_idem (s : string) : Str.lower (Str.lower s) = Str.lower s.
Proof.
  induction s as [|c s IH]; [reflexivity|].
  cbn [Str.lower Str.map_chars]. fold (Str.lower s).
  fold (Str.lower (Str.lower s)). now rewrite lower_char_idem, IH.
Qed.

Lemma capitalize_idem (s : string) :
  Str.capitalize (Str.capitalize s) = Str.capitalize s.
Proof.
  destruct s as [|c s]; [reflexivity|]. cbn [Str.capitalize].
  now rewrite upper_char_idem, lower_idem.
Qed.

(** The loop of lines 93-96 only ever adds non-empty names in
    capitalised form. *)
Lemma allergen_fold_canonical (potential : list string) :
  forall (acc : gset string) (a : string),
    (forall b, b ∈ acc -> b <> "" /\ Str.capitalize b = b) ->
    a ∈ fold_left
          (fun (allergens : gset string) allergen =>
             let cleaned_allergen :=
               Str.capitalize
                 (Str.lower (Str.rstrip_chars "." (Str.strip allergen))) in
             if String.eqb cleaned_allergen "" then allergens
             else allergens ∪ {[ cleaned_allergen ]})
          potential acc ->
    a <> "" /\ Str.capitalize a = a.
Proof.
  induction potential as [|p potential IH]; intros acc a Hacc; cbn [fold_left].
  - apply Hacc.
  - apply IH. cbv zeta.
    destruct (String.eqb_spec
                (Str.capitalize
                   (Str.lower (Str.rstrip_chars "." (Str.strip p)))) "")
      as [|Hne]; [exact Hacc|].
    intros b [Hb | ->%elem_of_singleton]%elem_of_union; [now apply Hacc|].
    split; [exact Hne | apply capitalize_idem].
Qed.

(** X4.  Whatever the text, every allergen that
    [extract_allergens_from_text] returns is a non-empty name in
    capitalised form: capitalising it again changes nothing. *)
Theorem extract_allergens_canonical (text : pyval) (a : string) :
  a ∈ utils.extract_allergens_from_text text ->
  a <> "" /\ Str.capitalize a = a.
Proof.
  unfold utils.extract_allergens_from_text.
  destruct text as [| b | z | q | s | l | d]; try (now intros ?%not_elem_of_empty).
  destruct (negb (truthy (PStr s))); [now intros ?%not_elem_of_empty|].
  destruct (Re.search utils.re_allergens s) as [m|];
    [|now intros ?%not_elem_of_empty].
  destruct (Re.group m 1) as [allergen_string|];
    [|now intros ?%not_elem_of_empty].
  apply allergen_fold_canonical. now intros b ?%not_elem_of_empty.
Qed.

(** No disclosure starts at a character other than the parenthesis. *)
Lemma match_at_allergens_other (a : ascii) (s : string) (pos : nat) :
  Ascii.eqb a "(" = false ->
  Re.match_at utils.re_allergens pos (String a s) = None.
Proof.
  intros Ha. unfold Re.match_at, utils.re_allergens.
  rewrite run_seq. cbn [Re.lit]. rewrite run_chr.
  replace (Str.eqb_ci "(" a) with false; [reflexivity|].
  revert Ha. destruct a as [[] [] [] [] [] [] [] []]; vm_compute; congruence.
Qed.

Lemma search_allergens_skip (pre s : string) :
  Str.has_char "(" pre = false ->
  forall pos,
    Re.search_from utils.re_allergens pos (pre +:+ s)
    = Re.search_from utils.re_allergens (pos + String.length pre) s.
Proof.
  induction pre as [|a pre IH]; intros Hpre pos.
  - rewrite app_empty_l. cbn [String.length]. now rewrite Nat.add_0_r.
  - cbn [Str.has_char] in Hpre. apply orb_false_iff in Hpre as [Ha Hpre].
    rewrite app_cons. cbn [Re.search_from].
    destruct s as [|b s']; [| ];
      rewrite match_at_allergens_other by assumption;
      rewrite (IH Hpre); cbn [String.length]; f_equal; lia.
Qed.

(** The part of the disclosure pattern behind the keyword. *)
Lemma run_disclosure_tail {X} (sp body post : string) (pos : nat)
      (c : Re.caps) (k : nat -> string -> Re.caps -> option X) :
  (forall e s' c', exists x, k e s' c' = Some x) ->
  Str.all_chars Str.is_space sp = true ->
  Str.all_chars (fun a => negb (Str.has_char a ")")) body = true ->
  match body with
  | String a _ => Str.is_space a = false
  | EmptyString => False
  end ->
  exists e,
    Re.run
      (Re.Seq (Re.lit true ":")
         (Re.Seq (Re.Star Re.space)
            (Re.Seq (Re.Group 1 (Re.Plus (Re.noneof ")")))
                    (Re.lit true ")"))))
      pos (":" +:+ sp +:+ body +:+ ")" +:+ post) c k
    = k e post ((1%nat, body) :: c).
Proof.
  intros Hk Hsp Hbody Hfirst.
  destruct body as [|b body]; [contradiction|].
  cbn [Str.all_chars] in Hbody. apply andb_true_iff in Hbody as [Hb Hbody].
  set (e := (pos + 1 + String.length sp + S (String.length body) + 1)%nat).
  exists e. destruct (Hk e post ((1%nat, String b body) :: c)) as [x Hx].
  rewrite Hx.
  rewrite run_seq, (run_lit_ci ":" ":" eq_refl), run_seq, run_star_eq.
  unfold Re.space.
  apply star_loop_chr_greedy;
    [assumption | rewrite app_cons; exact Hfirst | rewrite !length_app; lia |].
  rewrite run_seq, run_group. unfold Re.Plus, Re.noneof.
  rewrite run_seq, app_cons, run_chr, Hb, run_star_eq.
  rewrite star_loop_chr_all.
  - rewrite (run_lit_ci ")" ")" eq_refl).
    replace (S (pos + String.length ":" + String.length sp)
             + String.length body
             - (pos + String.length ":" + String.length sp))%nat
      with (S (String.length body)) by lia.
    cbn [Str.take]. rewrite take_app_length.
    subst e. cbn [String.length] in *.
    match goal with
    | |- k ?e1 _ _ = _ => replace e1 with
          (pos + 1 + String.length sp + S (String.length body) + 1)%nat by lia
    end.
    exact Hx.
  - intros pos' a s' c' Ha. cbn [Re.lit]. rewrite run_chr.
    replace (Str.eqb_ci ")" a) with false; [reflexivity|].
    revert Ha. destruct a as [[] [] [] [] [] [] [] []]; vm_compute; congruence.
  - assumption.
  - reflexivity.
  - rewrite length_app. lia.
Qed.

Lemma match_at_disclosure (kw sp body post : string) (pos : nat) :
  Str.lower kw = "contains" ->
  Str.all_chars Str.is_space sp = true ->
  Str.all_chars (fun a => negb (Str.has_char a ")")) body = true ->
  match body with
  | String a _ => Str.is_space a = false
  | EmptyString => False
  end ->
  exists m,
    Re.match_at utils.re_allergens pos
      ("(" +:+ kw +:+ ":" +:+ sp +:+ body +:+ ")" +:+ post) = Some m
    /\ Re.group m 1 = Some body.
Proof.
  intros Hkw Hsp Hbody Hfirst.
  unfold Re.match_at, utils.re_allergens.
  rewrite run_seq, (run_lit_ci "(" "(" eq_refl), run_seq. cbn [Re.alts].
  rewrite run_alt, (run_lit_ci "Contains" kw Hkw).
  match goal with
  | |- context [Re.run _ ?p _ ?c ?k] =>
      destruct (run_disclosure_tail sp body post p c k) as [e ->];
      try assumption
  end.
  - intros ? ? ?. eexists. reflexivity.
  - eexists. split; reflexivity.
Qed.

Lemma search_disclosure (pre kw sp body post : string) :
  Str.has_char "(" pre = false ->
  Str.lower kw = "contains" ->
  Str.all_chars Str.is_space sp = true ->
  Str.all_chars (fun a => negb (Str.has_char a ")")) body = true ->
  match body with
  | String a _ => Str.is_space a = false
  | EmptyString => False
  end ->
  exists m,
    Re.search utils.re_allergens
      (pre +:+ "(" +:+ kw +:+ ":" +:+ sp +:+ body +:+ ")" +:+ post) = Some m
    /\ Re.group m 1 = Some body.
Proof.
  intros Hpre Hkw Hsp Hbody Hfirst. unfold Re.search.
  rewrite search_allergens_skip by assumption.
  destruct (match_at_disclosure kw sp body post (0 + String.length pre)
              Hkw Hsp Hbody Hfirst) as (m & Hm & Hg).
  exists m. split; [|assumption].
  change ("(" +:+ kw +:+ ":" +:+ sp +:+ body +:+ ")" +:+ post)
    with (String "(" (kw +:+ ":" +:+ sp +:+ body +:+ ")" +:+ post)) in *.
  cbn [Re.search_from]. now rewrite Hm.
Qed.

End Allergens.

Section AllergenList.

Lemma alnum_facts (a : ascii) :
  Str.is_alnum a = true ->
  Str.is_space a = false /\ Ascii.eqb "," a = false
  /\ Ascii.eqb "." a = false /\ Ascii.eqb ")" a = false.
Proof.
  destruct a as [[] [] [] [] [] [] [] []]; vm_compute; intros H;
    try discriminate H; repeat split.
Qed.

(** The separator pattern matches nothing at a letter or digit. *)
Lemma match_at_sep_alnum (a : ascii) (s : string) (pos : nat) :
  Str.is_alnum a = true ->
  Re.match_at utils.re_allergen_sep pos (String a s) = None.
Proof.
  intros Ha. destruct (alnum_facts a Ha) as (Hsp & Hcomma & _).
  unfold Re.match_at, utils.re_allergen_sep, Re.Plus, Re.space.
  rewrite run_alt, !run_seq. cbn [Re.lit]. rewrite !run_chr.
  now rewrite Hcomma, Hsp.
Qed.

(** At a comma and a blank followed by a letter or digit, it matches
    exactly these two characters. *)
Lemma match_at_sep_comma (a : ascii) (s : string) (pos : nat) :
  Str.is_alnum a = true ->
  exists m,
    Re.match_at utils.re_allergen_sep pos (", " +:+ String a s) = Some m
    /\ Re.m_end m = S (S pos).
Proof.
  intros Ha. destruct (alnum_facts a Ha) as (Hsp & _).
  unfold Re.match_at, utils.re_allergen_sep, Re.space.
  rewrite run_alt, run_seq. cbn [Re.lit].
  change (", " +:+ String a s) with (String "," (" " +:+ String a s)).
  rewrite run_chr. cbn [Ascii.eqb Bool.eqb]. rewrite run_star_eq.
  rewrite (star_loop_chr_greedy_eq Str.is_space _ " " (String a s)).
  - eexists. split; [reflexivity|]. cbn [Re.m_end String.length]. lia.
  - reflexivity.
  - exact Hsp.
  - cbn [String.length]. rewrite length_app. cbn [String.length]. lia.
  - discriminate.
Qed.

Lemma split_go_word (w : string) :
  Str.all_chars Str.is_alnum w = true ->
  forall pos cur s,
    Re.split_go utils.re_allergen_sep pos 0 cur (w +:+ s)
    = Re.split_go utils.re_allergen_sep (pos + String.length w) 0
        (String.rev_app w cur) s.
Proof.
  induction w as [|a w IH]; intros Hw pos cur s.
  - rewrite app_empty_l. cbn [String.length String.rev_app].
    now rewrite Nat.add_0_r.
  - cbn [Str.all_chars] in Hw. apply andb_true_iff in Hw as [Ha Hw].
    rewrite app_cons. cbn [Re.split_go].
    rewrite match_at_sep_alnum by assumption.
    rewrite (IH Hw). cbn [String.length String.rev_app]. f_equal. lia.
Qed.

Lemma join_cons_cons (sep w w' : string) (ws : list string) :
  Str.join sep (w :: w' :: ws) = w +:+ sep +:+ Str.join sep (w' :: ws).
Proof. reflexivity. Qed.

Lemma join_head (sep : string) (w : string) (ws : list string) :
  exists t, Str.join sep (w :: ws) = w +:+ t.
Proof.
  destruct ws as [|w' ws].
  - exists "". cbn [Str.join]. now rewrite app_empty_r.
  - eexists. apply join_cons_cons.
Qed.

(** Splitting the names of a disclosure at the separators gives the
    names back. *)
Lemma split_go_names (names : list string) :
  Forall allergen_name names -> names <> [] ->
  forall pos,
    Re.split_go utils.re_allergen_sep pos 0 "" (Str.join ", " names) = names.
Proof.
  induction 1 as [|w ws [Hne Hw] Hws IH]; intros Hnil pos; [congruence|].
  destruct ws as [|w' ws].
  - cbn [Str.join]. rewrite <- (app_empty_r w) at 1.
    rewrite split_go_word by assumption. cbn [Re.split_go].
    now rewrite rev_rev_app.
  - rewrite join_cons_cons, split_go_word by assumption.
    destruct (join_head ", " w' ws) as [t Ht].
    inversion Hws as [|? ? [Hne' Hw'] Hws']; subst.
    destruct w' as [|a w']; [congruence|].
    cbn [Str.all_chars] in Hw'. apply andb_true_iff in Hw' as [Ha Hw'].
    rewrite Ht.
    destruct (match_at_sep_comma a (w' +:+ t) (pos + String.length w) Ha)
      as (m & Hm & Hend).
    change (", " +:+ String a (w' +:+ t))
      with (String "," (String " " (String a (w' +:+ t)))) in Hm.
    change (", " +:+ String a w' +:+ t)
      with (String "," (String " " (String a (w' +:+ t)))).
    set (tail := String a (w' +:+ t)) in *.
    cbn [Re.split_go]. rewrite Hm, Hend.
    replace (S (S (pos + String.length w)) - (pos + String.length w))%nat
      with 2%nat by lia.
    cbn [Re.split_go].
    rewrite rev_rev_app. cbn [String.rev String.rev_app]. rewrite app_empty_l.
    f_equal. subst tail. change (String a (w' +:+ t)) with (String a w' +:+ t).
    rewrite <- Ht. apply IH. discriminate.
Qed.

Lemma strip_name (w : string) :
  allergen_name w -> Str.rstrip_chars "." (Str.strip w) = w.
Proof.
  intros [Hne Hw]. unfold Str.strip, Str.rstrip, Str.rstrip_chars.
  assert (Hl : Str.lstrip w = w).
  { destruct w as [|a w]; [reflexivity|]. cbn [Str.all_chars] in Hw.
    apply andb_true_iff in Hw as [Ha _]. cbn [Str.lstrip].
    now rewrite (proj1 (alnum_facts a Ha)). }
  assert (Hr : Str.rstrip_set Str.is_space w = w).
  { apply rstrip_set_id. revert Hw. apply all_chars_impl. intros c Hc.
    now rewrite (proj1 (alnum_facts c Hc)). }
  rewrite Hl, Hr. apply rstrip_set_id.
  revert Hw. apply all_chars_impl. intros c Hc.
  cbn [Str.has_char]. destruct (alnum_facts c Hc) as (_ & _ & -> & _).
  reflexivity.
Qed.

Lemma canonical_allergen_nonempty (w : string) :
  w <> "" -> canonical_allergen w <> "".
Proof. destruct w; [congruence | discriminate]. Qed.

Lemma allergen_fold_names (names : list string) :
  Forall allergen_name names ->
  forall acc : gset string,
    fold_left
      (fun (allergens : gset string) allergen =>
         let cleaned_allergen :=
           Str.capitalize
             (Str.lower (Str.rstrip_chars "." (Str.strip allergen))) in
         if String.eqb cleaned_allergen "" then allergens
         else allergens ∪ {[ cleaned_allergen ]})
      names acc
    = acc ∪ list_to_set (map canonical_allergen names).
Proof.
  induction 1 as [|w ws Hw Hws IH]; intros acc; cbn [fold_left map list_to_set].
  - now rewrite union_empty_r_L.
  - cbv zeta. rewrite (strip_name w Hw). fold (canonical_allergen w).
    destruct (String.eqb_spec (canonical_allergen w) "") as [Hemp|_].
    + now apply canonical_allergen_nonempty in Hemp; [|apply Hw].
    + rewrite IH. now rewrite <- (assoc_L (∪)).
Qed.

(** X5.  A disclosure in the form of the docstring,
    ["(Contains: Soy, Wheat)"]: the keyword in any letter case, any
    blanks behind the colon, then names of letters and digits separated
    by a comma and a blank.  When no parenthesis precedes it in the
    text, the result is exactly the set of these names, each in
    capitalised form - whatever follows the closing parenthesis. *)
Theorem extract_allergens_disclosure
    (pre kw sp post : string) (names : list string) :
  Str.has_char "(" pre = false ->
  Str.lower kw = "contains" ->
  Str.all_chars Str.is_space sp = true ->
  names <> [] ->
  Forall allergen_name names ->
  utils.extract_allergens_from_text
    (PStr (pre +:+ "(" +:+ kw +:+ ":" +:+ sp +:+ Str.join ", " names
               +:+ ")" +:+ post))
  = list_to_set (map canonical_allergen names).
Proof.
  intros Hpre Hkw Hsp Hnil Hnames.
  destruct (search_disclosure pre kw sp (Str.join ", " names) post Hpre Hkw Hsp)
    as (m & Hm & Hg).
  - apply all_chars_join; [reflexivity|].
    eapply Forall_impl; [exact Hnames|]. intros w [_ Hw]. revert Hw.
    apply all_chars_impl. intros c Hc. cbn [Str.has_char].
    destruct (alnum_facts c Hc) as (_ & _ & _ & ->). reflexivity.
  - destruct names as [|w ws]; [congruence|].
    destruct (join_head ", " w ws) as [t ->].
    inversion Hnames as [|? ? [Hne Hw] _]; subst.
    destruct w as [|a w]; [congruence|]. rewrite app_cons.
    cbn [Str.all_chars] in Hw. apply andb_true_iff in Hw as [Ha _].
    exact (proj1 (alnum_facts a Ha)).
  - unfold utils.extract_allergens_from_text.
    replace (truthy (PStr (pre +:+ "(" +:+ kw +:+ ":" +:+ sp
                               +:+ Str.join ", " names +:+ ")" +:+ post)))
      with true by (now destruct pre).
    cbn [negb]. rewrite Hm, Hg. unfold Re.split.
    rewrite split_go_names by assumption.
    rewrite allergen_fold_names by assumption. apply union_empty_l_L.
Qed.

End AllergenList.

Lemma extract_allergens_canonical_witness :
  "Soy" ∈ utils.extract_allergens_from_text
            (PStr "5 teaspoon Cornstarch (Contains: Soy, Wheat)")
  /\ Str.capitalize "Soy" = "Soy".
Proof.
  assert (H : "Soy" ∈ utils.extract_allergens_from_text
                        (PStr "5 teaspoon Cornstarch (Contains: Soy, Wheat)"))
    by (apply (bool_decide_unpack _); vm_compute; exact I).
  exact (conj H (proj2 (extract_allergens_canonical _ _ H))).
Defined.

Lemma extract_allergens_disclosure_witness :
  utils.extract_allergens_from_text
    (PStr "5 teaspoon Cornstarch (CONTAINS:  soy, WHEAT) per box")
  = {[ "Soy"; "Wheat" ]}.
Proof.
  apply (eq_trans (y := list_to_set (map canonical_allergen ["soy"; "WHEAT"]))).
  - apply (extract_allergens_disclosure "5 teaspoon Cornstarch " "CONTAINS"
             "  " " per box" ["soy"; "WHEAT"]);
      [reflexivity | reflexivity | reflexivity | discriminate |].
    repeat constructor; discriminate.
  - vm_compute. reflexivity.
Defined.

(* ------------------------------------------------------------------ *)
(** ** Quantities                                                       *)
(* ------------------------------------------------------------------ *)

Section Doubles.

Lemma Qred_int (z : Z) : Qred (z # 1) = z # 1.
Proof.
  unfold Qred. pose proof (Z.ggcd_gcd z 1) as Hg.
  pose proof (Z.ggcd_correct_divisors z 1) as Hd.
  destruct (Z.ggcd z 1) as [g [aa bb]]. cbn [fst] in Hg.
  rewrite Z.gcd_1_r in Hg. subst g. destruct Hd as [Ha Hb].
  rewrite Z.mul_1_l in Ha, Hb. now subst.
Qed.

Lemma pow2_scale (m k : Z) :
  0 <= k -> (inject_Z (m * 2 ^ k) * Float.pow2 (- k) == inject_Z m)%Q.
Proof.
  intros Hk. unfold Float.pow2.
  assert (Hpos : 0 < 2 ^ k) by (apply Z.pow_pos_nonneg; lia).
  destruct (Z.leb_spec 0 (- k)) as [Hle | Hlt].
  - assert (k = 0) as -> by lia. change (- 0) with 0.
    change (2 ^ 0) with 1. rewrite Z.mul_1_r.
    unfold Qeq, Qmult, inject_Z. cbn [Qnum Qden]. lia.
  - rewrite Z.opp_involutive.
    unfold Qeq, Qmult, inject_Z. cbn [Qnum Qden].
    rewrite Pos.mul_1_l, Z2Pos.id by exact Hpos. lia.
Qed.

(** A natural number of at most 53 bits is a double: rounding leaves it
    as it is. *)
Lemma round_int_exact (z : Z) :
  0 <= z < 2 ^ 53 -> Float.round (inject_Z z) = Fin (inject_Z z).
Proof.
  intros [Hz0 Hz]. unfold Float.round, inject_Z. cbn [Qnum Qden].
  destruct z as [|n|n]; [reflexivity | | lia].
  unfold Float.round_pos.
  set (L := Z.log2 (Z.pos n)).
  assert (HL : 0 <= L < 53).
  { split; [apply Z.log2_nonneg|]. apply Z.log2_lt_pow2; lia. }
  destruct (Z.log2_spec (Z.pos n) ltac:(lia)) as [Hlo Hhi]. fold L in Hlo, Hhi.
  change (Z.log2 1) with 0. rewrite Z.sub_0_r.
  set (k := 52 - L).
  assert (Hk : 0 <= k <= 52) by (unfold k; lia).
  replace (L - 52) with (- k) by (unfold k; lia).
  assert (Hnum : Float.scaled_num n (- k) = Z.pos n * 2 ^ k).
  { unfold Float.scaled_num. rewrite Z.opp_involutive.
    now rewrite Z.max_r by lia. }
  assert (Hden : Float.scaled_den 1 (- k) = 1).
  { unfold Float.scaled_den. now rewrite Z.max_l by lia. }
  assert (Hpk : 0 < 2 ^ k) by (apply Z.pow_pos_nonneg; lia).
  assert (Hbig : 2 ^ 52 <= Z.pos n * 2 ^ k).
  { replace 52 with (L + k) by (unfold k; lia).
    rewrite Z.pow_add_r by lia. apply Z.mul_le_mono_nonneg_r; lia. }
  rewrite Hnum, Hden, Z.div_1_r.
  replace (Z.pos n * 2 ^ k <? 2 ^ 52) with false
    by (symmetry; apply Z.ltb_ge; exact Hbig).
  rewrite Z.max_l by lia. rewrite Hnum, Hden, Z.div_1_r, Z.mod_1_r.
  change (2 * 0 <? 1) with true. cbv iota.
  assert (Hno : (0 <=? - k) && (2 ^ 1024 <=? Z.pos n * 2 ^ k * 2 ^ (- k))
                = false).
  { destruct (Z.leb_spec 0 (- k)) as [Hle | Hlt]; [|reflexivity].
    assert (k = 0) as -> by lia. change (- 0) with 0. change (2 ^ 0) with 1.
    rewrite !Z.mul_1_r. apply Z.leb_gt.
    apply Z.lt_trans with (2 ^ 53); [exact Hz|]. reflexivity. }
  rewrite Hno. f_equal.
  rewrite (Qred_complete _ (Z.pos n # 1)); [apply Qred_int|].
  apply pow2_scale. lia.
Qed.

Lemma round_int_exact_53 (z : Z) :
  0 <= z <= 2 ^ 53 -> Float.round (inject_Z z) = Fin (inject_Z z).
Proof.
  intros [Hz0 Hz]. destruct (Z.eq_dec z (2 ^ 53)) as [-> | Hne].
  - vm_compute. reflexivity.
  - apply round_int_exact. lia.
Qed.

End Doubles.

Section Quantities.

Lemma dec_spec (n : N) :
  dec n <> "" /\ Str.all_chars Str.is_digit (dec n) = true
  /\ Str.digits_value 0 (dec n) = Z.of_N n.
Proof.
  unfold dec, Str.str_of_int.
  replace (Z.of_N n <? 0) with false by (symmetry; apply Z.ltb_ge; lia).
  apply str_of_nat_spec. lia.
Qed.

Lemma dec_count (n : N) :
  Z.of_N n < 10 ^ Str.int_max_str_digits -> count (dec n).
Proof.
  intros Hn. destruct (dec_spec n) as (Hne & Hd & _).
  split; [exact Hne | split; [exact Hd|]].
  unfold dec, Str.str_of_int.
  replace (Z.of_N n <? 0) with false by (symmetry; apply Z.ltb_ge; lia).
  apply str_of_nat_length; [discriminate | exact Hn].
Qed.

Lemma py_int_count (ds : string) :
  count ds -> Str.py_int ds = Ok (Str.digits_value 0 ds).
Proof. intros (Hne & Hd & Hlen). now apply py_int_digits. Qed.

Lemma py_int_dec (n : N) :
  Z.of_N n < 10 ^ Str.int_max_str_digits ->
  Str.py_int (dec n) = Ok (Z.of_N n).
Proof.
  intros Hn. destruct (dec_spec n) as (_ & _ & Hv).
  now rewrite (py_int_count _ (dec_count n Hn)), Hv.
Qed.

Lemma py_int_raise (s : string) (e : exn) :
  Str.py_int s = Raise e -> e = ValueError.
Proof.
  unfold Str.py_int. destruct s; [now intros [= <-]|].
  destruct (Str.all_chars _ _); [|now intros [= <-]].
  destruct (_ <=? _); [discriminate | now intros [= <-]].
Qed.

Lemma float_go_raise (s : string) :
  forall seen_dot mant scale ndigits e,
    Str.float_go seen_dot mant scale ndigits s = Raise e -> e = ValueError.
Proof.
  induction s as [|c s IH]; intros seen_dot mant scale ndigits e;
    cbn [Str.float_go].
  - destruct ndigits; [now intros [= <-] | discriminate].
  - destruct (Str.digit_val c); [apply IH|].
    destruct (Ascii.eqb c "." && negb seen_dot); [apply IH | now intros [= <-]].
Qed.

(** [float] raises nothing but [ValueError]: a number of any size is
    converted. *)
Lemma py_float_raise (s : string) (e : exn) :
  Str.py_float s = Raise e -> e = ValueError.
Proof.
  unfold Str.py_float.
  destruct (Str.float_go false 0 1 0 s) eqn:Hf;
    cbn [mbind result_bind Py.bind]; [discriminate|].
  intros [= <-]. exact (float_go_raise _ _ _ _ _ _ Hf).
Qed.

Lemma unpack_two_ints_raise (pieces : list string) (e : exn) :
  utils.unpack_two_ints pieces = Raise e -> e = ValueError.
Proof.
  unfold utils.unpack_two_ints.
  destruct pieces as [|a [|b [|c pieces]]]; try (now intros [= <-]).
  destruct (Str.py_int a) eqn:Ha; cbn [mbind result_bind Py.bind].
  - destruct (Str.py_int b) eqn:Hb; cbn [mbind result_bind Py.bind];
      [discriminate|]. intros [= <-]. exact (py_int_raise _ _ Hb).
  - intros [= <-]. exact (py_int_raise _ _ Ha).
Qed.

(** The division raises for a zero denominator and for a quotient that
    is out of the range of a float, and for nothing else. *)
Lemma truediv_raise (num den : Z) (e : exn) :
  utils.truediv num den = Raise e ->
  (e = ZeroDivisionError /\ den = 0) \/ e = OverflowError.
Proof.
  unfold utils.truediv, Float.truediv.
  destruct (Z.eqb_spec den 0) as [-> | _]; [intros [= <-]; now left|].
  destruct (num =? 0); [discriminate|].
  destruct (Float.round _); try discriminate. intros [= <-]. now right.
Qed.

Lemma of_int_raise (z : Z) (e : exn) :
  Float.of_int z = Raise e -> e = OverflowError.
Proof.
  unfold Float.of_int. destruct (Float.round _); try discriminate.
  now intros [= <-].
Qed.

(** The pattern [\s|-] matches exactly one blank or hyphen. *)
Lemma match_at_blank_or_hyphen (a : ascii) (s : string) (pos : nat) :
  Re.match_at (Re.Alt Re.space (Re.lit false "-")) pos (String a s)
  = if Str.is_space a || Ascii.eqb "-" a
    then Some (Re.mk_rmatch pos (S pos)
                 (Str.take (S pos - pos) (String a s)) [])
    else None.
Proof.
  unfold Re.match_at, Re.space. cbn [Re.run Re.lit].
  now destruct (Str.is_space a), (Ascii.eqb "-" a).
Qed.

Lemma split_go_nonempty (r : Re.regex) (s : string) :
  forall pos skip cur, exists p rest, Re.split_go r pos skip cur s = p :: rest.
Proof.
  induction s as [|a s IH]; intros pos skip cur; cbn [Re.split_go]; [eauto|].
  destruct skip as [|k]; [|apply IH].
  destruct (Re.match_at r pos (String a s)) as [m|]; [|apply IH].
  destruct (Re.m_end m - pos)%nat; [apply IH | eauto].
Qed.

(** A token with a blank or a hyphen splits into two pieces at least:
    [parts[0]] and [parts[1]] exist. *)
Lemma split_blank_or_hyphen_two (s : string) :
  forall pos cur,
    Str.has_char "-" s || Str.has_char " " s = true ->
    exists p0 p1 rest,
      Re.split_go (Re.Alt Re.space (Re.lit false "-")) pos 0 cur s
      = p0 :: p1 :: rest.
Proof.
  induction s as [|a s IH]; intros pos cur Hs; [discriminate|].
  cbn [Re.split_go]. rewrite match_at_blank_or_hyphen.
  destruct (Str.is_space a || Ascii.eqb "-" a) eqn:Ha.
  - cbn [Re.m_end]. replace (S pos - pos)%nat with 1%nat by lia.
    destruct (split_go_nonempty (Re.Alt Re.space (Re.lit false "-")) s
                (S pos) 0 "") as (p & rest & ->).
    eauto.
  - apply IH. apply orb_false_iff in Ha as [Hsp Hhy].
    cbn [Str.has_char] in Hs.
    replace (Ascii.eqb a "-") with false in Hs
      by (now rewrite Ascii.eqb_sym).
    replace (Ascii.eqb a " ") with false in Hs; [exact Hs|].
    symmetry. destruct (Ascii.eqb_spec a " ") as [-> |]; [discriminate|].
    reflexivity.
Qed.

(** Of the conversions of a quantity token three exceptions can come:
    [ValueError], and from a fraction [ZeroDivisionError] and
    [OverflowError]. *)
Lemma convert_quantity_raise (q : string) (e : exn) :
  utils.convert_quantity q = Raise e ->
  e = ValueError
  \/ ((e = ZeroDivisionError \/ e = OverflowError)
      /\ Str.has_char "/" q = true).
Proof.
  assert (Hdiv : forall num den e',
             utils.truediv num den = Raise e' ->
             e' = ZeroDivisionError \/ e' = OverflowError).
  { intros num den e' [[-> _] | ->]%truediv_raise; auto. }
  unfold utils.convert_quantity.
  destruct (Str.has_char "/" q) eqn:Hslash.
  - destruct (Str.has_char "-" q || Str.has_char " " q) eqn:Hmixed.
    + destruct (split_blank_or_hyphen_two q 0 "" Hmixed)
        as (p0 & p1 & rest & Hsplit).
      unfold Re.split. rewrite Hsplit. unfold utils.list_item.
      cbn [nth_error mbind result_bind Py.bind].
      destruct (Str.py_int p0) as [whole|] eqn:H0;
        cbn [mbind result_bind Py.bind];
        [|intros [= <-]; left; exact (py_int_raise _ _ H0)].
      destruct (utils.unpack_two_ints _) as [[num den]|] eqn:Hu;
        cbn [mbind result_bind Py.bind];
        [|intros [= <-]; left; exact (unpack_two_ints_raise _ _ Hu)].
      cbn [fst snd]. destruct (utils.truediv num den) eqn:Hd;
        cbn [mbind result_bind Py.bind];
        [|intros [= <-]; right; split; [exact (Hdiv _ _ _ Hd) | reflexivity]].
      destruct (Float.of_int whole) eqn:Hw;
        cbn [mbind result_bind Py.bind]; [discriminate|].
      intros [= <-]. right. split; [|reflexivity].
      right. exact (of_int_raise _ _ Hw).
    + destruct (utils.unpack_two_ints _) as [[num den]|] eqn:Hu;
        cbn [mbind result_bind Py.bind];
        [|intros [= <-]; left; exact (unpack_two_ints_raise _ _ Hu)].
      cbn [fst snd]. destruct (utils.truediv num den) eqn:Hd;
        cbn [mbind result_bind Py.bind]; [discriminate|].
      intros [= <-]. right. split; [exact (Hdiv _ _ _ Hd) | reflexivity].
  - intros Hf. left.
    destruct (Str.py_float q) eqn:Hq; cbn [mbind result_bind Py.bind] in Hf;
      [discriminate|].
    injection Hf as <-. exact (py_float_raise _ _ Hq).
Qed.

Lemma normalize_quantity_raise (quantity_str : option string) (e : exn) :
  utils.normalize_quantity quantity_str = Raise e ->
  (e = ZeroDivisionError \/ e = OverflowError)
  /\ exists q, quantity_str = Some q /\ Str.has_char "/" q = true.
Proof.
  unfold utils.normalize_quantity.
  destruct quantity_str as [q|]; [|discriminate].
  destruct (String.eqb q ""); [discriminate|].
  destruct (utils.word_lookup _ _); [discriminate|].
  destruct (utils.convert_quantity q) as [v|e'] eqn:Hc;
    cbn [try_except]; [discriminate|].
  destruct (convert_quantity_raise _ _ Hc) as [-> | [[-> | ->] Hslash]];
    cbn [is_ValueError]; [discriminate | |]; intros [= <-]; eauto.
Qed.

End Quantities.

Section IngredientErrors.
Context `{E : Env}.

Lemma parse_ingredient_item_raise (it : utils.item) (e : exn) :
  utils.parse_ingredient_item scraper.default_clean it = Raise e ->
  e = ZeroDivisionError \/ e = OverflowError.
Proof.
  unfold utils.parse_ingredient_item.
  destruct (utils.item_raw_text it) as [raw|]; [|discriminate].
  unfold scraper.default_clean. cbn [utils.clean_text mbind result_bind Py.bind].
  destruct (negb (truthy _)); [discriminate|].
  destruct (utils.split_line _) as [[quantity_str unit_str] name_str].
  destruct (utils.normalize_quantity quantity_str) eqn:Hq;
    cbn [mbind result_bind Py.bind]; [discriminate|].
  intros [= <-]. exact (proj1 (normalize_quantity_raise _ _ Hq)).
Qed.

Lemma parse_ingredient_loop_raise (items : list utils.item) :
  forall acc seen e,
    utils.parse_ingredient_loop scraper.default_clean items acc seen = Raise e ->
    e = ZeroDivisionError \/ e = OverflowError.
Proof.
  induction items as [|it items IH]; intros acc seen e;
    cbn [utils.parse_ingredient_loop]; [discriminate|].
  destruct (utils.parse_ingredient_item scraper.default_clean it)
    as [[ing|]|e'] eqn:Hit; cbn [mbind result_bind Py.bind].
  - apply IH.
  - apply IH.
  - intros [= <-]. exact (parse_ingredient_item_raise _ _ Hit).
Qed.

(** X6.  With the default cleaning, the only exceptions that
    [parse_ingredient_strings_list] can raise are [ZeroDivisionError]
    and [OverflowError], both from a fraction: a token that is no
    number, or that [int] refuses, is kept as text ([ValueError] is
    caught), and the pieces of a mixed fraction always exist. *)
Theorem parse_ingredients_raises_only_arithmetic
    (items : list utils.item) (e : exn) :
  utils.parse_ingredient_strings_list items scraper.default_clean = Raise e ->
  e = ZeroDivisionError \/ e = OverflowError.
Proof.
  unfold utils.parse_ingredient_strings_list.
  destruct items as [|it items]; [discriminate|].
  apply parse_ingredient_loop_raise.
Qed.

End IngredientErrors.

Lemma parse_ingredients_raises_only_arithmetic_witness :
  exists e,
    utils.parse_ingredient_strings_list (E := Sample.env)
      [utils.Value (PStr "Salt"); utils.Value (PStr "2 1/0 cups flour")]
      (scraper.default_clean (E := Sample.env))
    = Raise e
    /\ (e = ZeroDivisionError \/ e = OverflowError).
Proof.
  assert (Hraises :
            match utils.parse_ingredient_strings_list (E := Sample.env)
                    [utils.Value (PStr "Salt");
                     utils.Value (PStr "2 1/0 cups flour")]
                    (scraper.default_clean (E := Sample.env))
            with Ok _ => False | Raise _ => True end)
    by (vm_compute; exact I).
  destruct (utils.parse_ingredient_strings_list (E := Sample.env)
              [utils.Value (PStr "Salt"); utils.Value (PStr "2 1/0 cups flour")]
              (scraper.default_clean (E := Sample.env)))
    as [r|e] eqn:Hrun.
  - destruct Hraises.
  - exists e. split; [reflexivity|].
    exact (parse_ingredients_raises_only_arithmetic (E := Sample.env)
             _ _ Hrun).
Defined.

(** Both exceptions do occur: a denominator of zero, and a numerator of
    310 digits over 1, whose quotient no float holds. *)
Lemma parse_ingredients_raises_both :
  utils.parse_ingredient_strings_list (E := Sample.env)
    [utils.Value (PStr "1/0 cup sugar")]
    (scraper.default_clean (E := Sample.env))
  = Raise ZeroDivisionError
  /\ utils.parse_ingredient_strings_list (E := Sample.env)
       [utils.Value (PStr ("1" +:+ zeros 309 +:+ "/1 cup sugar"))]
       (scraper.default_clean (E := Sample.env))
     = Raise OverflowError.
Proof. split; vm_compute; reflexivity. Qed.

Section QuantityValues.

Lemma float_go_digits (ds : string) :
  forall mant ndigits,
    Str.all_chars Str.is_digit ds = true ->
    ds <> "" \/ ndigits <> O ->
    Str.float_go false mant 1 ndigits ds
    = Ok (Qred (Str.digits_value mant ds # 1)).
Proof.
  induction ds as [|c ds IH]; intros mant ndigits Hds Hne; cbn [Str.float_go].
  - destruct ndigits; [|reflexivity]. destruct Hne; congruence.
  - cbn [Str.all_chars] in Hds. apply andb_true_iff in Hds as [Hc Hds].
    unfold Str.is_digit in Hc. cbn [Str.digits_value].
    destruct (Str.digit_val c) as [d|]; [|discriminate].
    apply IH; [assumption | now right].
Qed.

(** [float] of a run of digits is the double nearest to the number
    written. *)
Lemma py_float_digits (ds : string) :
  digit_run ds ->
  Str.py_float ds = Ok (Float.round (inject_Z (Str.digits_value 0 ds))).
Proof.
  intros [Hne Hd]. unfold Str.py_float.
  rewrite float_go_digits by (assumption || now left).
  cbn [mbind result_bind Py.bind]. now rewrite Qred_int.
Qed.

Lemma py_float_dec (n : N) :
  Str.py_float (dec n) = Ok (Float.round (inject_Z (Z.of_N n))).
Proof.
  destruct (dec_spec n) as (Hne & Hd & Hv).
  now rewrite py_float_digits, Hv by (split; assumption).
Qed.

Lemma has_char_app (c : ascii) (a b : string) :
  Str.has_char c (a +:+ b) = Str.has_char c a || Str.has_char c b.
Proof.
  induction a as [|x a IH]; [reflexivity|]. rewrite app_cons.
  cbn [Str.has_char]. now rewrite IH, orb_assoc.
Qed.

Lemma has_char_outside (p : ascii -> bool) (c : ascii) (s : string) :
  p c = false -> Str.all_chars p s = true -> Str.has_char c s = false.
Proof.
  intros Hc. induction s as [|a s IH]; [reflexivity|].
  cbn [Str.all_chars Str.has_char]. intros [Ha Hs]%andb_true_iff.
  rewrite (IH Hs), orb_false_r.
  destruct (Ascii.eqb_spec a c) as [-> |]; [congruence | reflexivity].
Qed.

Lemma split_char_go_plain (c : ascii) (w : string) :
  Str.has_char c w = false ->
  forall cur s,
    Str.split_char_go c None cur (w +:+ s)
    = Str.split_char_go c None (String.rev_app w cur) s.
Proof.
  induction w as [|a w IH]; intros Hw cur s; [reflexivity|].
  cbn [Str.has_char] in Hw. apply orb_false_iff in Hw as [Ha Hw].
  rewrite app_cons. cbn [Str.split_char_go String.rev_app]. rewrite Ha.
  now apply IH.
Qed.

(** [s.split(c)] of two pieces without [c], joined by [c]. *)
Lemma split_char_two (c : ascii) (a b : string) :
  Str.has_char c a = false -> Str.has_char c b = false ->
  Str.split_char c (a +:+ String c b) = [a; b].
Proof.
  intros Ha Hb. unfold Str.split_char.
  rewrite split_char_go_plain by assumption.
  cbn [Str.split_char_go]. rewrite Ascii.eqb_refl, rev_rev_app.
  rewrite <- (app_empty_r b) at 1.
  rewrite split_char_go_plain by assumption.
  cbn [Str.split_char_go]. now rewrite rev_rev_app.
Qed.

Lemma digit_facts (c : ascii) :
  Str.is_digit c = true ->
  Str.is_space c = false /\ Ascii.eqb "-" c = false.
Proof.
  destruct c as [[] [] [] [] [] [] [] []]; intros Hc;
    first [discriminate Hc | split; reflexivity].
Qed.

Lemma split_go_plain (w : string) :
  Str.all_chars (fun a => negb (Str.is_space a || Ascii.eqb "-" a)) w = true ->
  forall pos cur s,
    Re.split_go (Re.Alt Re.space (Re.lit false "-")) pos 0 cur (w +:+ s)
    = Re.split_go (Re.Alt Re.space (Re.lit false "-"))
        (pos + String.length w) 0 (String.rev_app w cur) s.
Proof.
  induction w as [|a w IH]; intros Hw pos cur s.
  - rewrite app_empty_l. cbn [String.length String.rev_app].
    now rewrite Nat.add_0_r.
  - cbn [Str.all_chars] in Hw. apply andb_true_iff in Hw as [Ha Hw].
    apply negb_true_iff in Ha.
    rewrite app_cons. cbn [Re.split_go].
    rewrite match_at_blank_or_hyphen, Ha, (IH Hw).
    cbn [String.length String.rev_app]. f_equal. lia.
Qed.

(** [re.split] of a whole number and a fraction joined by a blank. *)
Lemma split_mixed (w f : string) :
  Str.all_chars (fun a => negb (Str.is_space a || Ascii.eqb "-" a)) w = true ->
  Str.all_chars (fun a => negb (Str.is_space a || Ascii.eqb "-" a)) f = true ->
  Re.split (Re.Alt Re.space (Re.lit false "-")) (w +:+ String " " f) = [w; f].
Proof.
  intros Hw Hf. unfold Re.split. rewrite split_go_plain by assumption.
  cbn [Re.split_go]. rewrite match_at_blank_or_hyphen.
  cbn [Str.is_space orb Re.m_end].
  change (Str.is_space " ") with true. cbn [orb Re.m_end].
  replace (S (0 + String.length w) - (0 + String.length w))%nat with 1%nat
    by lia.
  rewrite rev_rev_app. rewrite <- (app_empty_r f) at 1.
  rewrite split_go_plain by assumption. cbn [Re.split_go].
  now rewrite rev_rev_app.
Qed.

Lemma digit_run_plain (ds : string) :
  Str.all_chars Str.is_digit ds = true ->
  Str.all_chars (fun a => negb (Str.is_space a || Ascii.eqb "-" a)) ds = true.
Proof.
  apply all_chars_impl.
  intros c Hc. destruct (digit_facts c Hc) as [-> ->]. reflexivity.
Qed.

Lemma digit_run_has_char (c : ascii) (ds : string) :
  Str.is_digit c = false -> Str.all_chars Str.is_digit ds = true ->
  Str.has_char c ds = false.
Proof. intros Hc Hd. exact (has_char_outside Str.is_digit c _ Hc Hd). Qed.

Lemma dec_has_char (c : ascii) (n : N) :
  Str.is_digit c = false -> Str.has_char c (dec n) = false.
Proof.
  intros Hc. destruct (dec_spec n) as (_ & Hd & _).
  now apply digit_run_has_char.
Qed.

(** A token that starts with a digit is no quantity word, and it is
    not empty. *)
Lemma fraction_lookup (ds pre : string) :
  digit_run ds ->
  utils.word_lookup (Str.lower (ds +:+ pre)) utils.qty_word_map = None
  /\ String.eqb (ds +:+ pre) "" = false.
Proof.
  intros [Hne Hd].
  destruct ds as [|c s]; [congruence|]. cbn [Str.all_chars] in Hd.
  apply andb_true_iff in Hd as [Hc _]. rewrite app_cons.
  split; [|reflexivity].
  cbn [Str.lower Str.map_chars].
  revert Hc. destruct c as [[] [] [] [] [] [] [] []]; intros Hc;
    first [discriminate Hc | reflexivity].
Qed.

(** The two pieces of a fraction, when [int] converts both and when it
    refuses one. *)
Lemma unpack_fraction (da db : string) :
  digit_run da -> digit_run db ->
  Str.split_char "/" (da +:+ "/" +:+ db) = [da; db]
  /\ (count da -> count db ->
      utils.unpack_two_ints [da; db]
      = Ok (Str.digits_value 0 da, Str.digits_value 0 db))
  /\ (Str.int_max_str_digits < Z.of_nat (String.length da)
      \/ Str.int_max_str_digits < Z.of_nat (String.length db) ->
      utils.unpack_two_ints [da; db] = Raise ValueError).
Proof.
  intros [Hna Hda] [Hnb Hdb]. split; [|split].
  - change (da +:+ "/" +:+ db) with (da +:+ String "/" db).
    apply split_char_two; now apply digit_run_has_char.
  - intros Hca Hcb. unfold utils.unpack_two_ints.
    now rewrite !py_int_count.
  - intros Hlong. unfold utils.unpack_two_ints.
    destruct (Str.py_int da) as [x|e] eqn:Ha; cbn [mbind result_bind Py.bind].
    + destruct (Str.py_int db) as [y|e] eqn:Hb;
        cbn [mbind result_bind Py.bind].
      * destruct Hlong as [Hl | Hl]; apply py_int_long in Hl; congruence.
      * now rewrite (py_int_raise _ _ Hb).
    + now rewrite (py_int_raise _ _ Ha).
Qed.

(** X7.  The value of a numeric quantity token.
    - A run of digits becomes the float nearest to the number written:
      the number itself up to [2^53], and the infinity from about
      [1.8e308] on ([float] has no limit on the digits).
    - A fraction [a/b] of two counts that [int] converts becomes the
      float nearest to the quotient, and a whole number and a fraction
      joined by a blank the float sum of the whole number and that
      quotient, rounded twice (["1 2/3"] is [1.6666666666666665]).  A
      zero denominator raises [ZeroDivisionError] in both forms, and a
      quotient or a whole number beyond the range of a float raises
      [OverflowError].
    - A fraction with a count of more than 4300 digits is kept as
      text. *)
Theorem normalize_quantity_number :
  (forall ds : string,
      digit_run ds ->
      utils.normalize_quantity (Some ds)
      = Ok (PFloat (Float.round (inject_Z (Str.digits_value 0 ds)))))
  /\ (forall n : N,
         Z.of_N n <= 2 ^ 53 ->
         utils.normalize_quantity (Some (dec n))
         = Ok (PFloat (inject_Z (Z.of_N n))))
  /\ (forall da db : string,
         count da -> count db ->
         utils.normalize_quantity (Some (da +:+ "/" +:+ db))
         = (f ← Float.truediv (Str.digits_value 0 da) (Str.digits_value 0 db);
            Ok (PFloat f)))
  /\ (forall dw da db : string,
         count dw -> count da -> count db ->
         utils.normalize_quantity (Some (dw +:+ " " +:+ da +:+ "/" +:+ db))
         = (f ← Float.truediv (Str.digits_value 0 da) (Str.digits_value 0 db);
            w ← Float.of_int (Str.digits_value 0 dw);
            Ok (PFloat (Float.add w f))))
  /\ (forall da db : string,
         digit_run da -> digit_run db ->
         Str.int_max_str_digits < Z.of_nat (String.length da)
         \/ Str.int_max_str_digits < Z.of_nat (String.length db) ->
         utils.normalize_quantity (Some (da +:+ "/" +:+ db))
         = Ok (PStr (da +:+ "/" +:+ db)))
  /\ (forall num : Z, Float.truediv num 0 = Raise ZeroDivisionError)
  /\ utils.normalize_quantity (Some "1/2") = Ok (PFloat (1 # 2))
  /\ utils.normalize_quantity (Some "1 2/3")
     = Ok (PFloat (3752999689475413 # 2251799813685248))
  /\ utils.normalize_quantity (Some "9007199254740993")
     = Ok (PFloat 9007199254740992)
  /\ utils.normalize_quantity (Some ("1" +:+ zeros 309))
     = Ok (PFloat (Inf false))
  /\ utils.normalize_quantity (Some ("1" +:+ zeros 309 +:+ "/1"))
     = Raise OverflowError.
Proof.
  assert (Hdigits : forall ds : string,
             digit_run ds ->
             utils.normalize_quantity (Some ds)
             = Ok (PFloat (Float.round (inject_Z (Str.digits_value 0 ds))))).
  { intros ds Hds. unfold utils.normalize_quantity.
    destruct (fraction_lookup ds "" Hds) as [Hl Hne].
    rewrite app_empty_r in Hl, Hne. rewrite Hne, Hl.
    unfold utils.convert_quantity.
    rewrite (digit_run_has_char "/" ds eq_refl (proj2 Hds)).
    now rewrite py_float_digits. }
  assert (Hshape : forall da db : string,
             digit_run da -> digit_run db ->
             utils.normalize_quantity (Some (da +:+ "/" +:+ db))
             = try_except
                 (nd ← utils.unpack_two_ints [da; db];
                  f ← utils.truediv nd.1 nd.2; Ok (PFloat f))
                 (fun e => if is_ValueError e
                           then Ok (PStr (da +:+ "/" +:+ db)) else Raise e)).
  { intros da db Hda Hdb. unfold utils.normalize_quantity.
    destruct (fraction_lookup da ("/" +:+ db) Hda) as [Hl Hne].
    rewrite Hne, Hl. unfold utils.convert_quantity.
    rewrite !has_char_app.
    rewrite !(digit_run_has_char _ da) by (reflexivity || exact (proj2 Hda)).
    rewrite !(digit_run_has_char _ db) by (reflexivity || exact (proj2 Hdb)).
    cbn [Str.has_char Ascii.eqb Bool.eqb orb andb].
    now rewrite (proj1 (unpack_fraction da db Hda Hdb)). }
  split; [exact Hdigits|].
  split.
  { intros n Hn. destruct (dec_spec n) as (Hne & Hd & Hv).
    rewrite Hdigits by (split; assumption).
    rewrite Hv, round_int_exact_53 by lia. reflexivity. }
  split.
  { intros da db Hca Hcb.
    assert (Hda : digit_run da) by (destruct Hca as (? & ? & _); now split).
    assert (Hdb : digit_run db) by (destruct Hcb as (? & ? & _); now split).
    rewrite Hshape by assumption.
    rewrite (proj1 (proj2 (unpack_fraction da db Hda Hdb)) Hca Hcb).
    cbn [mbind result_bind Py.bind fst snd]. unfold utils.truediv.
    destruct (Float.truediv _ _) as [f|e] eqn:Hdiv;
      cbn [mbind result_bind Py.bind try_except]; [reflexivity|].
    destruct (truediv_raise _ _ _ Hdiv) as [[-> _] | ->]; reflexivity. }
  split.
  { intros dw da db Hcw Hca Hcb.
    assert (Hdw : digit_run dw) by (destruct Hcw as (? & ? & _); now split).
    assert (Hda : digit_run da) by (destruct Hca as (? & ? & _); now split).
    assert (Hdb : digit_run db) by (destruct Hcb as (? & ? & _); now split).
    unfold utils.normalize_quantity.
    destruct (fraction_lookup dw (" " +:+ da +:+ "/" +:+ db) Hdw) as [Hl Hne].
    rewrite Hne, Hl. unfold utils.convert_quantity.
    rewrite !has_char_app.
    rewrite !(digit_run_has_char _ dw) by (reflexivity || exact (proj2 Hdw)).
    rewrite !(digit_run_has_char _ da) by (reflexivity || exact (proj2 Hda)).
    rewrite !(digit_run_has_char _ db) by (reflexivity || exact (proj2 Hdb)).
    cbn [Str.has_char Ascii.eqb Bool.eqb orb andb].
    change (dw +:+ " " +:+ da +:+ "/" +:+ db)
      with (dw +:+ String " " (da +:+ "/" +:+ db)).
    rewrite split_mixed.
    2:{ apply digit_run_plain, Hdw. }
    2:{ rewrite !all_chars_app.
        rewrite (digit_run_plain da (proj2 Hda)),
          (digit_run_plain db (proj2 Hdb)).
        reflexivity. }
    unfold utils.list_item. cbn [nth_error mbind result_bind Py.bind].
    rewrite (py_int_count dw Hcw). cbn [mbind result_bind Py.bind].
    rewrite (proj1 (unpack_fraction da db Hda Hdb)).
    rewrite (proj1 (proj2 (unpack_fraction da db Hda Hdb)) Hca Hcb).
    cbn [mbind result_bind Py.bind fst snd]. unfold utils.truediv.
    destruct (Float.truediv _ _) as [f|e] eqn:Hdiv;
      cbn [mbind result_bind Py.bind try_except].
    - destruct (Float.of_int _) as [w|e] eqn:Hw;
        cbn [mbind result_bind Py.bind try_except]; [reflexivity|].
      now rewrite (of_int_raise _ _ Hw).
    - destruct (truediv_raise _ _ _ Hdiv) as [[-> _] | ->]; reflexivity. }
  split.
  { intros da db Hda Hdb Hlong. rewrite Hshape by assumption.
    now rewrite (proj2 (proj2 (unpack_fraction da db Hda Hdb)) Hlong). }
  split; [reflexivity|].
  repeat split; vm_compute; reflexivity.
Qed.

End QuantityValues.

(* ------------------------------------------------------------------ *)
(** ** Allergens of an ingredient list                                  *)
(* ------------------------------------------------------------------ *)

Section IngredientAllergens.
Context `{E : Env}.

(** The allergens of a kept entry are those of its raw line. *)
Lemma parse_ingredient_item_allergens
      (cleaning_func : pyval -> result pyval) (it : utils.item)
      (ing : utils.ingredient) :
  utils.parse_ingredient_item cleaning_func it = Ok (Some ing) ->
  exists raw,
    utils.item_raw_text it = Some raw
    /\ utils.allergens_in_item ing
       = utils.extract_allergens_from_text (PStr raw).
Proof.
  unfold utils.parse_ingredient_item.
  destruct (utils.item_raw_text it) as [raw|]; [|discriminate].
  destruct (cleaning_func (PStr raw)) as [t|e]; cbn [mbind result_bind Py.bind];
    [|discriminate].
  destruct (truthy t); cbn [negb]; [|discriminate].
  destruct t as [| b | z | q | text | l | d]; try discriminate.
  destruct (utils.split_line text) as [[quantity_str unit_str] name_str].
  destruct (utils.normalize_quantity quantity_str) as [qv|e];
    cbn [mbind result_bind Py.bind]; [|discriminate].
  intros [= <-]. exists raw. split; reflexivity.
Qed.

Lemma parse_ingredient_loop_allergens
      (cleaning_func : pyval -> result pyval) (items : list utils.item) :
  forall acc seen ings allergens,
    utils.parse_ingredient_loop cleaning_func items acc seen
    = Ok (ings, allergens) ->
    exists new,
      ings = acc ++ new
      /\ (List.length new <= List.length items)%nat
      /\ Forall (fun ing =>
                   exists raw, utils.allergens_in_item ing
                               = utils.extract_allergens_from_text (PStr raw))
                new
      /\ forall a, a ∈ allergens <->
                   a ∈ seen \/ exists ing, ing ∈ new
                                           /\ a ∈ utils.allergens_in_item ing.
Proof.
  induction items as [|it items IH]; intros acc seen ings allergens Hloop.
  - cbn in Hloop. injection Hloop as <- <-. exists [].
    rewrite app_nil_r.
    split; [reflexivity | split; [reflexivity | split; [constructor|]]].
    intros a. split; [tauto|].
    intros [H | (ing & Hin & _)]; [exact H | now apply elem_of_nil in Hin].
  - cbn [utils.parse_ingredient_loop] in Hloop.
    destruct (utils.parse_ingredient_item cleaning_func it) as [[ing|]|e] eqn:Hit;
      cbn [mbind result_bind Py.bind] in Hloop; [| |discriminate].
    + apply IH in Hloop as (new & -> & Hlen & Hraw & Hall).
      apply parse_ingredient_item_allergens in Hit as (raw & _ & Hing).
      exists (ing :: new). rewrite <- app_assoc. cbn [List.length].
      split; [reflexivity | split; [lia | split; [constructor; eauto|]]].
      intros a. split.
      * intros [[Hs | Hi]%elem_of_union | (ing' & Hin & Ha)]%Hall.
        -- now left.
        -- right. exists ing. split; [apply list_elem_of_here | exact Hi].
        -- right. exists ing'. split; [now apply list_elem_of_further | exact Ha].
      * intros [Hs | (ing' & Hin & Ha)]; apply Hall.
        -- left. apply elem_of_union. now left.
        -- apply elem_of_cons in Hin as [-> | Hin].
           ++ left. apply elem_of_union. now right.
           ++ right. eauto.
    + apply IH in Hloop as (new & -> & Hlen & Hraw & Hall).
      exists new. cbn [List.length].
      split; [reflexivity | split; [lia | split; [exact Hraw | exact Hall]]].
Qed.

(** X8.  When [parse_ingredient_strings_list] returns, the overall
    allergens are exactly the allergens of the ingredients returned:
    nothing is added and nothing is lost.  Each of them is a non-empty
    name in capitalised form, and no more ingredients are returned than
    entries were given. *)
Theorem parse_ingredients_allergens_are_union
    (cleaning_func : pyval -> result pyval) (items : list utils.item)
    (ings : list utils.ingredient) (allergens : gset string) :
  utils.parse_ingredient_strings_list items cleaning_func
  = Ok (ings, allergens) ->
  (forall a, a ∈ allergens <->
             exists ing, ing ∈ ings /\ a ∈ utils.allergens_in_item ing)
  /\ (forall a, a ∈ allergens -> a <> "" /\ Str.capitalize a = a)
  /\ (List.length ings <= List.length items)%nat.
Proof.
  intros Hrun.
  assert (Hloop : utils.parse_ingredient_loop cleaning_func items [] ∅
                  = Ok (ings, allergens)).
  { unfold utils.parse_ingredient_strings_list in Hrun.
    destruct items; [injection Hrun as <- <-; reflexivity | exact Hrun]. }
  apply parse_ingredient_loop_allergens in Hloop
    as (new & -> & Hlen & Hraw & Hall).
  cbn [app]. assert (Hunion : forall a, a ∈ allergens <->
                      exists ing, ing ∈ new /\ a ∈ utils.allergens_in_item ing).
  { intros a. rewrite Hall. split; [|now right].
    intros [H | H]; [now apply not_elem_of_empty in H | exact H]. }
  split; [exact Hunion | split; [|exact Hlen]].
  intros a (ing & Hin & Ha)%Hunion.
  rewrite Forall_forall in Hraw. destruct (Hraw ing Hin) as [raw Hing].
  rewrite Hing in Ha. revert Ha. clear.
  unfold utils.extract_allergens_from_text.
  destruct (negb (truthy (PStr raw))); [now intros ?%not_elem_of_empty|].
  destruct (Re.search utils.re_allergens raw) as [m|];
    [|now intros ?%not_elem_of_empty].
  destruct (Re.group m 1) as [allergen_string|];
    [|now intros ?%not_elem_of_empty].
  apply allergen_fold_canonical. now intros b ?%not_elem_of_empty.
Qed.

End IngredientAllergens.

Lemma parse_ingredients_allergens_are_union_witness :
  exists ings allergens,
    utils.parse_ingredient_strings_list (E := Sample.env)
      [utils.Value (PStr "5 teaspoon Cornstarch (Contains: Soy, Wheat)");
       utils.Value (PStr "1 cup Milk (Contains: Milk)")]
      (scraper.default_clean (E := Sample.env))
    = Ok (ings, allergens)
    /\ forall a, a ∈ allergens <->
                 exists ing, ing ∈ ings /\ a ∈ utils.allergens_in_item ing.
Proof.
  assert (Hreturns :
            match utils.parse_ingredient_strings_list (E := Sample.env)
                    [utils.Value
                       (PStr "5 teaspoon Cornstarch (Contains: Soy, Wheat)");
                     utils.Value (PStr "1 cup Milk (Contains: Milk)")]
                    (scraper.default_clean (E := Sample.env))
            with Ok _ => True | Raise _ => False end)
    by (vm_compute; exact I).
  destruct (utils.parse_ingredient_strings_list (E := Sample.env)
              [utils.Value (PStr "5 teaspoon Cornstarch (Contains: Soy, Wheat)");
               utils.Value (PStr "1 cup Milk (Contains: Milk)")]
              (scraper.default_clean (E := Sample.env)))
    as [[ings allergens]|e] eqn:Hrun.
  - exists ings, allergens. split; [reflexivity|].
    exact (proj1 (parse_ingredients_allergens_are_union (E := Sample.env)
                    _ _ _ _ Hrun)).
  - destruct Hreturns.
Defined.

(* ------------------------------------------------------------------ *)
(** ** Runs of a character class                                        *)
(* ------------------------------------------------------------------ *)

Section ClassRuns.

(** [p+] at a run of the class that is followed by something else. *)
Lemma run_plus_chr_run {X} (p : ascii -> bool) (ds rest : string)
      (pos : nat) (c : Re.caps) (k : nat -> string -> Re.caps -> option X) :
  ds <> "" -> Str.all_chars p ds = true ->
  match rest with String a _ => p a = false | EmptyString => True end ->
  k (pos + String.length ds)%nat rest c <> None ->
  Re.run (Re.Plus (Re.Chr p)) pos (ds +:+ rest) c k
  = k (pos + String.length ds)%nat rest c.
Proof.
  intros Hne Hds Hrest Hk. destruct ds as [|a ds]; [congruence|].
  cbn [Str.all_chars] in Hds. apply andb_true_iff in Hds as [Ha Hds].
  unfold Re.Plus. rewrite run_seq, app_cons, run_chr, Ha, run_star_eq.
  cbn [String.length] in *.
  replace (pos + S (String.length ds))%nat
    with (S pos + String.length ds)%nat in * by lia.
  apply star_loop_chr_greedy_eq; try assumption.
  rewrite length_app. lia.
Qed.

Lemma run_plus_chr_miss {X} (p : ascii -> bool) (s : string)
      (pos : nat) (c : Re.caps) (k : nat -> string -> Re.caps -> option X) :
  match s with String a _ => p a = false | EmptyString => True end ->
  Re.run (Re.Plus (Re.Chr p)) pos s c k = None.
Proof.
  intros Hs. unfold Re.Plus. rewrite run_seq.
  destruct s as [|a s]; [reflexivity|]. now rewrite run_chr, Hs.
Qed.

Lemma run_plus_chr_total {X} (p : ascii -> bool) (a : ascii) (s : string)
      (pos : nat) (c : Re.caps) (k : nat -> string -> Re.caps -> option X) :
  (forall pos s c, exists x, k pos s c = Some x) ->
  p a = true ->
  exists x, Re.run (Re.Plus (Re.Chr p)) pos (String a s) c k = Some x.
Proof.
  intros Hk Ha. unfold Re.Plus. rewrite run_seq, run_chr, Ha, run_star_eq.
  now apply star_loop_total.
Qed.

(** What [p+] takes is a non-empty run of the class. *)
Lemma run_plus_chr_sound {X} (p : ascii -> bool) (s : string)
      (pos : nat) (c : Re.caps) (k : nat -> string -> Re.caps -> option X)
      (x : X) :
  Re.run (Re.Plus (Re.Chr p)) pos s c k = Some x ->
  exists j, Str.take (S j) s <> ""
            /\ Str.all_chars p (Str.take (S j) s) = true
            /\ k (pos + S j)%nat (Str.drop (S j) s) c = Some x.
Proof.
  unfold Re.Plus. rewrite run_seq. destruct s as [|a s]; [discriminate|].
  rewrite run_chr. destruct (p a) eqn:Ha; [|discriminate].
  rewrite run_star_eq. intros (j & Hj & Hk)%star_loop_chr_sound.
  exists j. cbn [Str.take Str.drop Str.all_chars]. rewrite Ha, Hj.
  split; [discriminate | split; [reflexivity|]].
  now replace (pos + S j)%nat with (S pos + j)%nat by lia.
Qed.

Lemma search_from_skip (r : Re.regex) (p : ascii -> bool) :
  (forall pos a s, p a = false -> Re.match_at r pos (String a s) = None) ->
  forall pre s pos,
    Str.any_chars p pre = false ->
    Re.search_from r pos (pre +:+ s)
    = Re.search_from r (pos + String.length pre) s.
Proof.
  intros Hmiss pre. induction pre as [|a pre IH]; intros s pos Hpre.
  - rewrite app_empty_l. cbn [String.length]. now rewrite Nat.add_0_r.
  - cbn [Str.any_chars] in Hpre. apply orb_false_iff in Hpre as [Ha Hpre].
    rewrite app_cons. cbn [Re.search_from]. rewrite Hmiss by assumption.
    rewrite (IH _ _ Hpre). cbn [String.length]. f_equal. lia.
Qed.

Lemma search_from_none (r : Re.regex) (p : ascii -> bool) :
  (forall pos a s, p a = false -> Re.match_at r pos (String a s) = None) ->
  (forall pos, Re.match_at r pos "" = None) ->
  forall s pos, Str.any_chars p s = false -> Re.search_from r pos s = None.
Proof.
  intros Hmiss Hend s. induction s as [|a s IH]; intros pos Hs.
  - cbn [Re.search_from]. now rewrite Hend.
  - cbn [Str.any_chars] in Hs. apply orb_false_iff in Hs as [Ha Hs].
    cbn [Re.search_from]. rewrite Hmiss by assumption. now apply IH.
Qed.

Lemma search_from_some (r : Re.regex) (p : ascii -> bool) :
  (forall pos a s, p a = true -> exists m, Re.match_at r pos (String a s) = Some m) ->
  forall s pos, Str.any_chars p s = true ->
                exists m, Re.search_from r pos s = Some m.
Proof.
  intros Hhit s. induction s as [|a s IH]; intros pos Hs; [discriminate|].
  cbn [Re.search_from].
  destruct (Re.match_at r pos (String a s)) as [m|] eqn:Hm; [eauto|].
  cbn [Str.any_chars] in Hs. destruct (p a) eqn:Ha.
  - destruct (Hhit pos a s Ha) as [m Hm']. congruence.
  - now apply IH.
Qed.

Lemma lower_char_digit (c : ascii) :
  Str.is_digit (Str.lower_char c) = Str.is_digit c
  /\ Ascii.eqb (Str.lower_char c) "." = Ascii.eqb c "."
  /\ (Str.is_digit c = true -> Str.lower_char c = c).
Proof.
  destruct c as [[] [] [] [] [] [] [] []];
    (split; [reflexivity | split; [reflexivity|]]);
    intros H; first [discriminate H | reflexivity].
Qed.

Lemma lower_digits (ds : string) :
  Str.all_chars Str.is_digit ds = true -> Str.lower ds = ds.
Proof.
  induction ds as [|a ds IH]; [reflexivity|]. cbn [Str.all_chars].
  intros [Ha Hds]%andb_true_iff. cbn [Str.lower Str.map_chars].
  fold (Str.lower ds). rewrite (IH Hds).
  now rewrite (proj2 (proj2 (lower_char_digit a)) Ha).
Qed.

Lemma any_chars_lower (p : ascii -> bool) (s : string) :
  (forall c, p (Str.lower_char c) = p c) ->
  Str.any_chars p (Str.lower s) = Str.any_chars p s.
Proof.
  intros Hp. induction s as [|a s IH]; [reflexivity|].
  cbn [Str.lower Str.map_chars Str.any_chars]. fold (Str.lower s).
  now rewrite Hp, IH.
Qed.

Lemma all_chars_any_chars (p : ascii -> bool) (s : string) :
  Str.all_chars (fun c => negb (p c)) s = negb (Str.any_chars p s).
Proof.
  induction s as [|a s IH]; [reflexivity|].
  cbn [Str.all_chars Str.any_chars]. rewrite IH. now destruct (p a).
Qed.

End ClassRuns.

(* ------------------------------------------------------------------ *)
(** ** Nutrition values and servings                                    *)
(* ------------------------------------------------------------------ *)

Section Magnitudes.

Lemma match_at_magnitude_miss (pos : nat) (a : ascii) (s : string) :
  is_magnitude_char a = false ->
  Re.match_at scraper.re_magnitude pos (String a s) = None.
Proof.
  intros Ha. unfold Re.match_at, scraper.re_magnitude. rewrite run_group.
  now apply run_plus_chr_miss.
Qed.

Lemma match_at_magnitude_end (pos : nat) :
  Re.match_at scraper.re_magnitude pos "" = None.
Proof. reflexivity. Qed.

Lemma match_at_magnitude_hit (pos : nat) (a : ascii) (s : string) :
  is_magnitude_char a = true ->
  exists m, Re.match_at scraper.re_magnitude pos (String a s) = Some m.
Proof.
  intros Ha. unfold Re.match_at, scraper.re_magnitude. rewrite run_group.
  apply run_plus_chr_total; [|exact Ha]. intros ? ? ?. eauto.
Qed.

(** Group 1 of a match of [([\d\.]+)] is a non-empty run of digits and
    points: the group is always set. *)
Lemma search_magnitude_inv (s : string) (m : Re.rmatch) :
  Re.search scraper.re_magnitude s = Some m ->
  exists t, Re.group m 1 = Some t /\ t <> ""
            /\ Str.all_chars is_magnitude_char t = true.
Proof.
  intros (pos & s' & Hm)%search_from_sound.
  unfold Re.match_at, scraper.re_magnitude in Hm. rewrite run_group in Hm.
  apply run_plus_chr_sound in Hm as (j & Hne & Hj & Hk).
  injection Hk as <-.
  replace (pos + S j - pos)%nat with (S j) by lia.
  exists (Str.take (S j) s'). split; [reflexivity | split; assumption].
Qed.

Lemma search_magnitude_run (pre ds rest : string) :
  Str.any_chars is_magnitude_char pre = false ->
  ds <> "" -> Str.all_chars is_magnitude_char ds = true ->
  match rest with
  | String a _ => is_magnitude_char a = false
  | EmptyString => True
  end ->
  exists m, Re.search scraper.re_magnitude (pre +:+ ds +:+ rest) = Some m
            /\ Re.group m 1 = Some ds.
Proof.
  intros Hpre Hne Hds Hrest. unfold Re.search.
  rewrite (search_from_skip scraper.re_magnitude is_magnitude_char
             match_at_magnitude_miss) by assumption.
  assert (Hm : Re.match_at scraper.re_magnitude (0 + String.length pre)
                 (ds +:+ rest)
               = Some (Re.mk_rmatch (0 + String.length pre)
                         (0 + String.length pre + String.length ds) ds
                         [(1%nat, ds)])).
  { unfold Re.match_at, scraper.re_magnitude. rewrite run_group.
    rewrite (run_plus_chr_run is_magnitude_char) by (assumption || discriminate).
    replace (0 + String.length pre + String.length ds
             - (0 + String.length pre))%nat with (String.length ds) by lia.
    now rewrite take_app_length. }
  eexists. split.
  - destruct (ds +:+ rest); cbn [Re.search_from]; rewrite Hm; reflexivity.
  - reflexivity.
Qed.

End Magnitudes.

Section NutritionValue.
Context `{E : Env}.

Lemma magnitude_lower (c : ascii) :
  is_magnitude_char (Str.lower_char c) = is_magnitude_char c.
Proof.
  unfold is_magnitude_char.
  destruct (lower_char_digit c) as (-> & -> & _). reflexivity.
Qed.

(** X9.  [extract_nutrition_value] gives no value exactly when its
    argument is [None] or its text holds neither a digit nor a point.
    Otherwise the first run of digits and points is converted: the
    result is a float, or [float] raises [ValueError] (as for a lone
    point); no other exception is possible. *)
Theorem extract_nutrition_value_cases (value_str : pyval) :
  (scraper.extract_nutrition_value value_str = Ok PNone <->
     value_str = PNone
     \/ Str.any_chars is_magnitude_char (py_str value_str) = false)
  /\ (forall r, scraper.extract_nutrition_value value_str = Ok r ->
                r = PNone \/ exists f, r = PFloat f)
  /\ (forall e, scraper.extract_nutrition_value value_str = Raise e ->
                e = ValueError).
Proof.
  assert (Hgen : forall s,
             match Re.search scraper.re_magnitude (Str.lower s) with
             | Some m =>
                 Str.any_chars is_magnitude_char s = true
                 /\ exists t, Re.group m 1 = Some t
             | None => Str.any_chars is_magnitude_char s = false
             end).
  { intros s. rewrite <- (any_chars_lower _ s magnitude_lower).
    destruct (Re.search scraper.re_magnitude (Str.lower s)) as [m|] eqn:Hs.
    - split.
      + destruct (Str.any_chars is_magnitude_char (Str.lower s)) eqn:Hany;
          [reflexivity|].
        unfold Re.search in Hs.
        rewrite (search_from_none scraper.re_magnitude is_magnitude_char
                   match_at_magnitude_miss match_at_magnitude_end) in Hs
          by assumption.
        discriminate.
      + apply search_magnitude_inv in Hs as (t & Ht & _). eauto.
    - destruct (Str.any_chars is_magnitude_char (Str.lower s)) eqn:Hany;
        [|reflexivity].
      destruct (search_from_some scraper.re_magnitude is_magnitude_char
                  match_at_magnitude_hit (Str.lower s) 0 Hany) as [m Hm].
      unfold Re.search in Hs. congruence. }
  destruct value_str as [| b | z | q | s | l | d];
    [ split; [split; [now left | reflexivity]
             | split; [intros r [= <-]; now left | discriminate]]
    | .. ];
    unfold scraper.extract_nutrition_value;
    match goal with
    | |- context [Str.lower (py_str ?v)] =>
        specialize (Hgen (py_str v));
        destruct (Re.search scraper.re_magnitude (Str.lower (py_str v)))
          as [m|]
    end;
    try (destruct Hgen as (Hany & t & ->);
         destruct (Str.py_float t) as [f|e'] eqn:Hf;
         cbn [mbind result_bind Py.bind];
         (split; [split; [discriminate | intros [? | ?]; congruence]
                 | split; [intros r [= <-]; right; eauto
                          | intros e [= <-];
                            exact (py_float_raise _ _ Hf)
                            || discriminate]]));
    try (split; [split; [now right | reflexivity]
                | split; [intros r [= <-]; now left | discriminate]]).
Qed.

(** X10.  A number followed by its unit, as in ["640 kcal"]: when no
    digit or point precedes the digits and none follows them directly,
    the value is the float nearest to that number - whatever the unit.
    Up to [2^53] that is the number itself; a longer number is rounded
    (["9007199254740993 mg"] gives [9007199254740992.0]). *)
Theorem extract_nutrition_value_number (pre post : string) (n : N) :
  Str.any_chars is_magnitude_char pre = false ->
  match post with
  | String a _ => is_magnitude_char a = false
  | EmptyString => True
  end ->
  scraper.extract_nutrition_value (PStr (pre +:+ dec n +:+ post))
  = Ok (PFloat (Float.round (inject_Z (Z.of_N n))))
  /\ (Z.of_N n <= 2 ^ 53 ->
      scraper.extract_nutrition_value (PStr (pre +:+ dec n +:+ post))
      = Ok (PFloat (inject_Z (Z.of_N n)))).
Proof.
  intros Hpre Hpost. destruct (dec_spec n) as (Hne & Hd & _).
  assert (Hval : scraper.extract_nutrition_value (PStr (pre +:+ dec n +:+ post))
                 = Ok (PFloat (Float.round (inject_Z (Z.of_N n))))).
  { unfold scraper.extract_nutrition_value. cbn [py_str].
    rewrite !lower_app, (lower_digits (dec n) Hd).
    destruct (search_magnitude_run (Str.lower pre) (dec n) (Str.lower post))
      as (m & -> & ->).
    - now rewrite (any_chars_lower _ pre magnitude_lower).
    - exact Hne.
    - revert Hd. apply all_chars_impl. intros c Hc. unfold is_magnitude_char.
      now rewrite Hc.
    - destruct post as [|a post]; [exact I|]. cbn [Str.lower Str.map_chars].
      now rewrite magnitude_lower.
    - rewrite py_float_dec. reflexivity. }
  split; [exact Hval|].
  intros Hn. rewrite Hval, round_int_exact_53 by lia. reflexivity.
Qed.

End NutritionValue.

Lemma extract_nutrition_value_number_witness :
  scraper.extract_nutrition_value (E := Sample.env) (PStr "about 640 kcal")
  = Ok (PFloat (inject_Z 640))
  /\ scraper.extract_nutrition_value (E := Sample.env)
       (PStr "9007199254740993 mg")
     = Ok (PFloat 9007199254740992).
Proof.
  split.
  - apply (extract_nutrition_value_number (E := Sample.env)
             "about " " kcal" 640); [reflexivity | reflexivity |].
    vm_compute. discriminate.
  - apply (eq_trans
             (proj1 (extract_nutrition_value_number (E := Sample.env)
                       "" " mg" 9007199254740993 eq_refl eq_refl))).
    vm_compute. reflexivity.
Defined.

Section Servings.

Lemma match_at_digits_miss (pos : nat) (a : ascii) (s : string) :
  Str.is_digit a = false ->
  Re.match_at scraper.re_digits pos (String a s) = None.
Proof.
  intros Ha. unfold Re.match_at, scraper.re_digits, Re.digit.
  now apply run_plus_chr_miss.
Qed.

Lemma match_at_digits_end (pos : nat) :
  Re.match_at scraper.re_digits pos "" = None.
Proof. reflexivity. Qed.

Lemma match_at_digits_hit (pos : nat) (a : ascii) (s : string) :
  Str.is_digit a = true ->
  exists m, Re.match_at scraper.re_digits pos (String a s) = Some m.
Proof.
  intros Ha. unfold Re.match_at, scraper.re_digits, Re.digit.
  apply run_plus_chr_total; [|exact Ha]. intros ? ? ?. eauto.
Qed.

(** What [\d+] finds is a non-empty run of digits: [int] accepts it. *)
Lemma search_digits_inv (s : string) (m : Re.rmatch) :
  Re.search scraper.re_digits s = Some m ->
  Re.m_text m <> "" /\ Str.all_chars Str.is_digit (Re.m_text m) = true.
Proof.
  intros (pos & s' & Hm)%search_from_sound.
  unfold Re.match_at, scraper.re_digits, Re.digit in Hm.
  apply run_plus_chr_sound in Hm as (j & Hne & Hj & Hk).
  injection Hk as <-. cbn [Re.m_text].
  replace (pos + S j - pos)%nat with (S j) by lia. now split.
Qed.

Lemma search_digits_run (pre ds rest : string) :
  Str.any_chars Str.is_digit pre = false ->
  ds <> "" -> Str.all_chars Str.is_digit ds = true ->
  match rest with
  | String a _ => Str.is_digit a = false
  | EmptyString => True
  end ->
  exists m, Re.search scraper.re_digits (pre +:+ ds +:+ rest) = Some m
            /\ Re.m_text m = ds.
Proof.
  intros Hpre Hne Hds Hrest. unfold Re.search.
  rewrite (search_from_skip scraper.re_digits Str.is_digit
             match_at_digits_miss) by assumption.
  assert (Hm : Re.match_at scraper.re_digits (0 + String.length pre)
                 (ds +:+ rest)
               = Some (Re.mk_rmatch (0 + String.length pre)
                         (0 + String.length pre + String.length ds) ds [])).
  { unfold Re.match_at, scraper.re_digits, Re.digit.
    rewrite (run_plus_chr_run Str.is_digit) by (assumption || discriminate).
    replace (0 + String.length pre + String.length ds
             - (0 + String.length pre))%nat with (String.length ds) by lia.
    now rewrite take_app_length. }
  eexists. split.
  - destruct (ds +:+ rest); cbn [Re.search_from]; rewrite Hm; reflexivity.
  - reflexivity.
Qed.

(** What [\d+] finds is a non-empty run of digits of the text. *)
Lemma search_digits_in (s : string) (m : Re.rmatch) :
  Re.search scraper.re_digits s = Some m ->
  exists pre post,
    s = pre +:+ Re.m_text m +:+ post /\ digit_run (Re.m_text m).
Proof.
  intros (pre & s' & pos & -> & Hm)%search_from_suffix.
  unfold Re.match_at, scraper.re_digits, Re.digit in Hm.
  apply run_plus_chr_sound in Hm as (j & Hne & Hj & Hk).
  injection Hk as <-. cbn [Re.m_text].
  replace (pos + S j - pos)%nat with (S j) by lia.
  exists pre, (Str.drop (S j) s'). split; [now rewrite take_drop|].
  now split.
Qed.

(** X11.  What [parse_servings_from_json] returns and raises.  The
    result is an integer or nothing.  It raises in three situations
    only: [OverflowError] for an infinity, [ValueError] for
    not-a-number, and [ValueError] for text with a run of more than
    4300 digits.  For text it returns nothing exactly when the text
    holds no digit; otherwise the first run of digits is converted, as
    in ["Serves 4 people"]: to its number when it has at most 4300
    digits, and else [int] raises [ValueError]. *)
Theorem parse_servings_from_json_cases (yield_data : pyval) :
  (forall r, scraper.parse_servings_from_json yield_data = Ok r ->
             r = PNone \/ exists z, r = PInt z)
  /\ (forall e, scraper.parse_servings_from_json yield_data = Raise e ->
        (e = OverflowError /\ exists s, yield_data = PFloat (Inf s))
        \/ (e = ValueError /\ yield_data = PFloat NaN)
        \/ (e = ValueError
            /\ exists s, yield_data = PStr s /\ ~ digit_runs_convert s))
  /\ (forall s, yield_data = PStr s ->
        (scraper.parse_servings_from_json yield_data = Ok PNone
         <-> Str.any_chars Str.is_digit s = false))
  /\ (forall pre ds post,
        yield_data = PStr (pre +:+ ds +:+ post) ->
        Str.any_chars Str.is_digit pre = false ->
        digit_run ds ->
        match post with
        | String a _ => Str.is_digit a = false
        | EmptyString => True
        end ->
        scraper.parse_servings_from_json yield_data
        = if Z.of_nat (String.length ds) <=? Str.int_max_str_digits
          then Ok (PInt (Str.digits_value 0 ds))
          else Raise ValueError)
  /\ (forall pre n post,
        yield_data = PStr (pre +:+ dec n +:+ post) ->
        Z.of_N n < 10 ^ Str.int_max_str_digits ->
        Str.any_chars Str.is_digit pre = false ->
        match post with
        | String a _ => Str.is_digit a = false
        | EmptyString => True
        end ->
        scraper.parse_servings_from_json yield_data = Ok (PInt (Z.of_N n))).
Proof.
  assert (Hstr : forall s,
             match Re.search scraper.re_digits s with
             | Some m =>
                 Str.any_chars Str.is_digit s = true
                 /\ scraper.parse_servings_from_json (PStr s)
                    = (n ← Str.py_int (Re.m_text m); Ok (PInt n))
                 /\ (digit_runs_convert s ->
                     Str.py_int (Re.m_text m)
                     = Ok (Str.digits_value 0 (Re.m_text m)))
             | None =>
                 Str.any_chars Str.is_digit s = false
                 /\ scraper.parse_servings_from_json (PStr s) = Ok PNone
             end).
  { intros s. unfold scraper.parse_servings_from_json.
    destruct (Re.search scraper.re_digits s) as [m|] eqn:Hs.
    - split; [|split; [reflexivity|]].
      + destruct (Str.any_chars Str.is_digit s) eqn:Hany; [reflexivity|].
        unfold Re.search in Hs.
        rewrite (search_from_none scraper.re_digits Str.is_digit
                   match_at_digits_miss match_at_digits_end) in Hs
          by assumption.
        discriminate.
      + intros Hc.
        apply search_digits_in in Hs as (pre & post & Heq & Hne & Hd).
        apply py_int_digits; [assumption | assumption |].
        exact (Hc _ _ _ Heq Hd).
    - split; [|reflexivity].
      destruct (Str.any_chars Str.is_digit s) eqn:Hany; [|reflexivity].
      destruct (search_from_some scraper.re_digits Str.is_digit
                  match_at_digits_hit s 0 Hany) as [m Hm].
      unfold Re.search in Hs. congruence. }
  assert (Hrun : forall pre ds post,
             Str.any_chars Str.is_digit pre = false ->
             digit_run ds ->
             match post with
             | String a _ => Str.is_digit a = false
             | EmptyString => True
             end ->
             scraper.parse_servings_from_json (PStr (pre +:+ ds +:+ post))
             = (n ← Str.py_int ds; Ok (PInt n))).
  { intros pre ds post Hpre [Hne Hd] Hpost.
    destruct (search_digits_run pre ds post Hpre Hne Hd Hpost)
      as (m & Hm & Ht).
    unfold scraper.parse_servings_from_json. now rewrite Hm, Ht. }
  split; [|split; [|split; [|split]]].
  - destruct yield_data as [| b | z | f | s | l | d]; intros r;
      try (intros [= <-]; (now left) || (right; eauto)).
    + cbn [scraper.parse_servings_from_json].
      destruct (Float.to_int f); cbn [mbind result_bind Py.bind];
        [intros [= <-]; right; eauto | discriminate].
    + specialize (Hstr s). destruct (Re.search scraper.re_digits s) as [m|].
      * destruct Hstr as (_ & -> & _).
        destruct (Str.py_int _); cbn [mbind result_bind Py.bind];
          [intros [= <-]; right; eauto | discriminate].
      * destruct Hstr as [_ ->]. intros [= <-]. now left.
  - destruct yield_data as [| b | z | f | s | l | d]; intros e;
      try discriminate.
    + cbn [scraper.parse_servings_from_json].
      destruct f as [q | | neg |]; cbn [Float.to_int mbind result_bind Py.bind];
        try discriminate; intros [= <-]; [left | right; left]; eauto.
    + specialize (Hstr s). destruct (Re.search scraper.re_digits s) as [m|].
      * destruct Hstr as (_ & -> & Hconv).
        destruct (Str.py_int (Re.m_text m)) as [n|e'] eqn:Hint;
          cbn [mbind result_bind Py.bind]; [discriminate|].
        intros [= <-]. right. right.
        split; [exact (py_int_raise _ _ Hint)|].
        exists s. split; [reflexivity|]. intros Hc.
        specialize (Hconv Hc). congruence.
      * destruct Hstr as [_ ->]. discriminate.
  - intros s ->. specialize (Hstr s).
    destruct (Re.search scraper.re_digits s) as [m|].
    + destruct Hstr as (Hany & -> & _). rewrite Hany.
      destruct (Str.py_int _); cbn [mbind result_bind Py.bind];
        split; congruence.
    + destruct Hstr as [Hany ->]. rewrite Hany. split; congruence.
  - intros pre ds post -> Hpre Hds Hpost. rewrite Hrun by assumption.
    destruct (Z.leb_spec (Z.of_nat (String.length ds)) Str.int_max_str_digits)
      as [Hle | Hgt].
    + now rewrite py_int_digits by (apply Hds || exact Hle).
    + now rewrite py_int_long.
  - intros pre n post -> Hn Hpre Hpost. destruct (dec_spec n) as (Hne & Hd & _).
    rewrite Hrun by (assumption || now split).
    now rewrite py_int_dec.
Qed.

End Servings.

(* ------------------------------------------------------------------ *)
(** ** The external identifier                                          *)
(* ------------------------------------------------------------------ *)

Section ExternalId.

Lemma run_eol {X} (pos : nat) (s : string) (c : Re.caps)
      (k : nat -> string -> Re.caps -> option X) :
  Re.run Re.Eol pos s c k = if at_end s then k pos s c else None.
Proof.
  destruct s as [|a [|b s]]; [reflexivity | |];
    destruct a as [[] [] [] [] [] [] [] []]; reflexivity.
Qed.

(** [p{n}] takes exactly [n] characters of the class. *)
Lemma run_repeat_chr {X} (p : ascii -> bool) (n : nat) :
  forall s pos c (k : nat -> string -> Re.caps -> option X),
    Re.run (Re.repeat (S n) (Re.Chr p)) pos s c k
    = if Str.all_chars p (Str.take (S n) s)
         && Nat.eqb (String.length (Str.take (S n) s)) (S n)
      then k (pos + S n)%nat (Str.drop (S n) s) c
      else None.
Proof.
  induction n as [|n IH]; intros s pos c k.
  - cbn [Re.repeat]. destruct s as [|a s]; [reflexivity|].
    rewrite run_chr. cbn [Str.take Str.drop Str.all_chars String.length Nat.eqb].
    rewrite !andb_true_r. now replace (pos + 1)%nat with (S pos) by lia.
  - change (Re.repeat (S (S n)) (Re.Chr p))
      with (Re.Seq (Re.Chr p) (Re.repeat (S n) (Re.Chr p))).
    rewrite run_seq. destruct s as [|a s]; [reflexivity|].
    rewrite run_chr. cbn [Str.take Str.drop Str.all_chars String.length].
    destruct (p a); [|reflexivity]. rewrite IH. cbn [andb].
    change (Nat.eqb (S (String.length (Str.take (S n) s))) (S (S n)))
      with (Nat.eqb (String.length (Str.take (S n) s)) (S n)).
    now replace (S pos + S n)%nat with (pos + S (S n))%nat by lia.
Qed.

Lemma length_drop (n : nat) (s : string) :
  String.length (Str.drop n s) = (String.length s - n)%nat.
Proof.
  revert s. induction n as [|n IH]; intros s; cbn [Str.drop].
  - lia.
  - destruct s as [|a s]; [reflexivity|]. cbn [String.length]. apply IH.
Qed.

Lemma all_chars_drop (p : ascii -> bool) (n : nat) (s : string) :
  Str.all_chars p s = true -> Str.all_chars p (Str.drop n s) = true.
Proof.
  revert s. induction n as [|n IH]; intros s Hs; [exact Hs|].
  destruct s as [|a s]; [reflexivity|]. cbn [Str.all_chars] in Hs.
  apply andb_true_iff in Hs as [_ Hs]. now apply IH.
Qed.

Lemma drop_app_length (a b : string) : Str.drop (String.length a) (a +:+ b) = b.
Proof. induction a as [|x a IH]; [reflexivity | exact IH]. Qed.

(** Behind 24 characters of a longer text that ends in an identifier,
    the text has not ended. *)
Lemma not_at_end_before_id (a : ascii) (x i : string) :
  recipe_id i -> at_end (Str.drop 24 (String a x +:+ i)) = false.
Proof.
  intros [Hlen Hi]. destruct x as [|b x].
  - change (Str.drop 24 (String a "" +:+ i)) with (Str.drop 23 i).
    pose proof (length_drop 23 i) as Hl. rewrite Hlen in Hl.
    pose proof (all_chars_drop Str.is_alnum 23 i Hi) as Hd.
    destruct (Str.drop 23 i) as [|c [|d r]];
      [discriminate Hl | | reflexivity].
    cbn [Str.all_chars] in Hd. rewrite andb_true_r in Hd. cbn [at_end].
    apply alnum_not_space in Hd.
    destruct (Ascii.eqb_spec c "010") as [-> |]; [discriminate | reflexivity].
  - pose proof (length_drop 24 (String a (String b x) +:+ i)) as Hl.
    rewrite length_app, Hlen in Hl. cbn [String.length] in Hl.
    destruct (Str.drop 24 (String a (String b x) +:+ i)) as [|c [|d r]];
      [cbn [String.length] in Hl; lia | cbn [String.length] in Hl; lia
      | reflexivity].
Qed.

Lemma match_at_id_pattern (pos : nat) (s : string) :
  Re.match_at id_pattern pos s
  = if Str.all_chars Str.is_alnum (Str.take 24 s)
       && Nat.eqb (String.length (Str.take 24 s)) 24
       && at_end (Str.drop 24 s)
    then Some (Re.mk_rmatch pos (pos + 24) (Str.take (pos + 24 - pos) s)
                 [(1%nat, Str.take (pos + 24 - pos) s)])
    else None.
Proof.
  unfold Re.match_at, id_pattern. rewrite run_seq, run_group, run_repeat_chr.
  destruct (Str.all_chars Str.is_alnum (Str.take 24 s)
            && Nat.eqb (String.length (Str.take 24 s)) 24); [|reflexivity].
  rewrite run_eol. cbn [andb]. now destruct (at_end (Str.drop 24 s)).
Qed.

(** The identifier pattern finds an identifier at the end of a text,
    whatever precedes it. *)
Lemma search_id_pattern (name i : string) :
  recipe_id i ->
  forall pos,
    exists m, Re.search_from id_pattern pos (name +:+ i) = Some m
              /\ Re.group m 1 = Some i.
Proof.
  intros Hid. induction name as [|a name IH]; intros pos.
  - rewrite app_empty_l. destruct Hid as [Hlen Hi].
    assert (Hm : Re.match_at id_pattern pos i
                 = Some (Re.mk_rmatch pos (pos + 24) i [(1%nat, i)])).
    { rewrite match_at_id_pattern.
      replace (pos + 24 - pos)%nat with 24%nat by lia.
      assert (Ht : Str.take 24 i = i).
      { rewrite <- Hlen. rewrite <- (app_empty_r i) at 2.
        apply take_app_length. }
      assert (Hd : Str.drop 24 i = "").
      { rewrite <- Hlen. rewrite <- (app_empty_r i) at 2.
        apply drop_app_length. }
      now rewrite Ht, Hd, Hi, Hlen. }
    eexists. split.
    + destruct i; cbn [Re.search_from]; rewrite Hm; reflexivity.
    + reflexivity.
  - destruct (IH (S pos)) as (m & Hm & Hg). exists m. split; [|exact Hg].
    rewrite app_cons. cbn [Re.search_from]. rewrite <- app_cons.
    rewrite match_at_id_pattern, (not_at_end_before_id a name i Hid).
    rewrite andb_false_r. exact Hm.
Qed.

Lemma split_char_go_nonempty (c : ascii) (s : string) :
  forall cur, exists p rest, Str.split_char_go c None cur s = p :: rest.
Proof.
  induction s as [|a s IH]; intros cur; cbn [Str.split_char_go]; [eauto|].
  destruct (Ascii.eqb a c); [eauto | apply IH].
Qed.

(** [s.split(c)[0]] is the text before the first [c]. *)
Lemma split_char_first (c : ascii) (w rest : string) :
  Str.has_char c w = false ->
  exists pieces, Str.split_char c (w +:+ String c rest) = w :: pieces.
Proof.
  intros Hw. unfold Str.split_char.
  rewrite split_char_go_plain by assumption.
  cbn [Str.split_char_go]. rewrite Ascii.eqb_refl, rev_rev_app. eauto.
Qed.

Lemma split_char_none (c : ascii) (w : string) :
  Str.has_char c w = false -> Str.split_char c w = [w].
Proof.
  intros Hw. unfold Str.split_char. rewrite <- (app_empty_r w) at 1.
  rewrite split_char_go_plain by assumption.
  cbn [Str.split_char_go]. now rewrite rev_rev_app.
Qed.

(** [s.split(c)[-1]] is the text behind the last [c]. *)
Lemma split_char_last (c : ascii) (tail : string) :
  Str.has_char c tail = false ->
  forall base cur d,
    List.last (Str.split_char_go c None cur (base +:+ String c tail)) d = tail.
Proof.
  intros Htail base. induction base as [|a base IH]; intros cur d.
  - rewrite app_empty_l. cbn [Str.split_char_go]. rewrite Ascii.eqb_refl.
    fold (Str.split_char c tail). now rewrite split_char_none.
  - rewrite app_cons. cbn [Str.split_char_go].
    destruct (Ascii.eqb a c); [|apply IH].
    specialize (IH "" d).
    destruct (split_char_go_nonempty c (base +:+ String c tail) "")
      as (p & rest & Hsplit).
    rewrite Hsplit in *. exact IH.
Qed.

(** The last path segment of an address, without its query. *)
Lemma url_tail_segment (base tail query : string) :
  Str.has_char "?" base = false ->
  Str.has_char "?" tail = false -> Str.has_char "/" tail = false ->
  query = "" \/ (exists q, query = String "?" q) ->
  scraper.url_tail (base +:+ "/" +:+ tail +:+ query) = tail.
Proof.
  intros Hbase Htq Hts Hquery. unfold scraper.url_tail.
  assert (Hno : Str.has_char "?" (base +:+ "/" +:+ tail) = false).
  { rewrite !has_char_app, Hbase, Htq. reflexivity. }
  assert (Hfirst : exists pieces,
             Str.split_char "?" (base +:+ "/" +:+ tail +:+ query)
             = (base +:+ "/" +:+ tail) :: pieces).
  { destruct Hquery as [-> | [q ->]].
    - rewrite app_empty_r. rewrite split_char_none by assumption. eauto.
    - replace (base +:+ "/" +:+ tail +:+ String "?" q)
        with ((base +:+ "/" +:+ tail) +:+ String "?" q)
        by (now rewrite !app_assoc').
      now apply split_char_first. }
  destruct Hfirst as [pieces ->]. unfold Str.split_char.
  change (base +:+ "/" +:+ tail) with (base +:+ String "/" tail).
  now apply split_char_last.
Qed.

End ExternalId.

Section ExternalIdField.
Context `{E : Env}.

Lemma recipe_id_chars (i : string) (c : ascii) :
  recipe_id i -> Str.is_alnum c = false -> Str.has_char c i = false.
Proof. intros [_ Hi] Hc. exact (has_char_outside Str.is_alnum c i Hc Hi). Qed.

(** X12.  The identifier of a recipe is read off its address when the
    embedded data and the page give none: for an address whose last
    path segment ends in 24 letters and digits, with or without a
    query behind it, the record's ["external_id"] is these 24
    characters. *)
Theorem external_id_from_address
    (base name i query : string) (json_ld_data : pyval) (soup : node)
    (scraped_data : gmap string pyval) (log log' : list string) (v : pyval) :
  Str.has_char "?" base = false ->
  Str.has_char "?" name = false -> Str.has_char "/" name = false ->
  recipe_id i ->
  query = "" \/ (exists q, query = String "?" q) ->
  scraper.get_value SELECTORS json_ld_data soup "external_id" None false
    None None None log = (Ok v, log') ->
  (forall u, v = PStr u -> u = "") ->
  scraper.scrape_external_id SELECTORS json_ld_data soup
    (base +:+ "/" +:+ name +:+ i +:+ query) scraped_data log
  = (Ok (<["external_id" := PStr i]> scraped_data), log').
Proof.
  intros Hbase Hnq Hns Hid Hquery Hget Hv.
  assert (Htail : scraper.url_tail (base +:+ "/" +:+ name +:+ i +:+ query)
                  = name +:+ i).
  { replace (base +:+ "/" +:+ name +:+ i +:+ query)
      with (base +:+ "/" +:+ (name +:+ i) +:+ query)
      by (now rewrite !app_assoc').
    apply url_tail_segment; try assumption;
      rewrite has_char_app, (recipe_id_chars i _ Hid) by reflexivity;
      now rewrite orb_false_r. }
  destruct (search_id_pattern name i Hid 0) as (m & Hm & Hg).
  unfold scraper.scrape_external_id. rewrite (bind_ok _ _ _ _ _ Hget).
  change (id_in_url_pattern (table_get SELECTORS "external_id"))
    with (Some id_pattern).
  cbv zeta. unfold mret, scraper.M_ret. rewrite Htail.
  unfold scraper.search_group1, Re.search. rewrite Hm, Hg.
  replace (utils.str_truthy i) with true
    by (destruct Hid as [Hlen _]; now destruct i).
  destruct v as [| b | z | q | u | l | d]; try reflexivity.
  now rewrite (Hv u eq_refl).
Qed.

End ExternalIdField.

Lemma external_id_from_address_witness :
  fst (scraper.scrape_external_id (E := Sample.env) SELECTORS
         Sample.teriyaki_data Sample.empty_page Sample.teriyaki_url ∅ [])
  = Ok (<["external_id" := PStr "5a664231ad1d6c6f007d0d72"]> ∅).
Proof.
  assert (Hget : scraper.get_value (E := Sample.env) SELECTORS
                   Sample.teriyaki_data Sample.empty_page "external_id"
                   None false None None None []
                 = (Ok PNone, ["meta[name='page_id']"]))
    by (vm_compute; reflexivity).
  exact (f_equal fst
           (external_id_from_address (E := Sample.env)
              "https://www.hellofresh.com/recipes"
              "teriyaki-chicken-tenders-" "5a664231ad1d6c6f007d0d72" ""
              Sample.teriyaki_data Sample.empty_page ∅ []
              ["meta[name='page_id']"] PNone
              eq_refl eq_refl eq_refl (conj eq_refl eq_refl)
              (or_introl eq_refl) Hget
              (fun u (H : PNone = PStr u) =>
                 match H in _ = y
                       return match y with PNone => True | _ => u = "" end
                 with eq_refl => I end))).
Defined.

(* ------------------------------------------------------------------ *)
(** ** The nutrition mapping                                            *)
(* ------------------------------------------------------------------ *)

Section NutritionItems.
Context `{E : Env}.
#[local] Existing Instance scraper.M_ret.
#[local] Existing Instance scraper.M_bind.

Lemma extract_nutrition_value_shape (value_str r : pyval) :
  scraper.extract_nutrition_value value_str = Ok r ->
  r = PNone \/ exists f, r = PFloat f.
Proof.
  unfold scraper.extract_nutrition_value.
  destruct value_str as [| b | z | q | s | l | d];
    [intros [= <-]; now left | ..];
    (destruct (Re.search _ _) as [m|]; [|intros [= <-]; now left];
     destruct (Re.group m 1) as [t|]; [|discriminate];
     destruct (Str.py_float t) as [f|e]; cbn [mbind result_bind Py.bind];
     [intros [= <-]; right; eauto | discriminate]).
Qed.

Lemma clean_key_lower (key : string) :
  Str.lower (scraper.clean_key key) = scraper.clean_key key.
Proof.
  unfold scraper.clean_key.
  destruct (Str.contains "calories" (Str.lower key)); [reflexivity|].
  apply lower_idem.
Qed.

(** [d[k] = v] keeps the keys distinct, and keeps what holds of every
    entry when it holds of the new one. *)
Lemma dict_set_keys (d : list (string * pyval)) (k : string) (v : pyval) :
  exists new, map fst (dict_set d k v) = map fst d ++ new
              /\ (new = [] \/ (new = [k] /\ k ∉ map fst d)).
Proof.
  induction d as [|[k' v'] d (new & Hmap & Hnew)]; cbn [dict_set map fst].
  - exists [k]. split; [reflexivity|]. right.
    split; [reflexivity | apply not_elem_of_nil].
  - destruct (String.eqb_spec k k') as [-> | Hne]; cbn [map fst].
    + exists []. rewrite app_nil_r. split; [reflexivity | now left].
    + exists new. rewrite Hmap. split; [reflexivity|].
      destruct Hnew as [-> | [-> Hnot]]; [now left | right].
      split; [reflexivity|].
      intros [Heq | Hin]%elem_of_cons; [congruence | contradiction].
Qed.

Lemma dict_set_nodup (d : list (string * pyval)) (k : string) (v : pyval) :
  NoDup (map fst d) -> NoDup (map fst (dict_set d k v)).
Proof.
  intros Hd. destruct (dict_set_keys d k v) as (new & -> & [-> | [-> Hnot]]).
  - now rewrite app_nil_r.
  - apply NoDup_app. split; [exact Hd|]. split.
    + intros x Hx ->%list_elem_of_singleton. contradiction.
    + apply NoDup_singleton.
Qed.

Lemma dict_set_forall (P : string * pyval -> Prop)
      (d : list (string * pyval)) (k : string) (v : pyval) :
  P (k, v) -> Forall P d -> Forall P (dict_set d k v).
Proof.
  intros Hkv. induction 1 as [|[k' v'] d Hx Hd IH]; cbn [dict_set].
  - now constructor.
  - destruct (String.eqb_spec k k') as [<- | Hne]; now constructor.
Qed.

Lemma parse_nutrition_items_invariant (items : list (string * pyval)) :
  forall acc parsed,
    scraper.parse_nutrition_items items acc = Ok parsed ->
    NoDup (map fst acc) ->
    Forall (fun kv => Str.lower kv.1 = kv.1 /\ exists f, kv.2 = PFloat f) acc ->
    NoDup (map fst parsed)
    /\ Forall (fun kv => Str.lower kv.1 = kv.1 /\ exists f, kv.2 = PFloat f)
         parsed.
Proof.
  induction items as [|[key value_str] items IH]; intros acc parsed;
    cbn [scraper.parse_nutrition_items].
  - intros [= <-]. now split.
  - destruct (scraper.extract_nutrition_value (PStr (py_str value_str)))
      as [num_value|e] eqn:Hnum; cbn [mbind result_bind Py.bind];
      [|discriminate].
    intros Hrest Hnodup Hall.
    destruct (extract_nutrition_value_shape _ _ Hnum) as [-> | [f ->]];
      cbn [is_none] in Hrest.
    + exact (IH _ _ Hrest Hnodup Hall).
    + apply (IH _ _ Hrest).
      * now apply dict_set_nodup.
      * apply dict_set_forall; [|exact Hall]. cbn [fst snd].
        split; [apply clean_key_lower | eauto].
Qed.

(** X13.  The nutrition mapping built from the embedded data is well
    formed: its keys are distinct and in lower case, and every value
    is a number.  An entry whose text holds no number is left out. *)
Theorem parse_nutrition_items_well_formed
    (items parsed : list (string * pyval)) :
  scraper.parse_nutrition_items items [] = Ok parsed ->
  NoDup (map fst parsed)
  /\ Forall (fun kv => Str.lower kv.1 = kv.1 /\ exists f, kv.2 = PFloat f)
       parsed.
Proof.
  intros Hrun. apply (parse_nutrition_items_invariant items [] parsed Hrun);
    constructor.
Qed.

(** X14.  The fallback for nutrition is tried only when the embedded
    nutrition mapping yields no value at all.  With at least one value
    the record holds the embedded values and the page is not queried.
    With none, the parent selector is queried: when it finds nothing
    the record holds the empty mapping, and when the query fails the
    exception is not caught. *)
Theorem scrape_nutrition_embedded_first
    (json_ld_data : pyval) (soup : node) (scraped_data : gmap string pyval)
    (log log' : list string) (items parsed : list (string * pyval)) :
  scraper.get_value SELECTORS json_ld_data soup "nutrition_info" None false
    None None None log = (Ok (PDict items), log') ->
  scraper.parse_nutrition_items items [] = Ok parsed ->
  (parsed <> [] ->
   scraper.scrape_nutrition SELECTORS json_ld_data soup scraped_data log
   = (Ok (<["nutrition_info" := PDict parsed]> scraped_data), log'))
  /\ (parsed = [] ->
      select_one soup "div[data-test-id='nutritions']" = Ok None ->
      scraper.scrape_nutrition SELECTORS json_ld_data soup scraped_data log
      = (Ok (<["nutrition_info" := PDict []]> scraped_data),
         log' ++ ["div[data-test-id='nutritions']"]))
  /\ (forall e,
        parsed = [] ->
        select_one soup "div[data-test-id='nutritions']" = Raise e ->
        scraper.scrape_nutrition SELECTORS json_ld_data soup scraped_data log
        = (Raise e, log' ++ ["div[data-test-id='nutritions']"])).
Proof.
  intros Hget Hparse.
  assert (Hstart : scraper.scrape_nutrition SELECTORS json_ld_data soup
                     scraped_data log
                   = (if negb (truthy (PDict parsed))
                      then
                        nutrition_parent_el ←
                          scraper.query_one soup "div[data-test-id='nutritions']";
                        match nutrition_parent_el with
                        | Some el =>
                            css_nutrition_data ←
                              scraper.css_nutrition_items el
                                (match css_fields
                                         (table_get SELECTORS "nutrition_info")
                                 with
                                 | Some fields => fields
                                 | None => []
                                 end) [];
                            mret (<["nutrition_info" := PDict css_nutrition_data]>
                                    (<["nutrition_info" := PDict parsed]>
                                       scraped_data))
                        | None =>
                            mret (<["nutrition_info" := PDict parsed]>
                                    scraped_data)
                        end
                      else mret (<["nutrition_info" := PDict parsed]>
                                   scraped_data)) log').
  { unfold scraper.scrape_nutrition. rewrite (bind_ok _ _ _ _ _ Hget).
    unfold mbind at 2, scraper.M_bind at 2, scraper.lift at 1.
    rewrite Hparse.
    unfold mbind at 1, scraper.M_bind at 1, mret at 1, scraper.M_ret at 1.
    unfold mbind at 1, scraper.M_bind at 1, scraper.lift at 1,
      scraper.record_item.
    rewrite lookup_insert_eq. reflexivity. }
  rewrite Hstart. split; [|split].
  - intros Hne. destruct parsed; [congruence | reflexivity].
  - intros -> Hsel. cbn [truthy negb].
    unfold mbind, scraper.M_bind, scraper.query_one. now rewrite Hsel.
  - intros e -> Hsel. cbn [truthy negb].
    unfold mbind, scraper.M_bind, scraper.query_one. now rewrite Hsel.
Qed.

End NutritionItems.

Lemma parse_nutrition_items_well_formed_witness :
  exists parsed,
    scraper.parse_nutrition_items (E := Sample.env)
      [("calories", PStr "640 kcal"); ("fatContent", PStr "15 g");
       ("Calories", PInt 650); ("servingSize", PStr "one bowl")] []
    = Ok parsed
    /\ NoDup (map fst parsed).
Proof.
  assert (Hreturns :
            match scraper.parse_nutrition_items (E := Sample.env)
                    [("calories", PStr "640 kcal"); ("fatContent", PStr "15 g");
                     ("Calories", PInt 650); ("servingSize", PStr "one bowl")]
                    []
            with Ok _ => True | Raise _ => False end)
    by (vm_compute; exact I).
  destruct (scraper.parse_nutrition_items (E := Sample.env)
              [("calories", PStr "640 kcal"); ("fatContent", PStr "15 g");
               ("Calories", PInt 650); ("servingSize", PStr "one bowl")] [])
    as [parsed|e] eqn:Hrun.
  - exists parsed. split; [reflexivity|].
    exact (proj1 (parse_nutrition_items_well_formed (E := Sample.env)
                    _ _ Hrun)).
  - destruct Hreturns.
Defined.

Lemma scrape_nutrition_embedded_first_witness :
  scraper.scrape_nutrition (E := Sample.env) SELECTORS Sample.teriyaki_data
    Sample.empty_page ∅ []
  = (Ok (<["nutrition_info" :=
             PDict [("calories", PFloat 640); ("fat", PFloat 15)]]> ∅), []).
Proof.
  apply (proj1 (scrape_nutrition_embedded_first (E := Sample.env)
                  Sample.teriyaki_data Sample.empty_page ∅ [] []
                  [ ("@type", PStr "NutritionInformation");
                    ("calories", PStr "640 kcal"); ("fatContent", PStr "15 g") ]
                  [("calories", PFloat 640); ("fat", PFloat 15)]
                  eq_refl eq_refl)).
  discriminate.
Defined.

(* ------------------------------------------------------------------ *)
(** ** Reading the embedded data                                        *)
(* ------------------------------------------------------------------ *)

Section EmbeddedData.
Context `{E : Env} `{W : !Web}.

Lemma first_recipe_spec (json_data : list pyval) :
  match scraper.first_recipe json_data with
  | Some item =>
      exists pre post,
        json_data = pre ++ item :: post
        /\ Forall (fun x => scraper.is_recipe x = false) pre
        /\ scraper.is_recipe item = true
  | None => Forall (fun x => scraper.is_recipe x = false) json_data
  end.
Proof.
  induction json_data as [|x l IH]; cbn [scraper.first_recipe]; [constructor|].
  destruct (scraper.is_recipe x) eqn:Hx.
  - exists [], l. split; [reflexivity | split; [constructor | exact Hx]].
  - destruct (scraper.first_recipe l) as [item|].
    + destruct IH as (pre & post & -> & Hpre & Hitem).
      exists (x :: pre), post.
      split; [reflexivity | split; [now constructor | exact Hitem]].
    + now constructor.
Qed.

Lemma script_selector_nonempty :
  bool_decide (json_ld_script_selector = ∅) = false.
Proof.
  apply bool_decide_eq_false. intros H.
  apply (f_equal (fun m : gmap string string => m !! "type")) in H.
  vm_compute in H. discriminate H.
Qed.

Lemma script_selector_item :
  scraper.strategy_item json_ld_script_selector "selector"
  = Ok "script[type='application/ld+json']#schema-org".
Proof. vm_compute. reflexivity. Qed.

(** The script tag is looked up once, and nothing else is. *)
Lemma get_json_ld_data_run (soup : node) (log : list string) :
  scraper.get_json_ld_data (Some json_ld_script_selector) soup log
  = (match select_one soup "script[type='application/ld+json']#schema-org" with
     | Ok (Some tag) =>
         match node_string tag with
         | Some text =>
             if utils.str_truthy text then
               match json_loads text with
               | Ok (PList json_data) =>
                   match scraper.first_recipe json_data with
                   | Some item => Ok item
                   | None => Ok (match json_data with
                                 | item :: _ => item
                                 | [] => PNone
                                 end)
                   end
               | Ok (PDict d) => Ok (PDict d)
               | Ok _ => Ok PNone
               | Raise JSONDecodeError => Ok PNone
               | Raise e => Raise e
               end
             else Ok PNone
         | None => Ok PNone
         end
     | Ok None => Ok PNone
     | Raise e => Raise e
     end, log ++ ["script[type='application/ld+json']#schema-org"]).
Proof.
  unfold scraper.get_json_ld_data.
  rewrite script_selector_nonempty, script_selector_item.
  unfold mbind, mret, scraper.M_bind, scraper.M_ret, scraper.lift,
    scraper.query_one.
  destruct (select_one soup _) as [[tag|]|e]; try reflexivity.
  destruct (node_string tag) as [text|]; [|reflexivity].
  destruct (utils.str_truthy text); [|reflexivity].
  destruct (json_loads text) as [[| b | z | q | s | l | d]|e];
    try reflexivity.
  - now destruct (scraper.first_recipe l).
  - now destruct e.
Qed.

(** X15.  Which embedded data is used.  From a JSON list the first
    entry of type [Recipe] is taken, wherever it stands; a list without
    such an entry gives its first entry, whatever that is, and the
    empty list gives [None].  A JSON object is taken whatever its
    type. *)
Theorem get_json_ld_data_choice
    (soup tag : node) (text : string) (json_data : pyval) (log : list string) :
  select_one soup "script[type='application/ld+json']#schema-org"
  = Ok (Some tag) ->
  node_string tag = Some text -> text <> "" ->
  json_loads text = Ok json_data ->
  exists r,
    scraper.get_json_ld_data (Some json_ld_script_selector) soup log
    = (Ok r, log ++ ["script[type='application/ld+json']#schema-org"])
    /\ match json_data with
       | PList l =>
           (exists pre post,
               l = pre ++ r :: post
               /\ Forall (fun x => scraper.is_recipe x = false) pre
               /\ scraper.is_recipe r = true)
           \/ (Forall (fun x => scraper.is_recipe x = false) l
               /\ r = match l with item :: _ => item | [] => PNone end)
       | PDict d => r = json_data
       | _ => r = PNone
       end.
Proof.
  intros Hsel Htag Hne Hjson. rewrite get_json_ld_data_run, Hsel, Htag, Hjson.
  replace (utils.str_truthy text) with true by (now destruct text).
  destruct json_data as [| b | z | q | s | l | d];
    try (eexists; split; reflexivity).
  pose proof (first_recipe_spec l) as Hspec.
  destruct (scraper.first_recipe l) as [item|].
  - exists item. split; [reflexivity | now left].
  - eexists. split; [reflexivity | right; now split].
Qed.

(** X16.  [get_json_ld_data] queries the page once, for the script
    tag.  It raises exactly when that query raises, or when
    [json.loads] raises something else than [JSONDecodeError] on the
    text of the tag (as it does on too deep a nesting and on an integer
    of too many digits): that is the only exception the function
    catches.  A page without the tag, a tag without text, and text that
    is not JSON all give [None]. *)
Theorem get_json_ld_data_absent (soup : node) (log : list string) :
  snd (scraper.get_json_ld_data (Some json_ld_script_selector) soup log)
  = log ++ ["script[type='application/ld+json']#schema-org"]
  /\ (forall e,
        fst (scraper.get_json_ld_data (Some json_ld_script_selector) soup log)
        = Raise e
        <-> select_one soup "script[type='application/ld+json']#schema-org"
            = Raise e
            \/ exists tag text,
                 select_one soup "script[type='application/ld+json']#schema-org"
                 = Ok (Some tag)
                 /\ node_string tag = Some text /\ text <> ""
                 /\ json_loads text = Raise e /\ e <> JSONDecodeError)
  /\ (select_one soup "script[type='application/ld+json']#schema-org" = Ok None ->
      fst (scraper.get_json_ld_data (Some json_ld_script_selector) soup log)
      = Ok PNone)
  /\ (forall tag,
        select_one soup "script[type='application/ld+json']#schema-org"
        = Ok (Some tag) ->
        node_string tag = None \/ node_string tag = Some ""
        \/ (exists text, node_string tag = Some text
                         /\ json_loads text = Raise JSONDecodeError) ->
        fst (scraper.get_json_ld_data (Some json_ld_script_selector) soup log)
        = Ok PNone).
Proof.
  rewrite get_json_ld_data_run. cbn [fst snd].
  split; [reflexivity | split; [|split]].
  - intros e.
    destruct (select_one soup _) as [[tag|]|e'].
    + destruct (node_string tag) as [text|] eqn:Htag.
      2:{ split; [discriminate|].
          intros [Hf | (tag' & text' & [= <-] & Hf & _)];
            [discriminate | congruence]. }
      destruct (String.eqb_spec text "") as [-> | Hne].
      { split; [discriminate|].
        intros [Hf | (tag' & text' & [= <-] & Hf & Hne & _)];
          [discriminate | congruence]. }
      replace (utils.str_truthy text) with true by (now destruct text).
      split.
      * intros Hraise. right. exists tag, text.
        split; [reflexivity | split; [exact Htag | split; [exact Hne|]]].
        destruct (json_loads text) as [[| b | z | q | s | l | d]|e'];
          try discriminate.
        -- destruct (scraper.first_recipe l); discriminate.
        -- destruct e'; try discriminate; injection Hraise as <-;
             (split; [reflexivity | discriminate]).
      * intros [Hf | (tag' & text' & [= <-] & Hf & _ & Hjson & Hnot)];
          [discriminate|].
        assert (text' = text) as -> by congruence.
        rewrite Hjson. destruct e; try reflexivity. now destruct Hnot.
    + split; [discriminate|].
      intros [Hf | (tag' & text' & Hf & _)]; discriminate.
    + split.
      * intros [= ->]. now left.
      * intros [[= ->] | (tag' & text' & Hf & _)]; [reflexivity | discriminate].
  - now intros ->.
  - intros tag -> [-> | [-> | (text & -> & ->)]]; try reflexivity.
    now destruct (utils.str_truthy text).
Qed.

End EmbeddedData.

Lemma get_json_ld_data_choice_witness :
  scraper.get_json_ld_data (W := SamplePage.web) (Some json_ld_script_selector)
    (SamplePage.script_page "graph") []
  = (Ok Sample.teriyaki_data, ["script[type='application/ld+json']#schema-org"]).
Proof.
  destruct (get_json_ld_data_choice (W := SamplePage.web)
              (SamplePage.script_page "graph") (Sample.Elem "graph" [] [])
              "graph"
              (PList [PDict [("@type", PStr "WebSite")]; Sample.teriyaki_data])
              [] eq_refl eq_refl ltac:(discriminate) eq_refl)
    as (r & Hrun & _).
  rewrite Hrun. vm_compute in Hrun. now injection Hrun as <-.
Defined.

(* ------------------------------------------------------------------ *)
(** ** Fetching the page                                                *)
(* ------------------------------------------------------------------ *)

Section Fetching.
Context `{E : Env} `{W : !Web}.
Variable requests_get : string -> nat -> scraper.response.
Variables now recipe_url : string.

Lemma requested_app (a b : list scraper.event) :
  requested (a ++ b) = requested a ++ requested b.
Proof. apply omap_app. Qed.

(** The loop only adds to what was done before it; it sends at most
    one request per attempt, each for the address of the recipe, and at
    least one when there is an attempt. *)
Lemma fetch_loop_trace (attempts : list nat) :
  forall trace, exists new n,
    snd (scraper.fetch_loop requests_get recipe_url attempts trace)
    = trace ++ new
    /\ requested new = replicate n recipe_url
    /\ (n <= List.length attempts)%nat
    /\ (attempts <> [] -> (1 <= n)%nat).
Proof.
  induction attempts as [|attempt attempts IH]; intros trace.
  - exists [], O. cbn. rewrite app_nil_r.
    split; [reflexivity | split; [reflexivity | split; [lia | congruence]]].
  - assert (Hstop : forall r : scraper.fetched,
               exists new n,
                 snd (r, trace ++ [scraper.Get recipe_url]) = trace ++ new
                 /\ requested new = replicate n recipe_url
                 /\ (n <= List.length (attempt :: attempts))%nat
                 /\ (attempt :: attempts <> [] -> (1 <= n)%nat)).
    { intros r. exists [scraper.Get recipe_url], 1%nat. cbn [List.length].
      split; [reflexivity | split; [reflexivity | split; lia]]. }
    assert (Hnext : forall backoff,
               exists new n,
                 snd (scraper.fetch_loop requests_get recipe_url attempts
                        ((trace ++ [scraper.Get recipe_url])
                           ++ [scraper.Sleep backoff]))
                 = trace ++ new
                 /\ requested new = replicate n recipe_url
                 /\ (n <= List.length (attempt :: attempts))%nat
                 /\ (attempt :: attempts <> [] -> (1 <= n)%nat)).
    { intros backoff.
      destruct (IH ((trace ++ [scraper.Get recipe_url])
                      ++ [scraper.Sleep backoff]))
        as (new & n & -> & Hreq & Hn & _).
      exists (scraper.Get recipe_url :: scraper.Sleep backoff :: new), (S n).
      cbn [List.length].
      split; [now rewrite <- !app_assoc | split; [|split; lia]].
      change (requested (scraper.Get recipe_url :: scraper.Sleep backoff :: new))
        with (recipe_url :: requested new).
      now rewrite Hreq. }
    cbn [scraper.fetch_loop]. cbv zeta.
    destruct (requests_get recipe_url attempt) as [text | status_code | message].
    + apply Hstop.
    + destruct (status_code =? 404); [apply Hstop|].
      destruct (Nat.eqb attempt (MAX_RETRIES - 1)); [apply Hstop | apply Hnext].
    + destruct (Nat.eqb attempt (MAX_RETRIES - 1)); [apply Hstop | apply Hnext].
Qed.

Lemma scrape_recipe_data_events :
  scraper.events (scraper.scrape_recipe_data requests_get now recipe_url)
  = snd (scraper.fetch_loop requests_get recipe_url (seq 0 MAX_RETRIES)
           [scraper.Sleep REQUEST_DELAY_SECONDS]).
Proof.
  unfold scraper.scrape_recipe_data. cbv zeta.
  destruct (scraper.fetch_loop _ _ _ _) as [[[html|]|error] trace];
    try reflexivity.
  now destruct (utils.str_truthy html).
Qed.

(** X17.  The request budget.  Every call first waits for
    [REQUEST_DELAY_SECONDS]; then it sends at least one request and at
    most [MAX_RETRIES], all of them for the address it was given. *)
Theorem scrape_recipe_data_request_budget :
  exists rest n,
    scraper.events (scraper.scrape_recipe_data requests_get now recipe_url)
    = scraper.Sleep REQUEST_DELAY_SECONDS :: rest
    /\ requested rest = replicate n recipe_url
    /\ (1 <= n <= MAX_RETRIES)%nat.
Proof.
  rewrite scrape_recipe_data_events.
  destruct (fetch_loop_trace (seq 0 MAX_RETRIES)
              [scraper.Sleep REQUEST_DELAY_SECONDS])
    as (new & n & -> & Hreq & Hle & Hge).
  exists new, n. split; [reflexivity | split; [exact Hreq|]].
  rewrite length_seq in Hle. split; [apply Hge; discriminate | exact Hle].
Qed.

(** X18.  When the call gives up.  A 404 is not retried: one request,
    and the "not found" error.  A page that arrives empty is reported
    as not retrieved.  Two failures in a row give the error of the
    second, after one pause of [RETRY_BACKOFF_FACTOR] seconds.  In none
    of these cases is a page parsed. *)
Theorem scrape_recipe_data_gives_up :
  (requests_get recipe_url 0%nat = scraper.HTTPError 404 ->
   scraper.scrape_recipe_data requests_get now recipe_url
   = scraper.mk_outcome (Ok (scraper.error_dict "Recipe not found (404)."))
       [scraper.Sleep 1; scraper.Get recipe_url] [])
  /\ (requests_get recipe_url 0%nat = scraper.Fetched "" ->
      scraper.scrape_recipe_data requests_get now recipe_url
      = scraper.mk_outcome
          (Ok (scraper.error_dict "Could not retrieve HTML content."))
          [scraper.Sleep 1; scraper.Get recipe_url] [])
  /\ (forall c0 c1,
        requests_get recipe_url 0%nat = scraper.HTTPError c0 -> c0 <> 404 ->
        requests_get recipe_url 1%nat = scraper.HTTPError c1 -> c1 <> 404 ->
        scraper.scrape_recipe_data requests_get now recipe_url
        = scraper.mk_outcome
            (Ok (scraper.error_dict
                   ("HTTP error after 2 attempts: " +:+ Str.str_of_int c1
                    +:+ ".")))
            [scraper.Sleep 1; scraper.Get recipe_url;
             scraper.Sleep (3 # 10); scraper.Get recipe_url] [])
  /\ (forall message0 message1,
        requests_get recipe_url 0%nat = scraper.RequestException message0 ->
        requests_get recipe_url 1%nat = scraper.RequestException message1 ->
        scraper.scrape_recipe_data requests_get now recipe_url
        = scraper.mk_outcome
            (Ok (scraper.error_dict
                   ("Request error after 2 attempts: " +:+ message1 +:+ ".")))
            [scraper.Sleep 1; scraper.Get recipe_url;
             scraper.Sleep (3 # 10); scraper.Get recipe_url] []).
Proof.
  unfold scraper.scrape_recipe_data, MAX_RETRIES.
  cbn [seq scraper.fetch_loop]. cbv zeta.
  split; [|split; [|split]].
  - intros ->. reflexivity.
  - intros ->. reflexivity.
  - intros c0 c1 -> Hc0 -> Hc1.
    apply Z.eqb_neq in Hc0, Hc1. rewrite Hc0, Hc1. reflexivity.
  - intros message0 message1 -> ->. reflexivity.
Qed.

(** X19.  A failed first request that is followed by a successful one
    changes nothing but the time taken: the call returns what it
    returns on a network that delivers the page at once, and queries
    the page in the same way, after one pause of [RETRY_BACKOFF_FACTOR]
    seconds and a second request. *)
Theorem scrape_recipe_data_retry
    (reliable : string -> nat -> scraper.response) (html : string) :
  (exists c, requests_get recipe_url 0%nat = scraper.HTTPError c /\ c <> 404)
  \/ (exists message,
         requests_get recipe_url 0%nat = scraper.RequestException message) ->
  requests_get recipe_url 1%nat = scraper.Fetched html ->
  reliable recipe_url 0%nat = scraper.Fetched html ->
  scraper.returned (scraper.scrape_recipe_data requests_get now recipe_url)
  = scraper.returned (scraper.scrape_recipe_data reliable now recipe_url)
  /\ scraper.queries (scraper.scrape_recipe_data requests_get now recipe_url)
     = scraper.queries (scraper.scrape_recipe_data reliable now recipe_url)
  /\ scraper.events (scraper.scrape_recipe_data requests_get now recipe_url)
     = [scraper.Sleep 1; scraper.Get recipe_url;
        scraper.Sleep (3 # 10); scraper.Get recipe_url]
  /\ scraper.events (scraper.scrape_recipe_data reliable now recipe_url)
     = [scraper.Sleep 1; scraper.Get recipe_url].
Proof.
  intros Hfirst Hsecond Hreliable.
  unfold scraper.scrape_recipe_data, MAX_RETRIES.
  cbn [seq scraper.fetch_loop]. cbv zeta. rewrite Hreliable.
  assert (Hloop : (match requests_get recipe_url 0%nat with
                   | scraper.Fetched text =>
                       (scraper.Page (Some text),
                        [scraper.Sleep REQUEST_DELAY_SECONDS]
                          ++ [scraper.Get recipe_url])
                   | scraper.HTTPError status_code =>
                       if status_code =? 404
                       then (scraper.Failed "Recipe not found (404).",
                             [scraper.Sleep REQUEST_DELAY_SECONDS]
                               ++ [scraper.Get recipe_url])
                       else (scraper.Page (Some html),
                             [scraper.Sleep 1; scraper.Get recipe_url;
                              scraper.Sleep (3 # 10); scraper.Get recipe_url])
                   | scraper.RequestException _ =>
                       (scraper.Page (Some html),
                        [scraper.Sleep 1; scraper.Get recipe_url;
                         scraper.Sleep (3 # 10); scraper.Get recipe_url])
                   end)
                  = (scraper.Page (Some html),
                     [scraper.Sleep 1; scraper.Get recipe_url;
                      scraper.Sleep (3 # 10); scraper.Get recipe_url])).
  { destruct Hfirst as [(c & -> & Hc) | (message & ->)]; [|reflexivity].
    apply Z.eqb_neq in Hc. now rewrite Hc. }
  rewrite Hsecond. cbn [Nat.eqb Nat.sub].
  change ([scraper.Sleep REQUEST_DELAY_SECONDS] ++ [scraper.Get recipe_url])
    with [scraper.Sleep 1; scraper.Get recipe_url] in *.
  match goal with
  | |- context [match ?l with _ => _ end] =>
      match type of Hloop with
      | ?l' = _ => change l with l'
      end
  end.
  rewrite Hloop.
  destruct (utils.str_truthy html); repeat split; reflexivity.
Qed.

End Fetching.

Lemma scrape_recipe_data_retry_witness :
  scraper.returned
    (scraper.scrape_recipe_data (W := SamplePage.web)
       (SamplePage.flaky (scraper.HTTPError 503) "teriyaki")
       "2024-01-01T00:00:00+00:00" Sample.teriyaki_url)
  = scraper.returned
      (scraper.scrape_recipe_data (W := SamplePage.web)
         (SamplePage.flaky (scraper.Fetched "teriyaki") "teriyaki")
         "2024-01-01T00:00:00+00:00" Sample.teriyaki_url).
Proof.
  pose proof (scrape_recipe_data_retry (W := SamplePage.web)
                (SamplePage.flaky (scraper.HTTPError 503) "teriyaki")
                "2024-01-01T00:00:00+00:00" Sample.teriyaki_url
                (SamplePage.flaky (scraper.Fetched "teriyaki") "teriyaki")
                "teriyaki") as Hretry.
  destruct Hretry as [Hsame _].
  - left. exists 503. split; [reflexivity | discriminate].
  - reflexivity.
  - reflexivity.
  - exact Hsame.
Defined.

(* ------------------------------------------------------------------ *)
(** ** The request handler                                              *)
(* ------------------------------------------------------------------ *)

Section Handler.
Variable scrape_recipe_data : string -> scraper.outcome.

(** X20.  What the handler refuses.  A request that is not JSON, a
    payload without a usable ["url"], and an address that starts with
    neither [http://] nor [https://] are answered with status 400 and
    their own message; the scraper is not called for them, so nothing
    is requested from the network. *)
Theorem handle_scrape_recipe_rejects (request : app.request) :
  (app.is_json request = false ->
   app.handle_scrape_recipe scrape_recipe_data request
   = (Ok (scraper.error_dict "Invalid request: payload must be JSON.", 400),
      []))
  /\ (forall d,
        app.is_json request = true -> app.get_json request = Ok (PDict d) ->
        truthy (scraper.dict_get_or_none d "url") = false ->
        app.handle_scrape_recipe scrape_recipe_data request
        = (Ok (scraper.error_dict "URL is required.", 400), []))
  /\ (forall d u,
        app.is_json request = true -> app.get_json request = Ok (PDict d) ->
        dict_get d "url" = Some (PStr u) -> u <> "" ->
        Str.startswith "http://" u = false ->
        Str.startswith "https://" u = false ->
        app.handle_scrape_recipe scrape_recipe_data request
        = (Ok (scraper.error_dict
                 "Invalid URL format. Must start with http:// or https://",
               400), [])).
Proof.
  unfold app.handle_scrape_recipe. split; [|split].
  - now intros ->.
  - intros d -> -> Hurl. cbn [negb mbind result_bind Py.bind app.data_get_url].
    now rewrite Hurl.
  - intros d u -> -> Hurl Hne Hhttp Hhttps.
    cbn [negb mbind result_bind Py.bind app.data_get_url].
    unfold scraper.dict_get_or_none. rewrite Hurl. cbn [truthy].
    replace (String.eqb u "") with false by (now destruct u).
    cbn [negb app.has_http_scheme]. now rewrite Hhttp, Hhttps.
Qed.

Lemma has_error_false (scraped_data : gmap string pyval) :
  app.has_error scraped_data = false <-> scraped_data !! "error" = None.
Proof.
  unfold app.has_error. rewrite bool_decide_eq_false.
  now rewrite eq_None_not_Some.
Qed.

(** The handler on a request that it accepts. *)
Lemma handle_scrape_recipe_accepted
      (request : app.request) (d : list (string * pyval)) (u : string) :
  app.is_json request = true -> app.get_json request = Ok (PDict d) ->
  dict_get d "url" = Some (PStr u) ->
  Str.startswith "http://" u || Str.startswith "https://" u = true ->
  app.handle_scrape_recipe scrape_recipe_data request
  = (match scraper.returned (scrape_recipe_data u) with
     | Ok scraped_data =>
         match app.jsonify scraped_data with
         | Ok body =>
             Ok (body, if app.has_error scraped_data then 500 else 200)
         | Raise _ =>
             Ok (scraper.error_dict
                   "An unexpected server error occurred. Please check server logs.",
                 500)
         end
     | Raise _ =>
         Ok (scraper.error_dict
               "An unexpected server error occurred. Please check server logs.",
             500)
     end, scraper.events (scrape_recipe_data u)).
Proof.
  intros Hjson Hget Hurl Hscheme. unfold app.handle_scrape_recipe.
  rewrite Hjson, Hget.
  cbn [negb mbind result_bind Py.bind app.data_get_url].
  unfold scraper.dict_get_or_none. rewrite Hurl. cbn [truthy].
  replace (String.eqb u "") with false
    by (destruct u; [discriminate Hscheme | reflexivity]).
  cbn [negb app.has_http_scheme]. rewrite Hscheme.
  destruct (scraper.returned (scrape_recipe_data u)) as [scraped_data|e];
    cbn [mbind result_bind Py.bind try_except]; [|reflexivity].
  now destruct (app.jsonify scraped_data).
Qed.

(** What [jsonify] writes is the record it was given. *)
Lemma jsonify_body (data body : gmap string pyval) :
  app.jsonify data = Ok body -> body = data.
Proof.
  unfold app.jsonify. destruct (forallb _ _); [|discriminate].
  now intros [= <-].
Qed.

(** X21.  What the handler answers.  For a JSON payload whose ["url"]
    is text that starts with [http://] or [https://] the handler always
    answers, with status 200 or 500: 200 exactly when the scraper
    returned a record without an ["error"] key that [jsonify] can
    write, which is then the body.  Whatever the scraper raises, and
    whatever [jsonify] raises on the record, is turned into status 500
    with a fixed message. *)
Theorem handle_scrape_recipe_status
    (request : app.request) (d : list (string * pyval)) (u : string) :
  app.is_json request = true -> app.get_json request = Ok (PDict d) ->
  dict_get d "url" = Some (PStr u) ->
  Str.startswith "http://" u || Str.startswith "https://" u = true ->
  exists body status,
    app.handle_scrape_recipe scrape_recipe_data request
    = (Ok (body, status), scraper.events (scrape_recipe_data u))
    /\ (status = 200 \/ status = 500)
    /\ (status = 200 <->
        scraper.returned (scrape_recipe_data u) = Ok body
        /\ body !! "error" = None
        /\ app.jsonify body = Ok body)
    /\ (forall e,
          scraper.returned (scrape_recipe_data u) = Raise e ->
          status = 500
          /\ body = scraper.error_dict
                      "An unexpected server error occurred. Please check server logs.")
    /\ (forall scraped_data e,
          scraper.returned (scrape_recipe_data u) = Ok scraped_data ->
          app.jsonify scraped_data = Raise e ->
          status = 500
          /\ body = scraper.error_dict
                      "An unexpected server error occurred. Please check server logs.").
Proof.
  intros Hjson Hget Hurl Hscheme.
  rewrite (handle_scrape_recipe_accepted request d u Hjson Hget Hurl Hscheme).
  destruct (scraper.returned (scrape_recipe_data u)) as [scraped_data|e'].
  - destruct (app.jsonify scraped_data) as [body|e'] eqn:Hwrite.
    + pose proof (jsonify_body _ _ Hwrite) as ->.
      destruct (app.has_error scraped_data) eqn:Herr.
      * exists scraped_data, 500.
        split; [reflexivity | split; [now right|split; [|split]]];
          [|discriminate | intros ? ? [= <-]; congruence].
        split; [discriminate|]. intros (_ & Hnone & _).
        apply has_error_false in Hnone. congruence.
      * exists scraped_data, 200.
        split; [reflexivity | split; [now left|split; [|split]]];
          [|discriminate | intros ? ? [= <-]; congruence].
        apply has_error_false in Herr. tauto.
    + eexists _, 500.
      split; [reflexivity | split; [now right|split; [|split]]].
      * split; [discriminate|]. intros ([= <-] & _ & Hw). congruence.
      * discriminate.
      * now intros ? ? _ _.
  - eexists _, 500.
    split; [reflexivity | split; [now right|split; [|split]]].
    + split; [discriminate | now intros [? _]].
    + now intros e _.
    + discriminate.
Qed.

End Handler.

Lemma handle_scrape_recipe_status_witness :
  exists body status,
    app.handle_scrape_recipe
      (fun _ => scraper.mk_outcome (Raise TypeError) [] [])
      (app.mk_request true (Ok (PDict [("url", PStr "https://x.test/r")])))
    = (Ok (body, status), [])
    /\ (status = 200 \/ status = 500).
Proof.
  destruct (handle_scrape_recipe_status
              (fun _ => scraper.mk_outcome (Raise TypeError) [] [])
              (app.mk_request true (Ok (PDict [("url", PStr "https://x.test/r")])))
              [("url", PStr "https://x.test/r")] "https://x.test/r"
              eq_refl eq_refl eq_refl eq_refl)
    as (body & status & Hrun & Hstatus & _).
  exists body, status. split; [exact Hrun | exact Hstatus].
Defined.

(** A record that [jsonify] cannot write: a duration of [10^4300]
    minutes.  The scraper returned it without an ["error"] key, and the
    answer is the server error all the same. *)
Lemma handle_scrape_recipe_unwritable_record :
  app.handle_scrape_recipe
    (fun _ => scraper.mk_outcome
                (Ok {[ "total_time_minutes" := PInt (10 ^ 4300) ]}) [] [])
    (app.mk_request true (Ok (PDict [("url", PStr "https://x.test/r")])))
  = (Ok (scraper.error_dict
           "An unexpected server error occurred. Please check server logs.",
         500), []).
Proof. vm_compute. reflexivity. Qed.

(* ------------------------------------------------------------------ *)
(** ** A page without embedded data, end to end                         *)
(* ------------------------------------------------------------------ *)

Section PageWithoutEmbeddedData.
Context `{E : Env} `{W : !Web}.

Ltac without_data_step soup :=
  lazymatch goal with
  | |- exists _, mbind _ (scraper.scrape_plain _ _ _ ?key ?sd) ?l = _ =>
      let H := fresh "Hstep" in
      destruct (scrape_plain_without_data soup key sd l) as (? & ? & H & ?);
      rewrite (bind_ok _ _ _ _ _ H); clear H; cbn beta
  | |- exists _, mbind _ (scraper.scrape_parsed _ _ _ ?key ?p ?sd) ?l = _ =>
      let H := fresh "Hstep" in
      destruct (scrape_parsed_without_data soup key p sd l) as (? & ? & H & ?);
      rewrite (bind_ok _ _ _ _ _ H); clear H; cbn beta
  | |- exists _, mbind _ (scraper.scrape_external_id _ _ _ ?u ?sd) ?l = _ =>
      let H := fresh "Hstep" in
      destruct (scrape_external_id_without_data soup u sd l) as (? & ? & H);
      rewrite (bind_ok _ _ _ _ _ H); clear H; cbn beta
  | |- exists _, mbind _ (scraper.scrape_ingredients _ _ _ ?sd) ?l = _ =>
      let H := fresh "Hstep" in
      destruct (scrape_ingredients_without_data soup sd l) as (? & H);
      rewrite (bind_ok _ _ _ _ _ H); clear H; cbn beta
  | |- exists _, mbind _ (scraper.scrape_steps _ _ _ ?sd) ?l = _ =>
      let H := fresh "Hstep" in
      destruct (scrape_steps_without_data soup sd l) as (? & ? & H);
      rewrite (bind_ok _ _ _ _ _ H); clear H; cbn beta
  end.

(** Record assembly on a page without embedded data stops at the
    nutrition field, from any state of the query log. *)
Lemma assemble_record_stops_at_nutrition
      (soup : node) (recipe_url scraped_at_timestamp : string)
      (log : list string) :
  exists log',
    scraper.assemble_record SELECTORS recipe_url scraped_at_timestamp
      PNone soup log
    = (Raise (KeyError "nutrition_info"), log').
Proof.
  unfold scraper.assemble_record. cbv zeta.
  do 6 without_data_step soup.
  lazymatch goal with
  | |- exists _, mbind _ (scraper.lift (scraper.backfill_total_time ?sd)) ?l
                 = _ =>
      destruct (backfill_total_time_without_data sd _ _ _
                  ltac:(now simplify_map_eq) ltac:(now simplify_map_eq)
                  ltac:(now simplify_map_eq)
                  ltac:(assumption) ltac:(assumption) ltac:(assumption))
        as (sd7 & Hback & Hsame7);
      rewrite (bind_ok (scraper.lift _) _ l l sd7)
        by (unfold scraper.lift; now rewrite Hback)
  end.
  cbn beta. without_data_step soup.
  lazymatch goal with
  | |- exists _, mbind _ (scraper.scrape_image_url _ _ _ ?sd) ?l = _ =>
      destruct (scrape_image_url_without_data soup sd l)
        as (sd9 & l9 & Himg & Hsame9);
      [ rewrite lookup_insert_ne, Hsame7 by done; now simplify_map_eq
      | rewrite (bind_ok _ _ _ _ _ Himg); clear Himg; cbn beta ]
  end.
  do 2 without_data_step soup.
  lazymatch goal with
  | |- exists _, mbind _ (scraper.scrape_nutrition _ _ _ ?sd) ?l = _ =>
      destruct (get_value_without_data soup "nutrition_info" None None
                  ltac:(discriminate) l) as (vn & ln & Hget & Hvn);
      exists ln;
      unfold mbind at 1, scraper.M_bind at 1;
      rewrite (scrape_nutrition_keyerror PNone soup sd l ln vn)
  end.
  - reflexivity.
  - rewrite !lookup_insert_ne, Hsame9, lookup_insert_ne, Hsame7 by done.
    now simplify_map_eq.
  - exact Hget.
  - destruct Hvn as [-> | [s ->]]; reflexivity.
Qed.

(** X22.  A page without embedded data, end to end.  When the page
    arrives but [get_json_ld_data] finds nothing in it, the scraper
    raises [KeyError] for ["nutrition_info"], whatever else the page
    holds; the handler answers with status 500 and its fixed message,
    after a single request. *)
Theorem page_without_embedded_data_is_a_server_error
    (requests_get : string -> nat -> scraper.response) (now : string)
    (request : app.request) (d : list (string * pyval)) (u html : string) :
  app.is_json request = true -> app.get_json request = Ok (PDict d) ->
  dict_get d "url" = Some (PStr u) ->
  Str.startswith "http://" u || Str.startswith "https://" u = true ->
  requests_get u 0%nat = scraper.Fetched html -> html <> "" ->
  fst (scraper.get_json_ld_data (Some json_ld_script_selector)
         (parse_html html) []) = Ok PNone ->
  scraper.returned (scraper.scrape_recipe_data requests_get now u)
  = Raise (KeyError "nutrition_info")
  /\ app.handle_scrape_recipe (scraper.scrape_recipe_data requests_get now)
       request
     = (Ok (scraper.error_dict
              "An unexpected server error occurred. Please check server logs.",
            500),
        [scraper.Sleep 1; scraper.Get u]).
Proof.
  intros Hjson Hget Hurl Hscheme Hfetch Hne Hnone.
  assert (Hrun : scraper.returned (scraper.scrape_recipe_data requests_get now u)
                 = Raise (KeyError "nutrition_info")
                 /\ scraper.events
                      (scraper.scrape_recipe_data requests_get now u)
                    = [scraper.Sleep 1; scraper.Get u]).
  { unfold scraper.scrape_recipe_data, MAX_RETRIES.
    cbn [seq scraper.fetch_loop]. cbv zeta. rewrite Hfetch.
    replace (utils.str_truthy html) with true by (now destruct html).
    cbn [scraper.returned scraper.events]. split; [|reflexivity].
    destruct (scraper.get_json_ld_data (Some json_ld_script_selector)
                (parse_html html) []) as [r l] eqn:Hdata.
    cbn [fst] in Hnone. subst r.
    rewrite (bind_ok _ _ _ _ _ Hdata).
    destruct (assemble_record_stops_at_nutrition (parse_html html) u now l)
      as [log' ->].
    reflexivity. }
  destruct Hrun as [Hraise Hevents]. split; [exact Hraise|].
  rewrite (handle_scrape_recipe_accepted _ request d u Hjson Hget Hurl Hscheme).
  now rewrite Hraise, Hevents.
Qed.

End PageWithoutEmbeddedData.

Lemma page_without_embedded_data_is_a_server_error_witness :
  app.handle_scrape_recipe
    (scraper.scrape_recipe_data (W := SamplePage.web)
       (fun _ _ => scraper.Fetched "<html></html>")
       "2024-01-01T00:00:00+00:00")
    (app.mk_request true (Ok (PDict [("url", PStr Sample.teriyaki_url)])))
  = (Ok (scraper.error_dict
           "An unexpected server error occurred. Please check server logs.",
         500),
     [scraper.Sleep 1; scraper.Get Sample.teriyaki_url]).
Proof.
  pose proof (page_without_embedded_data_is_a_server_error
                (W := SamplePage.web)
                (fun _ _ => scraper.Fetched "<html></html>")
                "2024-01-01T00:00:00+00:00"
                (app.mk_request true
                   (Ok (PDict [("url", PStr Sample.teriyaki_url)])))
                [("url", PStr Sample.teriyaki_url)] Sample.teriyaki_url
                "<html></html>") as Hfails.
  destruct Hfails as [_ Hanswer].
  - reflexivity.
  - reflexivity.
  - reflexivity.
  - reflexivity.
  - reflexivity.
  - discriminate.
  - vm_compute. reflexivity.
  - exact Hanswer.
Defined.

(** The handler on the sample page, reached at the second attempt: the
    record is returned with status 200. *)
Lemma handle_scrape_recipe_sample :
  match app.handle_scrape_recipe
          (scraper.scrape_recipe_data (W := SamplePage.web)
             (SamplePage.flaky (scraper.HTTPError 503) "teriyaki")
             "2024-01-01T00:00:00+00:00")
          (app.mk_request true (Ok (PDict [("url", PStr Sample.teriyaki_url)])))
  with
  | (Ok (body, status), events) =>
      status = 200
      /\ map (fun k => body !! k) ["name"; "servings"; "external_id"; "error"]
         = [ Some (PStr "Teriyaki Chicken Tenders with Jasmine Rice and Green Beans");
             Some (PInt 2); Some (PStr "5a664231ad1d6c6f007d0d72"); None ]
      /\ events = [ scraper.Sleep 1; scraper.Get Sample.teriyaki_url;
                    scraper.Sleep (3 # 10); scraper.Get Sample.teriyaki_url ]
  | (Raise _, _) => False
  end.
Proof. vm_compute. repeat split. Qed.

(* ------------------------------------------------------------------ *)
(** ** The unit of an ingredient line                                   *)
(* ------------------------------------------------------------------ *)

Section LineUnit.

Lemma run_opt_skip {X} (r : Re.regex) pos s c
      (k : nat -> string -> Re.caps -> option X) :
  Re.run r pos s c k = None -> Re.run (Re.Opt r) pos s c k = k pos s c.
Proof. intros Hr. cbn [Re.run]. now rewrite Hr. Qed.

Lemma run_opt_some {X} (r : Re.regex) pos s c
      (k : nat -> string -> Re.caps -> option X) (x : X) :
  Re.run r pos s c k = Some x -> Re.run (Re.Opt r) pos s c k = Some x.
Proof. intros Hr. cbn [Re.run]. now rewrite Hr. Qed.

Lemma run_alt_some {X} (r1 r2 : Re.regex) pos s c
      (k : nat -> string -> Re.caps -> option X) (x : X) :
  Re.run r1 pos s c k = Some x -> Re.run (Re.Alt r1 r2) pos s c k = Some x.
Proof. intros Hr. rewrite run_alt. now rewrite Hr. Qed.

Lemma run_alt_miss {X} (r1 r2 : Re.regex) pos s c
      (k : nat -> string -> Re.caps -> option X) :
  Re.run r1 pos s c k = None ->
  Re.run (Re.Alt r1 r2) pos s c k = Re.run r2 pos s c k.
Proof. intros Hr. rewrite run_alt. now rewrite Hr. Qed.

(** A literal does not match text that starts with another letter. *)
Lemma run_lit_ci_miss {X} (a : ascii) (w : string) pos (b : ascii) s c
      (k : nat -> string -> Re.caps -> option X) :
  Str.eqb_ci a b = false ->
  Re.run (Re.lit true (String a w)) pos (String b s) c k = None.
Proof.
  intros Hab. destruct w as [|a' w]; cbn [Re.lit].
  - now rewrite run_chr, Hab.
  - now rewrite run_seq, run_chr, Hab.
Qed.

Lemma run_bol {X} s c (k : nat -> string -> Re.caps -> option X) :
  Re.run Re.Bol 0 s c k = k 0%nat s c.
Proof. reflexivity. Qed.

Lemma star_loop_chr_none {X} (p : ascii -> bool)
      (k : nat -> string -> Re.caps -> option X) (n pos : nat) (s : string)
      (c : Re.caps) :
  match s with String a _ => p a = false | EmptyString => True end ->
  Re.star_loop (Re.Chr p) k n pos s c = k pos s c.
Proof.
  intros Hs. destruct n as [|n]; [reflexivity|]. cbn [Re.star_loop Re.run].
  destruct s as [|a s]; [reflexivity|]. now rewrite Hs.
Qed.

(** Of the unit alternatives, [l] is the first that matches text which
    starts with that letter, in either case. *)
Lemma run_unit_l {X} (l : ascii) (rest : string) (pos : nat) (c : Re.caps)
      (k : nat -> string -> Re.caps -> option X) (x : X) :
  l = "l"%char \/ l = "L"%char ->
  k (S pos) rest c = Some x ->
  Re.run utils.re_unit pos (String l rest) c k = Some x.
Proof.
  intros Hl Hk. unfold utils.re_unit. cbn [map Re.alts].
  assert (Hci : forall a, Str.eqb_ci a "l" = Str.eqb_ci a l)
    by (intros a; now destruct Hl as [-> | ->]).
  repeat (rewrite run_alt_miss
            by (apply run_lit_ci_miss; rewrite <- Hci; reflexivity)).
  apply run_alt_some. cbn [Re.lit]. rewrite run_chr, <- Hci.
  exact Hk.
Qed.

(** The quantity of a line that starts with digits and a blank. *)
Lemma run_quantity_digits {X} (n : N) (l : ascii) (rest : string)
      (pos : nat) (c : Re.caps) (k : nat -> string -> Re.caps -> option X)
      (x : X) :
  Str.is_digit l = false ->
  k (pos + String.length (dec n))%nat (String " " (String l rest)) c = Some x ->
  Re.run utils.re_quantity pos (dec n +:+ String " " (String l rest)) c k
  = Some x.
Proof.
  intros Hl Hk. destruct (dec_spec n) as (Hne & Hd & _).
  unfold utils.re_quantity. cbn [app map Re.alts]. apply run_alt_some.
  rewrite run_seq.
  rewrite (run_plus_chr_run
             (fun c => Str.is_digit c || Str.has_char c "./")).
  - rewrite run_opt_skip; [exact Hk|].
    unfold Re.digit. rewrite run_seq, run_chr. cbn [orb].
    change (Str.is_space " ") with true. cbn [orb].
    now rewrite run_seq, run_chr, Hl.
  - exact Hne.
  - revert Hd. apply all_chars_impl. now intros a ->.
  - reflexivity.
  - rewrite run_opt_skip; [now rewrite Hk|].
    unfold Re.digit. rewrite run_seq, run_chr. cbn [orb].
    change (Str.is_space " ") with true. cbn [orb].
    now rewrite run_seq, run_chr, Hl.
Qed.

(** X23.  The unit pattern takes the first letter of a name that
    starts with [l] or [L]: for a line made of digits, a blank, and
    such a name - ["1 Lime"], ["3 large eggs"], ["1 lb beef"] - the
    unit is that letter alone and the name is what follows it. *)
Theorem split_line_unit_takes_l (n : N) (l : ascii) (rest : string) :
  l = "l"%char \/ l = "L"%char ->
  match rest with
  | String a _ => Str.is_space a = false
  | EmptyString => False
  end ->
  Str.has_char "010" rest = false ->
  utils.split_line (dec n +:+ " " +:+ String l rest)
  = (Some (dec n), Some (String l ""), Str.rstrip_chars "," (Str.strip rest)).
Proof.
  intros Hl Hfirst Hline.
  assert (Hdigit : Str.is_digit l = false)
    by (now destruct Hl as [-> | ->]).
  assert (Hspace : Str.is_space l = false)
    by (now destruct Hl as [-> | ->]).
  assert (Hany : Str.all_chars (fun a => negb (Ascii.eqb a "010")) rest = true).
  { clear Hfirst. induction rest as [|a rest IH]; [reflexivity|].
    cbn [Str.has_char] in Hline. apply orb_false_iff in Hline as [Ha Hrest].
    cbn [Str.all_chars]. now rewrite Ha, IH. }
  destruct (dec_spec n) as (Hne & Hd & _).
  assert (Hm : exists e t,
             Re.rematch utils.pattern (dec n +:+ " " +:+ String l rest)
             = Some (Re.mk_rmatch 0 e t
                       [(3%nat, rest); (2%nat, String l ""); (1%nat, dec n)])).
  { unfold Re.rematch, Re.match_at, utils.pattern. do 2 eexists.
    rewrite run_seq, run_bol, run_seq, run_star_eq. unfold Re.space at 1.
    rewrite star_loop_chr_none.
    2:{ destruct (dec n) as [|a ds]; [congruence|]. rewrite app_cons.
        cbn [Str.all_chars] in Hd. apply andb_true_iff in Hd as [Ha _].
        now destruct (digit_facts a Ha). }
    rewrite run_seq, run_group.
    change (dec n +:+ " " +:+ String l rest)
      with (dec n +:+ String " " (String l rest)).
    apply run_quantity_digits; [exact Hdigit|].
    rewrite run_seq, run_star_eq. unfold Re.space at 1.
    change (String " " (String l rest)) with (" " +:+ String l rest).
    apply star_loop_chr_greedy; [reflexivity | exact Hspace
                                | rewrite length_app; cbn [String.length]; lia |].
    rewrite run_seq. apply run_opt_some. rewrite run_group.
    apply run_unit_l; [exact Hl|].
    rewrite run_seq, run_star_eq. unfold Re.space at 1.
    rewrite star_loop_chr_none by (destruct rest; [exact I | exact Hfirst]).
    rewrite run_group. unfold Re.anychar.
    rewrite <- (app_empty_r rest) at 1.
    rewrite run_plus_chr_run;
      [ | destruct rest; [contradiction | discriminate] | exact Hany
        | exact I | discriminate ].
    cbn [String.length].
    replace (0 + String.length (dec n) - 0)%nat with (String.length (dec n))
      by lia.
    rewrite take_app_length.
    replace (S (0 + String.length (dec n) + 1)
             - (0 + String.length (dec n) + 1))%nat with 1%nat by lia.
    cbn [Str.take].
    replace (S (0 + String.length (dec n) + 1) + String.length rest
             - S (0 + String.length (dec n) + 1))%nat
      with (String.length rest) by lia.
    assert (Htake : Str.take (String.length rest) rest = rest).
    { rewrite <- (app_empty_r rest) at 2. apply take_app_length. }
    rewrite Htake. reflexivity. }
  destruct Hm as (e & t & Hm). unfold utils.split_line. rewrite Hm.
  reflexivity.
Qed.

End LineUnit.

Lemma split_line_unit_takes_l_witness :
  utils.split_line "3 large eggs" = (Some "3", Some "l", "arge eggs").
Proof.
  exact (split_line_unit_takes_l 3 "l" "arge eggs"
           (or_introl eq_refl) eq_refl eq_refl).
Defined.

(* ------------------------------------------------------------------ *)
(** ** Fallback values and tags                                         *)
(* ------------------------------------------------------------------ *)

Section FallbackValues.
Context `{E : Env}.

(** X24.  The specific parser and the processor of embedded lists are
    applied to embedded values only.  When the embedded data gives no
    value for a field, the result is the one that the call would have
    without them: a value found on the page is returned as its fallback
    strategy delivers it - a duration as text, not as minutes. *)
Theorem get_value_fallback_is_not_parsed
    (table : list (string * selector_config)) (json_ld_data : pyval)
    (soup : node) (field_key : string)
    (cleaning_func : option (pyval -> result pyval)) (is_list : bool)
    (json_list_item_processor : option (pyval -> result pyval))
    (css_list_item_processor :
       option (list node -> option (pyval -> result pyval) -> result pyval))
    (specific_json_parser : option (pyval -> result pyval))
    (log : list string) :
  truthy json_ld_data
  && scraper.path_truthy (json_ld_path (table_get table field_key)) = false
  \/ scraper.extract_from_json_ld json_ld_data
       (json_ld_path (table_get table field_key)) = Ok PNone ->
  scraper.get_value table json_ld_data soup field_key cleaning_func is_list
    json_list_item_processor css_list_item_processor specific_json_parser log
  = scraper.get_value table json_ld_data soup field_key cleaning_func is_list
      None css_list_item_processor None log.
Proof.
  intros Hnone. unfold scraper.get_value.
  assert (Hraw : (if truthy json_ld_data
                     && scraper.path_truthy
                          (json_ld_path (table_get table field_key))
                  then scraper.extract_from_json_ld json_ld_data
                         (json_ld_path (table_get table field_key))
                  else Ok PNone) = Ok PNone).
  { destruct Hnone as [-> | ->]; [reflexivity|].
    now destruct (truthy json_ld_data && _). }
  rewrite Hraw. reflexivity.
Qed.

Lemma rstrip_set_cons (p : ascii -> bool) (a : ascii) (s : string) :
  Str.rstrip_set p (String a s)
  = match Str.rstrip_set p s with
    | EmptyString => if p a then EmptyString else String a EmptyString
    | r => String a r
    end.
Proof. reflexivity. Qed.

Lemma rstrip_set_idem (p : ascii -> bool) (s : string) :
  Str.rstrip_set p (Str.rstrip_set p s) = Str.rstrip_set p s.
Proof.
  induction s as [|a s IH]; [reflexivity|]. rewrite rstrip_set_cons.
  destruct (Str.rstrip_set p s) as [|b r] eqn:Hr.
  - destruct (p a) eqn:Ha; [reflexivity|]. cbn [Str.rstrip_set]. now rewrite Ha.
  - rewrite rstrip_set_cons, IH. reflexivity.
Qed.

Lemma rstrip_set_head (p : ascii -> bool) (a : ascii) (s : string) :
  p a = false -> exists r, Str.rstrip_set p (String a s) = String a r.
Proof.
  intros Ha. cbn [Str.rstrip_set]. rewrite Ha.
  destruct (Str.rstrip_set p s); eauto.
Qed.

Lemma lstrip_head (s : string) :
  match Str.lstrip s with
  | String a _ => Str.is_space a = false
  | EmptyString => True
  end.
Proof.
  induction s as [|a s IH]; [exact I|]. cbn [Str.lstrip].
  destruct (Str.is_space a) eqn:Ha; [exact IH | exact Ha].
Qed.

(** [strip] leaves stripped text as it is. *)
Lemma strip_idem (s : string) : Str.strip (Str.strip s) = Str.strip s.
Proof.
  unfold Str.strip, Str.rstrip. pose proof (lstrip_head s) as Hhead.
  destruct (Str.lstrip s) as [|a t]; [reflexivity|].
  destruct (rstrip_set_head Str.is_space a t Hhead) as [r Hr].
  rewrite Hr. cbn [Str.lstrip]. rewrite Hhead, <- Hr.
  apply rstrip_set_idem.
Qed.

(** X25.  The tags of a record are always a list.  From a
    comma-separated text, they are its pieces with the blanks around
    them removed, in order, without the pieces that are blank: no tag
    is empty and none has blanks around it.  A value that is neither
    text nor a list gives no tags. *)
Theorem scrape_tags_from_text
    (table : list (string * selector_config)) (json_ld_data : pyval)
    (soup : node) (scraped_data : gmap string pyval)
    (log log' : list string) (tags_value : pyval) :
  scraper.get_value table json_ld_data soup "tags_array" None false
    None None None log = (Ok tags_value, log') ->
  exists tags,
    scraper.scrape_tags table json_ld_data soup scraped_data log
    = (Ok (<["tags_array" := PList tags]> scraped_data), log')
    /\ (forall s, tags_value = PStr s ->
          exists ts,
            tags = map PStr ts
            /\ ts = map Str.strip
                      (List.filter (fun tag => utils.str_truthy (Str.strip tag))
                         (Str.split_char "," s))
            /\ Forall (fun t => t <> "" /\ Str.strip t = t) ts)
    /\ (is_list tags_value = false ->
        (forall s, tags_value <> PStr s) -> tags = []).
Proof.
  intros Hget. unfold scraper.scrape_tags. rewrite (bind_ok _ _ _ _ _ Hget).
  unfold mret, scraper.M_ret.
  destruct tags_value as [| b | z | q | s | l | d];
    try (exists []; split; [reflexivity | split; [discriminate | reflexivity]]).
  - eexists. split; [reflexivity | split; [|intros _ H; now destruct (H s)]].
    intros s' [= <-]. eexists. split; [|split; [reflexivity|]].
    + now rewrite map_map.
    + induction (Str.split_char "," s) as [|piece pieces IH]; [constructor|].
      cbn [List.filter]. unfold utils.str_truthy at 1.
      destruct (String.eqb_spec (Str.strip piece) "") as [Hemp | Hne];
        cbn [negb map]; [exact IH|].
      constructor; [split; [exact Hne | apply strip_idem] | exact IH].
  - eexists. split; [reflexivity | split; discriminate].
Qed.

End FallbackValues.

Lemma get_value_fallback_is_not_parsed_witness :
  scraper.get_value (E := Sample.env) SELECTORS PNone
    Sample.page_with_fallbacks "prep_time_minutes"
    (Some (scraper.default_clean (E := Sample.env))) false None None
    (Some (utils.parse_duration_to_minutes (E := Sample.env))) []
  = (Ok (PStr "PT30M"), ["*[itemprop='prepTime']"]).
Proof.
  rewrite (get_value_fallback_is_not_parsed (E := Sample.env) SELECTORS PNone
             Sample.page_with_fallbacks "prep_time_minutes"
             (Some (scraper.default_clean (E := Sample.env))) false None None
             (Some (utils.parse_duration_to_minutes (E := Sample.env))) []
             (or_introl eq_refl)).
  vm_compute. reflexivity.
Defined.

Lemma scrape_tags_from_text_witness :
  exists tags,
    scraper.scrape_tags (E := Sample.env) SELECTORS
      (PDict [("keywords", PStr "Quick , ,Spicy,  Family Friendly ")])
      Sample.empty_page ∅ []
    = (Ok (<["tags_array" := PList tags]> ∅), [])
    /\ tags = [PStr "Quick"; PStr "Spicy"; PStr "Family Friendly"].
Proof.
  destruct (scrape_tags_from_text (E := Sample.env) SELECTORS
              (PDict [("keywords", PStr "Quick , ,Spicy,  Family Friendly ")])
              Sample.empty_page ∅ [] []
              (PStr "Quick , ,Spicy,  Family Friendly ") eq_refl)
    as (tags & Hrun & Htext & _).
  exists tags. split; [exact Hrun|].
  destruct (Htext _ eq_refl) as (ts & -> & -> & _). reflexivity.
Defined.
